(** * Domain layer of the user-management application

    A shallow embedding of the TypeScript domain layer
    ([core/domain]: the [User] entity, the domain errors, the repository
    interface and the five use cases) together with the JavaScript
    primitives it relies on (strings as sequences of UTF-16 code units,
    [String.prototype.trim], anchored regular expressions, numbers,
    [Date] and its ISO-8601 text form, single-shot observables). *)

From Stdlib Require Import ZArith NArith QArith Lia List String Ascii.
From Stdlib Require Import DecimalString DecimalN DecimalPos.
From stdpp Require Import gmap strings list.
Close Scope Q_scope.

(* ===================================================================== *)
(** * Part I: definitions *)
(* ===================================================================== *)

(** ** JavaScript strings *)

(** A JavaScript string is a finite sequence of UTF-16 code units. *)
Definition jsstring : Type := list N.

(** Literal of the source text (all literals of the domain layer are ASCII). *)
Definition str (s : string) : jsstring :=
  List.map N_of_ascii (list_ascii_of_string s).

(** String concatenation, as in a template literal. *)
Definition strcat (a b : jsstring) : jsstring := a ++ b.

(** [s.length] *)
Definition strlen (s : jsstring) : Z := Z.of_nat (List.length s).

(** Equality test on strings ([===]). *)
Definition str_eqb (a b : jsstring) : bool :=
  bool_decide (a = b).

(** The code units ECMAScript calls WhiteSpace or LineTerminator: exactly
    the set removed by [trim()] and matched by the class escape [\s]. *)
Definition isWhiteSpace (c : N) : bool :=
  ((9 <=? c) && (c <=? 13) || (c =? 32) || (c =? 160) || (c =? 5760)
   || ((8192 <=? c) && (c <=? 8202)) || (c =? 8232) || (c =? 8233)
   || (c =? 8239) || (c =? 8287) || (c =? 12288) || (c =? 65279))%N.

(** [a-zA-Z] *)
Definition isAsciiLetter (c : N) : bool :=
  ((97 <=? c) && (c <=? 122) || (65 <=? c) && (c <=? 90))%N.

Fixpoint trimStart (s : jsstring) : jsstring :=
  match s with
  | c :: rest => if isWhiteSpace c then trimStart rest else s
  | [] => []
  end.

Definition trimEnd (s : jsstring) : jsstring :=
  List.rev (trimStart (List.rev s)).

(** [s.trim()] *)
Definition trim (s : jsstring) : jsstring := trimEnd (trimStart s).

(** ** Regular expressions

    The two regular expressions of the domain layer are anchored at both
    ends ([^...$]) and used only through [test], so [test] is membership of
    the whole string in the language of the pattern; it is decided with
    Brzozowski derivatives. *)
Module RegExp.

Inductive t : Type :=
| Void                      (* matches nothing *)
| Eps                       (* the empty string *)
| Class (p : N -> bool)     (* one code unit of a character class *)
| Seq (r1 r2 : t)
| Alt (r1 r2 : t)
| Star (r : t).

(** [r+] *)
Definition Plus (r : t) : t := Seq r (Star r).

(** A literal code unit. *)
Definition Chr (c : N) : t := Class (N.eqb c).

Fixpoint nullable (r : t) : bool :=
  match r with
  | Void => false
  | Eps => true
  | Class _ => false
  | Seq r1 r2 => nullable r1 && nullable r2
  | Alt r1 r2 => nullable r1 || nullable r2
  | Star _ => true
  end.

Fixpoint deriv (c : N) (r : t) : t :=
  match r with
  | Void => Void
  | Eps => Void
  | Class p => if p c then Eps else Void
  | Seq r1 r2 =>
      if nullable r1
      then Alt (Seq (deriv c r1) r2) (deriv c r2)
      else Seq (deriv c r1) r2
  | Alt r1 r2 => Alt (deriv c r1) (deriv c r2)
  | Star r1 => Seq (deriv c r1) (Star r1)
  end.

(** [/^r$/.test(s)] *)
Definition test (r : t) (s : jsstring) : bool :=
  nullable (List.fold_left (fun r c => deriv c r) s r).

(** The strings that a pattern matches as a whole. *)
Inductive Matches : RegExp.t -> jsstring -> Prop :=
| MEps : Matches Eps []
| MClass p c : p c = true -> Matches (Class p) [c]
| MSeq r1 r2 s1 s2 :
    Matches r1 s1 -> Matches r2 s2 -> Matches (Seq r1 r2) (s1 ++ s2)
| MAltL r1 r2 s : Matches r1 s -> Matches (Alt r1 r2) s
| MAltR r1 r2 s : Matches r2 s -> Matches (Alt r1 r2) s
| MStarNil r : Matches (Star r) []
| MStarApp r s1 s2 :
    Matches r s1 -> Matches (Star r) s2 -> Matches (Star r) (s1 ++ s2).

End RegExp.

(** [[^\s@]] *)
Definition notSpaceNorAt (c : N) : bool :=
  negb (isWhiteSpace c || (c =? 64)%N).

(** [/^[^\s@]+@[^\s@]+\.[^\s@]+$/] *)
Definition emailRegex : RegExp.t :=
  RegExp.Seq (RegExp.Plus (RegExp.Class notSpaceNorAt))
    (RegExp.Seq (RegExp.Chr 64)
      (RegExp.Seq (RegExp.Plus (RegExp.Class notSpaceNorAt))
        (RegExp.Seq (RegExp.Chr 46)
          (RegExp.Plus (RegExp.Class notSpaceNorAt))))).

(** [/^[a-zA-Z\s]+$/] *)
Definition nameRegex : RegExp.t :=
  RegExp.Plus (RegExp.Class (fun c => isAsciiLetter c || isWhiteSpace c)).

(** ** Errors

    [domain-errors.ts]: the abstract class [DomainError] and its eight
    subclasses, one constructor per subclass with the arguments of the
    TypeScript constructor. *)
Inductive DomainError : Type :=
| UserNotFoundError (userId : jsstring)
| UserAlreadyExistsError (email : jsstring)
| InvalidUserDataError (message : jsstring) (validationErrors : option (list jsstring))
| UserInactiveError (userId : jsstring)
| ValidationError (message : jsstring) (validationErrors : list jsstring)
| BusinessRuleViolationError (message : jsstring) (rule : jsstring)
| RepositoryError (message : jsstring) (operation : jsstring)
| NetworkError (message : jsstring).

(** [readonly code] of each subclass. *)
Definition code (e : DomainError) : jsstring :=
  match e with
  | UserNotFoundError _ => str "USER_NOT_FOUND"
  | UserAlreadyExistsError _ => str "USER_ALREADY_EXISTS"
  | InvalidUserDataError _ _ => str "INVALID_USER_DATA"
  | UserInactiveError _ => str "USER_INACTIVE"
  | ValidationError _ _ => str "VALIDATION_ERROR"
  | BusinessRuleViolationError _ _ => str "BUSINESS_RULE_VIOLATION"
  | RepositoryError _ _ => str "REPOSITORY_ERROR"
  | NetworkError _ => str "NETWORK_ERROR"
  end.

(** [readonly userMessage] of each subclass. *)
Definition userMessage (e : DomainError) : jsstring :=
  match e with
  | UserNotFoundError _ => str "User not found"
  | UserAlreadyExistsError _ => str "A user with this email already exists"
  | InvalidUserDataError _ _ => str "Invalid user data provided"
  | UserInactiveError _ => str "Cannot perform operation on inactive user"
  | ValidationError _ _ => str "Validation failed"
  | BusinessRuleViolationError _ _ => str "Business rule violation"
  | RepositoryError _ _ => str "Data access error occurred"
  | NetworkError _ => str "Network connection error"
  end.

(** The message each subclass hands to [super(message)]. *)
Definition domainMessage (e : DomainError) : jsstring :=
  match e with
  | UserNotFoundError userId =>
      strcat (str "User with ID ") (strcat userId (str " not found"))
  | UserAlreadyExistsError email =>
      strcat (str "User with email ") (strcat email (str " already exists"))
  | InvalidUserDataError m _ => m
  | UserInactiveError userId =>
      strcat (str "User ") (strcat userId (str " is inactive"))
  | ValidationError m _ => m
  | BusinessRuleViolationError m _ => m
  | RepositoryError m _ => m
  | NetworkError m => m
  end.

(** [details]: only [InvalidUserDataError] passes a second argument to
    [super]. *)
Definition details (e : DomainError) : option (list jsstring) :=
  match e with
  | InvalidUserDataError _ d => d
  | _ => None
  end.

(** The values thrown in the domain layer: the built-in [Error] and
    [RangeError], or an instance of a [DomainError] subclass. *)
Inductive JsError : Type :=
| Error (message : jsstring)
| RangeError (message : jsstring)
| Domain (e : DomainError).

(** [e.message] *)
Definition message (e : JsError) : jsstring :=
  match e with
  | Error m | RangeError m => m
  | Domain d => domainMessage d
  end.

(** [e.code] and [e.userMessage]: only a [DomainError] has them. *)
Definition codeOf (e : JsError) : option jsstring :=
  match e with
  | Domain d => Some (code d)
  | _ => None
  end.

Definition userMessageOf (e : JsError) : option jsstring :=
  match e with
  | Domain d => Some (userMessage d)
  | _ => None
  end.

(** [e instanceof DomainError] *)
Definition isDomainError (e : JsError) : bool :=
  match e with
  | Domain _ => true
  | _ => false
  end.

(** Completion of a synchronous call: it returns or it throws. *)
Inductive Completion (A : Type) : Type :=
| Return (a : A)
| Throw (e : JsError).
Arguments Return {A} a.
Arguments Throw {A} e.

(** Sequencing of statements that may throw. *)
Definition andThen {A B : Type} (c : Completion A) (k : A -> Completion B)
  : Completion B :=
  match c with
  | Return a => k a
  | Throw e => Throw e
  end.

Notation "c ;;; k" := (andThen c (fun _ => k))
  (at level 100, k at level 200, right associativity).

(** [if (cond) throw new Error(msg);] *)
Definition throwIf (cond : bool) (msg : string) : Completion unit :=
  if cond then Throw (Error (str msg)) else Return tt.

(** ** Numbers and values *)

(** A JavaScript number: [NaN], an infinity, or a finite value.  Finite
    doubles are rationals, and the domain layer only compares numbers and
    takes minima, which are exact. *)
Inductive JsNumber : Type :=
| NaN
| Infinity (negative : bool)
| Finite (q : Q).

Definition num (z : Z) : JsNumber := Finite (inject_Z z).

(** ToBoolean on a number: [0] and [NaN] are falsy. *)
Definition num_truthy (n : JsNumber) : bool :=
  match n with
  | NaN => false
  | Infinity _ => true
  | Finite q => negb (Qeq_bool q 0)
  end.

(** [a < b]; every comparison with [NaN] is false. *)
Definition num_lt (a b : JsNumber) : bool :=
  match a, b with
  | NaN, _ | _, NaN => false
  | Infinity true, Infinity true => false
  | Infinity true, _ => true
  | _, Infinity true => false
  | Infinity false, _ => false
  | Finite _, Infinity false => true
  | Finite p, Finite q => negb (Qle_bool q p)
  end.

(** [a > b] *)
Definition num_gt (a b : JsNumber) : bool := num_lt b a.

(** [Math.min(a, b)] *)
Definition Math_min (a b : JsNumber) : JsNumber :=
  match a, b with
  | NaN, _ | _, NaN => NaN
  | _, _ => if num_lt b a then b else a
  end.

(** [Math.max(a, b)] *)
Definition Math_max (a b : JsNumber) : JsNumber :=
  match a, b with
  | NaN, _ | _, NaN => NaN
  | _, _ => if num_lt a b then b else a
  end.

(** The primitive values a plain data object (JSON) can hold. *)
Inductive JsVal : Type :=
| VUndefined
| VNull
| VBool (b : bool)
| VNum (n : JsNumber)
| VStr (s : jsstring).

(** ** Dates

    A [Date] object holds a time value: an integral number of milliseconds
    since the epoch with absolute value at most 8.64e15, or [NaN] (an
    invalid date, [None] here).  The day, year and month arithmetic is the
    one ECMAScript defines. *)
Module JsDate.
Local Open Scope Z_scope.

Definition t : Type := option Z.

Definition msPerDay : Z := 86400000.
Definition msPerHour : Z := 3600000.
Definition msPerMinute : Z := 60000.
Definition msPerSecond : Z := 1000.
Definition maxTime : Z := 8640000000000000.

(** The time values a [Date] can hold. *)
Definition inRange (tv : Z) : bool :=
  (- maxTime <=? tv) && (tv <=? maxTime).

Definition TimeClip (tv : Z) : t :=
  if inRange tv then Some tv else None.

(** [TimeClip] on a number: non-finite and out-of-range values give an
    invalid date, the others are truncated towards zero. *)
Definition TimeClipNumber (n : JsNumber) : t :=
  match n with
  | Finite q =>
      if Qle_bool (inject_Z (- maxTime)) q && Qle_bool q (inject_Z maxTime)
      then Some (Z.quot (Qnum q) (Z.pos (Qden q)))
      else None
  | _ => None
  end.

Definition Day (tv : Z) : Z := tv / msPerDay.
Definition TimeWithinDay (tv : Z) : Z := tv mod msPerDay.

Definition DaysInYear (y : Z) : Z :=
  if (y mod 4 =? 0) && negb (y mod 100 =? 0) || (y mod 400 =? 0)
  then 366 else 365.

Definition DayFromYear (y : Z) : Z :=
  365 * (y - 1970) + (y - 1969) / 4 - (y - 1901) / 100 + (y - 1601) / 400.

(** The year that contains day number [d]: an estimate from the mean
    length of a year, corrected by at most one. *)
Definition YearFromDay (d : Z) : Z :=
  let e := 1970 + (d * 400) / 146097 in
  if d <? DayFromYear e then e - 1
  else if DayFromYear (e + 1) <=? d then e + 1
  else e.

Definition YearFromTime (tv : Z) : Z := YearFromDay (Day tv).
Definition InLeapYear (tv : Z) : Z := DaysInYear (YearFromTime tv) - 365.
Definition DayWithinYear (tv : Z) : Z :=
  Day tv - DayFromYear (YearFromTime tv).

(** Day within the year on which month [m] (0 = January) starts. *)
Definition monthStart (leap m : Z) : Z :=
  match m with
  | 0 => 0
  | 1 => 31
  | 2 => 59 + leap
  | 3 => 90 + leap
  | 4 => 120 + leap
  | 5 => 151 + leap
  | 6 => 181 + leap
  | 7 => 212 + leap
  | 8 => 243 + leap
  | 9 => 273 + leap
  | 10 => 304 + leap
  | 11 => 334 + leap
  | _ => 365 + leap
  end.

Definition monthOfDay (leap d : Z) : Z :=
  if d <? 31 then 0
  else if d <? 59 + leap then 1
  else if d <? 90 + leap then 2
  else if d <? 120 + leap then 3
  else if d <? 151 + leap then 4
  else if d <? 181 + leap then 5
  else if d <? 212 + leap then 6
  else if d <? 243 + leap then 7
  else if d <? 273 + leap then 8
  else if d <? 304 + leap then 9
  else if d <? 334 + leap then 10
  else 11.

Definition MonthFromTime (tv : Z) : Z :=
  monthOfDay (InLeapYear tv) (DayWithinYear tv).

Definition DateFromTime (tv : Z) : Z :=
  DayWithinYear tv - monthStart (InLeapYear tv) (MonthFromTime tv) + 1.

Definition HourFromTime (tv : Z) : Z := (tv / msPerHour) mod 24.
Definition MinFromTime (tv : Z) : Z := (tv / msPerMinute) mod 60.
Definition SecFromTime (tv : Z) : Z := (tv / msPerSecond) mod 60.
Definition msFromTime (tv : Z) : Z := tv mod msPerSecond.

Definition MakeTime (h m s ms : Z) : Z :=
  h * msPerHour + m * msPerMinute + s * msPerSecond + ms.

(** [MakeDay] for a month in [0..11]. *)
Definition MakeDay (y m d : Z) : Z :=
  DayFromYear y + monthStart (DaysInYear y - 365) m + d - 1.

Definition MakeDate (day time : Z) : Z := day * msPerDay + time.

Definition DaysInMonth (y m : Z) : Z :=
  monthStart (DaysInYear y - 365) (m + 1) - monthStart (DaysInYear y - 365) m.

(** *** Text form *)

(** [n] written with exactly [k] decimal digits (the low ones). *)
Fixpoint digitsOf (k : nat) (n : Z) : jsstring :=
  match k with
  | O => []
  | S k' => digitsOf k' (n / 10) ++ [Z.to_N (48 + n mod 10)]
  end.

(** Years 0 to 9999 take four digits, the others a sign and six. *)
Definition yearText (y : Z) : jsstring :=
  if (0 <=? y) && (y <=? 9999) then digitsOf 4 y
  else (if y <? 0 then 45%N else 43%N) :: digitsOf 6 (Z.abs y).

(** [YYYY-MM-DDTHH:mm:ss.sssZ] *)
Definition isoText (tv : Z) : jsstring :=
  yearText (YearFromTime tv) ++ [45%N]
    ++ digitsOf 2 (MonthFromTime tv + 1) ++ [45%N]
    ++ digitsOf 2 (DateFromTime tv) ++ [84%N]
    ++ digitsOf 2 (HourFromTime tv) ++ [58%N]
    ++ digitsOf 2 (MinFromTime tv) ++ [58%N]
    ++ digitsOf 2 (SecFromTime tv) ++ [46%N]
    ++ digitsOf 3 (msFromTime tv) ++ [90%N].

(** [d.toISOString()]: throws a [RangeError] on an invalid date. *)
Definition toISOString (d : t) : Completion jsstring :=
  match d with
  | Some tv => Return (isoText tv)
  | None => Throw (RangeError (str "Invalid time value"))
  end.

Definition digit (c : N) : option Z :=
  if ((48 <=? c) && (c <=? 57))%N then Some (Z.of_N c - 48) else None.

Definition numberOf (ds : jsstring) : option Z :=
  List.fold_left
    (fun acc c =>
       match acc, digit c with
       | Some a, Some d => Some (a * 10 + d)
       | _, _ => None
       end)
    ds (Some 0).

(** Reads exactly [k] digits from the front of [s]. *)
Definition takeDigits (k : nat) (s : jsstring) : option (Z * jsstring) :=
  if (k <=? List.length s)%nat
  then n ← numberOf (List.firstn k s); Some (n, List.skipn k s)
  else None.

Definition expect (c : N) (s : jsstring) : option jsstring :=
  match s with
  | c' :: rest => if (c =? c')%N then Some rest else None
  | [] => None
  end.

(** A four-digit year, or a sign and six digits; [-000000] is not a
    year. *)
Definition takeYear (s : jsstring) : option (Z * jsstring) :=
  match s with
  | c :: rest =>
      if (c =? 43)%N then takeDigits 6 rest
      else if (c =? 45)%N then
        '(y, r) ← takeDigits 6 rest;
        if y =? 0 then None else Some (- y, r)
      else takeDigits 4 s
  | [] => None
  end.

(** The date-time form that [toISOString] writes, with every field in
    its calendar range and the result a time value a [Date] can hold. *)
Definition parseISO (s : jsstring) : option Z :=
  '(y, s) ← takeYear s;
  s ← expect 45 s;
  '(mo, s) ← takeDigits 2 s;
  s ← expect 45 s;
  '(d, s) ← takeDigits 2 s;
  s ← expect 84 s;
  '(h, s) ← takeDigits 2 s;
  s ← expect 58 s;
  '(mi, s) ← takeDigits 2 s;
  s ← expect 58 s;
  '(sec, s) ← takeDigits 2 s;
  s ← expect 46 s;
  '(ms, s) ← takeDigits 3 s;
  s ← expect 90 s;
  match s with
  | [] =>
      if (1 <=? mo) && (mo <=? 12) && (1 <=? d) && (d <=? DaysInMonth y (mo - 1))
         && (h <=? 23) && (mi <=? 59) && (sec <=? 59)
      then TimeClip (MakeDate (MakeDay y (mo - 1) d) (MakeTime h mi sec ms))
      else None
  | _ :: _ => None
  end.

(** What the host does with a string that is not in that form (other
    ISO forms read in local time, legacy formats, out-of-range fields):
    the language leaves it to the implementation. *)
Class Host : Type := { hostParse : jsstring -> t }.

(** [Date.parse(s)] *)
Definition parse `{Host} (s : jsstring) : t :=
  match parseISO s with
  | Some tv => Some tv
  | None => hostParse s
  end.

(** [new Date(v)] for a primitive [v]. *)
Definition new `{Host} (v : JsVal) : t :=
  match v with
  | VUndefined => None
  | VNull => Some 0
  | VBool b => Some (if b then 1 else 0)
  | VNum n => TimeClipNumber n
  | VStr s => parse s
  end.

(** [a >= b] and [a > b] on dates compare the time values; with an
    invalid date both are false. *)
Definition geb (a b : t) : bool :=
  match a, b with
  | Some x, Some y => y <=? x
  | _, _ => false
  end.

Definition gtb (a b : t) : bool :=
  match a, b with
  | Some x, Some y => y <? x
  | _, _ => false
  end.

End JsDate.

(** A host that recognises nothing but the ISO date-time form. *)
Definition strictHost : JsDate.Host := {| JsDate.hostParse := fun _ => None |}.

(** ** The [User] entity ([user.entity.ts]) *)
Module User.

Record t : Type := mk {
  id : jsstring;
  email : jsstring;
  firstName : jsstring;
  lastName : jsstring;
  createdAt : JsDate.t;
  updatedAt : JsDate.t;
  isActive : bool
}.

(** [private validateEmail(email)] *)
Definition validateEmail (email : jsstring) : Completion unit :=
  if negb (RegExp.test emailRegex email)
  then Throw (Error (str "Invalid email format"))
  else Return tt.

(** [private validateName(name, fieldName)]; [!name] holds of the empty
    string only. *)
Definition validateName (name : jsstring) (fieldName : string)
  : Completion unit :=
  if str_eqb name [] || (strlen (trim name) <? 2)%Z
  then Throw (Error (strcat (str fieldName)
                       (str " must be at least 2 characters long")))
  else Return tt.

(** [new User(id, email, firstName, lastName, createdAt, updatedAt,
    isActive = true)]: the last argument may be left out or be
    [undefined] ([None]).  No object exists when a validation throws. *)
Definition new (id email firstName lastName : jsstring)
    (createdAt updatedAt : JsDate.t) (isActive : option bool)
  : Completion t :=
  validateEmail email ;;;
  validateName firstName "First name" ;;;
  validateName lastName "Last name" ;;;
  Return (mk id email firstName lastName createdAt updatedAt
            (default true isActive)).

(** [get fullName()] *)
Definition fullName (u : t) : jsstring :=
  strcat (firstName u) (strcat (str " ") (lastName u)).

(** [get isUserActive()] *)
Definition isUserActive (u : t) : bool := isActive u.

(** [updateInfo(firstName, lastName)]; [now] is the value of
    [new Date()]. *)
Definition updateInfo (now : JsDate.t) (u : t) (firstName lastName : jsstring)
  : Completion t :=
  new (id u) (email u) firstName lastName (createdAt u) now (Some (isActive u)).

Definition deactivate (now : JsDate.t) (u : t) : Completion t :=
  new (id u) (email u) (firstName u) (lastName u) (createdAt u) now (Some false).

Definition activate (now : JsDate.t) (u : t) : Completion t :=
  new (id u) (email u) (firstName u) (lastName u) (createdAt u) now (Some true).

(** [toJSON()]: a plain object with eight keys. *)
Definition toJSON (u : t) : Completion (gmap string JsVal) :=
  andThen (JsDate.toISOString (createdAt u)) (fun created =>
  andThen (JsDate.toISOString (updatedAt u)) (fun updated =>
  Return (<["id" := VStr (id u)]>
          (<["email" := VStr (email u)]>
          (<["firstName" := VStr (firstName u)]>
          (<["lastName" := VStr (lastName u)]>
          (<["fullName" := VStr (fullName u)]>
          (<["createdAt" := VStr created]>
          (<["updatedAt" := VStr updated]>
          (<["isActive" := VBool (isActive u)]> ∅))))))))))%string.

(** [data.key]: a missing property reads as [undefined]. *)
Definition prop (data : gmap string JsVal) (key : string) : JsVal :=
  default VUndefined (data !! key).

Definition asString (v : JsVal) : option jsstring :=
  match v with
  | VStr s => Some s
  | _ => None
  end.

Definition asOptionalBool (v : JsVal) : option (option bool) :=
  match v with
  | VUndefined => Some None
  | VBool b => Some (Some b)
  | _ => None
  end.

(** [static fromJSON(data: any)].  The argument is untyped; the result
    is [None] when a property does not have the type that the
    constructor declares for its parameter ([string] for the first four,
    [boolean] or [undefined] for the last), which is outside what the
    typed entity can describe.  [new Date(...)] takes any value. *)
Definition fromJSON `{JsDate.Host} (data : gmap string JsVal)
  : option (Completion t) :=
  id ← asString (prop data "id");
  email ← asString (prop data "email");
  firstName ← asString (prop data "firstName");
  lastName ← asString (prop data "lastName");
  isActive ← asOptionalBool (prop data "isActive");
  Some (new id email firstName lastName
          (JsDate.new (prop data "createdAt"))
          (JsDate.new (prop data "updatedAt"))
          isActive).

(** [User.fromJSON(u.toJSON())], the round trip of the serialization
    test. *)
Definition roundTrip `{JsDate.Host} (u : t) : option (Completion t) :=
  match toJSON u with
  | Return data => fromJSON data
  | Throw e => Some (Throw e)
  end.

(** The invariants that the constructor enforces. *)
Definition invariants (email firstName lastName : jsstring) : bool :=
  RegExp.test emailRegex email
  && (2 <=? strlen (trim firstName))%Z && (2 <=? strlen (trim lastName))%Z.

End User.

(** ** Repository contract ([user.repository.interface.ts]) *)

(** Options of [getAll], and of [ListUsersUseCase.execute]; an optional
    property is [None] when it is missing or [undefined]. *)
Module ListOptions.
Record t : Type := mk {
  page : option JsNumber;
  limit : option JsNumber;
  search : option jsstring;
  isActive : option bool
}.
End ListOptions.

Module UserPage.
Record t : Type := mk {
  users : list User.t;
  total : JsNumber;
  page : JsNumber;
  limit : JsNumber
}.
End UserPage.

Module CreateUserData.
Record t : Type := mk {
  email : jsstring;
  firstName : jsstring;
  lastName : jsstring
}.
End CreateUserData.

(** A property declared [name?: string]: the key may be missing, present
    with the value [undefined], or present with a string. *)
Inductive Field : Type :=
| Missing
| Undefined
| Present (s : jsstring).

Module UpdateUserData.
Record t : Type := mk {
  firstName : Field;
  lastName : Field
}.

(** [Object.keys(userData).length] *)
Definition keyCount (d : t) : nat :=
  (match firstName d with Missing => 0 | _ => 1 end)
  + (match lastName d with Missing => 0 | _ => 1 end).
End UpdateUserData.

(** What an observable of the repository delivers to its subscriber: the
    repository's observables deliver one value and complete, or fail. *)
Inductive Notification (A : Type) : Type :=
| Next (a : A)
| Failure (e : JsError).
Arguments Next {A} a.
Arguments Failure {A} e.

(** The interface [IUserRepository]; an implementation has a state of type
    [R], which every operation may read and change. *)
Module IUserRepository.
Class t (R : Type) : Type := {
  getAll : ListOptions.t -> R -> Notification UserPage.t * R;
  getById : jsstring -> R -> Notification (option User.t) * R;
  getByEmail : jsstring -> R -> Notification (option User.t) * R;
  create : CreateUserData.t -> R -> Notification User.t * R;
  update : jsstring -> UpdateUserData.t -> R -> Notification User.t * R;
  delete : jsstring -> R -> Notification bool * R;
  permanentDelete : jsstring -> R -> Notification bool * R;
  existsByEmail : jsstring -> R -> Notification bool * R;
  getByDateRange : JsDate.t -> JsDate.t -> R -> Notification (list User.t) * R;
  getActiveUsersCount : R -> Notification JsNumber * R;
  search : jsstring -> option JsNumber -> R -> Notification (list User.t) * R
}.
End IUserRepository.

(** The repository operations, with their arguments, in the order in which
    a use case invokes them. *)
Inductive Call : Type :=
| GetAll (options : ListOptions.t)
| GetById (id : jsstring)
| GetByEmail (email : jsstring)
| Create (userData : CreateUserData.t)
| Update (id : jsstring) (userData : UpdateUserData.t)
| Delete (id : jsstring)
| PermanentDelete (id : jsstring)
| ExistsByEmail (email : jsstring)
| GetByDateRange (startDate endDate : JsDate.t)
| GetActiveUsersCount
| Search (query : jsstring) (limit : option JsNumber).

(** ** Observables

    An observable is run against the repository; it leaves a notification,
    the new state of the repository and the calls made, in order. *)
Module Rx.
Section Rx.
Context {R : Type}.

Record World : Type := mkWorld { repo : R; calls : list Call }.

Definition Observable (A : Type) : Type :=
  World -> Notification A * World.

(** The observable returned by a repository method. *)
Definition invoke {A : Type} (c : Call) (op : R -> Notification A * R)
  : Observable A :=
  fun w =>
    let (n, r') := op (repo w) in
    (n, mkWorld r' (calls w ++ [c])).

(** [throwError(() => e)] *)
Definition throwError {A : Type} (e : JsError) : Observable A :=
  fun w => (Failure e, w).

(** [source.pipe(switchMap(project))]: an exception thrown by
    [project] is delivered as the error of the resulting observable. *)
Definition switchMap {A B : Type} (source : Observable A)
    (project : A -> Completion (Observable B)) : Observable B :=
  fun w =>
    match source w with
    | (Next a, w') =>
        match project a with
        | Return inner => inner w'
        | Throw e => (Failure e, w')
        end
    | (Failure e, w') => (Failure e, w')
    end.

(** [source.pipe(map(f))] *)
Definition map {A B : Type} (f : A -> B) (source : Observable A)
  : Observable B :=
  fun w =>
    match source w with
    | (Next a, w') => (Next (f a), w')
    | (Failure e, w') => (Failure e, w')
    end.

(** What the caller of a use case observes: a synchronous exception,
    a value, or the error of the observable. *)
Inductive Outcome (A : Type) : Type :=
| Thrown (e : JsError)
| Emitted (a : A)
| Errored (e : JsError).

Arguments Thrown {A} e.
Arguments Emitted {A} a.
Arguments Errored {A} e.

(** A notification, as the subscriber sees it. *)
Definition deliver {A : Type} (n : Notification A) : Outcome A :=
  match n with
  | Next a => Emitted a
  | Failure e => Errored e
  end.

(** Calls a use-case method and subscribes to what it returns. *)
Definition subscribe {A : Type} (method : Completion (Observable A))
    (w : World) : Outcome A * World :=
  match method with
  | Throw e => (Thrown e, w)
  | Return o => let (n, w') := o w in (deliver n, w')
  end.

(** The error a caller receives, if any. *)
Definition failure {A : Type} (o : Outcome A) : option JsError :=
  match o with
  | Thrown e | Errored e => Some e
  | Emitted _ => None
  end.
End Rx.
Arguments World R : clear implicits.
Arguments Observable R A : clear implicits.
Arguments Thrown {A} e.
Arguments Emitted {A} a.
Arguments Errored {A} e.
End Rx.

(** ** Use cases *)

(** [!s || s.trim().length === 0] *)
Definition isBlank (s : jsstring) : bool :=
  str_eqb s [] || (strlen (trim s) =? 0)%Z.

(** [get-user.use-case.ts] *)
Module GetUserUseCase.
Section GetUserUseCase.
Context {R : Type} `{IUserRepository.t R}.

Definition execute (id : jsstring)
  : Completion (Rx.Observable R (option User.t)) :=
  throwIf (isBlank id) "User ID is required" ;;;
  Return (Rx.invoke (GetById id) (IUserRepository.getById id)).

Definition executeByEmail (email : jsstring)
  : Completion (Rx.Observable R (option User.t)) :=
  throwIf (isBlank email) "Email is required" ;;;
  throwIf (negb (RegExp.test emailRegex email)) "Invalid email format" ;;;
  Return (Rx.invoke (GetByEmail email) (IUserRepository.getByEmail email)).
End GetUserUseCase.
End GetUserUseCase.

(** [create-user.use-case.ts] *)
Module CreateUserUseCase.
Section CreateUserUseCase.
Context {R : Type} `{IUserRepository.t R}.

(** [private validateUserData(userData)] *)
Definition validateUserData (userData : CreateUserData.t)
  : Completion unit :=
  let email := CreateUserData.email userData in
  let firstName := CreateUserData.firstName userData in
  let lastName := CreateUserData.lastName userData in
  throwIf (isBlank email) "Email is required" ;;;
  throwIf (isBlank firstName) "First name is required" ;;;
  throwIf (isBlank lastName) "Last name is required" ;;;
  throwIf (negb (RegExp.test emailRegex email)) "Invalid email format" ;;;
  throwIf (strlen (trim firstName) <? 2)%Z
    "First name must be at least 2 characters long" ;;;
  throwIf (strlen (trim lastName) <? 2)%Z
    "Last name must be at least 2 characters long" ;;;
  throwIf (negb (RegExp.test nameRegex firstName))
    "First name can only contain letters and spaces" ;;;
  throwIf (negb (RegExp.test nameRegex lastName))
    "Last name can only contain letters and spaces".

Definition execute (userData : CreateUserData.t)
  : Completion (Rx.Observable R User.t) :=
  validateUserData userData ;;;
  Return
    (Rx.map (fun user => user)
       (Rx.switchMap
          (Rx.invoke (ExistsByEmail (CreateUserData.email userData))
             (IUserRepository.existsByEmail (CreateUserData.email userData)))
          (fun exists_ =>
             if exists_ : bool
             then Return (Rx.throwError
                            (Error (str "User with this email already exists")))
             else Return (Rx.invoke (Create userData)
                            (IUserRepository.create userData))))).
End CreateUserUseCase.
End CreateUserUseCase.

(** [update-user.use-case.ts] *)
Module UpdateUserUseCase.
Section UpdateUserUseCase.
Context {R : Type} `{IUserRepository.t R}.

(** [private validateInput(id, userData)] *)
Definition validateInput (id : jsstring) (userData : UpdateUserData.t)
  : Completion unit :=
  throwIf (isBlank id) "User ID is required" ;;;
  throwIf (UpdateUserData.keyCount userData =? 0)%nat
    "Update data is required".

(** The checks made on one name when it is not [undefined]. *)
Definition validateField (f : Field) (label : string) : Completion unit :=
  match f with
  | Present name =>
      throwIf (isBlank name) (label ++ " cannot be empty")%string ;;;
      throwIf (strlen (trim name) <? 2)%Z
        (label ++ " must be at least 2 characters long")%string ;;;
      throwIf (negb (RegExp.test nameRegex name))
        (label ++ " can only contain letters and spaces")%string
  | Missing | Undefined => Return tt
  end.

(** [private validateUpdateData(userData)] *)
Definition validateUpdateData (userData : UpdateUserData.t)
  : Completion unit :=
  validateField (UpdateUserData.firstName userData) "First name" ;;;
  validateField (UpdateUserData.lastName userData) "Last name".

Definition execute (id : jsstring) (userData : UpdateUserData.t)
  : Completion (Rx.Observable R User.t) :=
  validateInput id userData ;;;
  Return
    (Rx.switchMap
       (Rx.invoke (GetById id) (IUserRepository.getById id))
       (fun existingUser =>
          match existingUser with
          | None => Return (Rx.throwError (Error (str "User not found")))
          | Some user =>
              if negb (User.isActive user)
              then Return (Rx.throwError
                             (Error (str "Cannot update inactive user")))
              else
                validateUpdateData userData ;;;
                Return (Rx.invoke (Update id userData)
                          (IUserRepository.update id userData))
          end)).
End UpdateUserUseCase.
End UpdateUserUseCase.

(** [delete-user.use-case.ts] *)
Module DeleteUserUseCase.
Section DeleteUserUseCase.
Context {R : Type} `{IUserRepository.t R}.

Definition executeSoftDelete (id : jsstring)
  : Completion (Rx.Observable R bool) :=
  throwIf (isBlank id) "User ID is required" ;;;
  Return
    (Rx.switchMap
       (Rx.invoke (GetById id) (IUserRepository.getById id))
       (fun user =>
          match user with
          | None => Return (Rx.throwError (Error (str "User not found")))
          | Some user =>
              if negb (User.isActive user)
              then Return (Rx.throwError
                             (Error (str "User is already inactive")))
              else Return (Rx.invoke (Delete id)
                             (IUserRepository.delete id))
          end)).

Definition executeHardDelete (id : jsstring)
  : Completion (Rx.Observable R bool) :=
  throwIf (isBlank id) "User ID is required" ;;;
  Return
    (Rx.switchMap
       (Rx.invoke (GetById id) (IUserRepository.getById id))
       (fun user =>
          match user with
          | None => Return (Rx.throwError (Error (str "User not found")))
          | Some user =>
              if User.isActive user
              then Return (Rx.throwError
                             (Error (str "Cannot permanently delete active user. Deactivate first.")))
              else Return (Rx.invoke (PermanentDelete id)
                             (IUserRepository.permanentDelete id))
          end)).
End DeleteUserUseCase.
End DeleteUserUseCase.

(** [list-users.use-case.ts] *)
Module ListUsersUseCase.

(** [value || fallback] on an optional number. *)
Definition orDefault (value : option JsNumber) (fallback : JsNumber)
  : JsNumber :=
  match value with
  | Some n => if num_truthy n then n else fallback
  | None => fallback
  end.

(** [private validateAndSetDefaults(options?)] *)
Definition validateAndSetDefaults (options : option ListOptions.t)
  : ListOptions.t :=
  let defaultPage := num 1 in
  let defaultLimit := num 10 in
  match options with
  | None => ListOptions.mk (Some defaultPage) (Some defaultLimit) None None
  | Some options =>
      let page := orDefault (ListOptions.page options) defaultPage in
      let page := if num_lt page (num 1) then defaultPage else page in
      let limit := orDefault (ListOptions.limit options) defaultLimit in
      let limit := if num_lt limit (num 1) then defaultLimit else limit in
      let limit := if num_gt limit (num 100) then num 100 else limit in
      let search := ListOptions.search options in
      let search :=
        match search with
        | Some s =>
            if negb (str_eqb s []) && (strlen (trim s) <? 2)%Z
            then None else search
        | None => search
        end in
      ListOptions.mk (Some page) (Some limit) (trim <$> search)
        (ListOptions.isActive options)
  end.

(** [limit && limit > 0 ? Math.min(limit, 100) : 20] *)
Definition searchLimit (limit : option JsNumber) : JsNumber :=
  match limit with
  | Some n =>
      if num_truthy n && num_gt n (num 0) then Math_min n (num 100)
      else num 20
  | None => num 20
  end.

(** The limit of a search as the specification words it, for comparison
    with [searchLimit]: the given limit clamped to the range [1,100], and
    20 when no limit is given. *)
Definition clampedLimit (limit : option JsNumber) : JsNumber :=
  match limit with
  | Some n => Math_max (num 1) (Math_min n (num 100))
  | None => num 20
  end.

Section ListUsersUseCase.
Context {R : Type} `{IUserRepository.t R}.

Definition execute (options : option ListOptions.t)
  : Completion (Rx.Observable R UserPage.t) :=
  let validatedOptions := validateAndSetDefaults options in
  Return (Rx.invoke (GetAll validatedOptions)
            (IUserRepository.getAll validatedOptions)).

Definition executeSearch (query : jsstring) (limit : option JsNumber)
  : Completion (Rx.Observable R (list User.t)) :=
  throwIf (isBlank query) "Search query is required" ;;;
  throwIf (strlen (trim query) <? 2)%Z
    "Search query must be at least 2 characters long" ;;;
  Return (Rx.invoke (Search (trim query) (Some (searchLimit limit)))
            (IUserRepository.search (trim query) (Some (searchLimit limit)))).

(** [executeByDateRange(startDate, endDate)]; [now] is the value of
    [new Date()].  Both arguments are [Date] objects, so the test
    [!startDate || !endDate] is false. *)
Definition executeByDateRange (now : JsDate.t) (startDate endDate : JsDate.t)
  : Completion (Rx.Observable R (list User.t)) :=
  throwIf (JsDate.geb startDate endDate)
    "Start date must be before end date" ;;;
  throwIf (JsDate.gtb startDate now)
    "Start date cannot be in the future" ;;;
  Return (Rx.invoke (GetByDateRange startDate endDate)
            (IUserRepository.getByDateRange startDate endDate)).

Definition executeGetActiveCount
  : Completion (Rx.Observable R JsNumber) :=
  Return (Rx.invoke GetActiveUsersCount IUserRepository.getActiveUsersCount).
End ListUsersUseCase.
End ListUsersUseCase.

(** ** A repository with canned answers

    The repository of the unit tests ([jasmine.createSpyObj] with
    [and.returnValue(of(...))] or [throwError(...)]): every method
    delivers a fixed notification and nothing changes. *)
Module SpyRepository.
Record t : Type := mk {
  onGetAll : Notification UserPage.t;
  onGetById : Notification (option User.t);
  onGetByEmail : Notification (option User.t);
  onCreate : Notification User.t;
  onUpdate : Notification User.t;
  onDelete : Notification bool;
  onPermanentDelete : Notification bool;
  onExistsByEmail : Notification bool;
  onGetByDateRange : Notification (list User.t);
  onGetActiveUsersCount : Notification JsNumber;
  onSearch : Notification (list User.t)
}.

#[global] Instance repository : IUserRepository.t t := {|
  IUserRepository.getAll := fun _ r => (onGetAll r, r);
  IUserRepository.getById := fun _ r => (onGetById r, r);
  IUserRepository.getByEmail := fun _ r => (onGetByEmail r, r);
  IUserRepository.create := fun _ r => (onCreate r, r);
  IUserRepository.update := fun _ _ r => (onUpdate r, r);
  IUserRepository.delete := fun _ r => (onDelete r, r);
  IUserRepository.permanentDelete := fun _ r => (onPermanentDelete r, r);
  IUserRepository.existsByEmail := fun _ r => (onExistsByEmail r, r);
  IUserRepository.getByDateRange := fun _ _ r => (onGetByDateRange r, r);
  IUserRepository.getActiveUsersCount := fun r => (onGetActiveUsersCount r, r);
  IUserRepository.search := fun _ _ r => (onSearch r, r)
|}.

(** Every method fails with [e], as with
    [and.returnValue(throwError(() => e))]. *)
Definition failing (e : JsError) : t :=
  mk (Failure e) (Failure e) (Failure e) (Failure e) (Failure e) (Failure e)
     (Failure e) (Failure e) (Failure e) (Failure e) (Failure e).
End SpyRepository.

(** ** Sample data, taken from the unit tests and the mock repository *)
Module Samples.
(** [new Date('2023-01-01')] *)
Definition date20230101 : JsDate.t := Some 1672531200000%Z.
(** [new Date('2023-03-10')] *)
Definition date20230310 : JsDate.t := Some 1678406400000%Z.

(** [validUserData] of [user.entity.spec.ts], as an entity. *)
Definition john : User.t :=
  User.mk (str "1") (str "test@example.com") (str "John") (str "Doe")
    date20230101 date20230101 true.

(** The inactive user of the mock repository. *)
Definition bob : User.t :=
  User.mk (str "3") (str "bob.johnson@example.com") (str "Bob")
    (str "Johnson") date20230310 date20230310 false.

(** [validUserData] of [create-user.use-case.spec.ts]. *)
Definition validUserData : CreateUserData.t :=
  CreateUserData.mk (str "test@example.com") (str "John") (str "Doe").

(** [throwError(() => repositoryError)] of the same tests. *)
Definition repositoryError : JsError :=
  Error (str "Database connection failed").

(** A spy with [getById.and.returnValue(of(user))] and
    [existsByEmail.and.returnValue(of(exists_))]; [create] and [update]
    deliver [john], the two deletions deliver [true], and the other
    methods fail. *)
Definition spy (user : option User.t) (exists_ : bool) : SpyRepository.t :=
  SpyRepository.mk
    (Failure repositoryError) (Next user) (Failure repositoryError)
    (Next john) (Next john) (Next true) (Next true) (Next exists_)
    (Failure repositoryError) (Failure repositoryError)
    (Failure repositoryError).

(** A fresh run: no call made yet. *)
Definition start (r : SpyRepository.t) : Rx.World SpyRepository.t :=
  Rx.mkWorld r [].
End Samples.

(* ===================================================================== *)
(** ** The error factory ([domain-errors.ts]) *)

(** [this.name = this.constructor.name] *)
Definition className (e : DomainError) : jsstring :=
  match e with
  | UserNotFoundError _ => str "UserNotFoundError"
  | UserAlreadyExistsError _ => str "UserAlreadyExistsError"
  | InvalidUserDataError _ _ => str "InvalidUserDataError"
  | UserInactiveError _ => str "UserInactiveError"
  | ValidationError _ _ => str "ValidationError"
  | BusinessRuleViolationError _ _ => str "BusinessRuleViolationError"
  | RepositoryError _ _ => str "RepositoryError"
  | NetworkError _ => str "NetworkError"
  end.

(** [a === b] on numbers: [NaN] equals nothing. *)
Definition num_eqb (a b : JsNumber) : bool :=
  match a, b with
  | Finite p, Finite q => Qeq_bool p q
  | Infinity s, Infinity s' => Bool.eqb s s'
  | _, _ => false
  end.

(** [value || fallback] on an optional string: the empty string is falsy. *)
Definition orString (value : option jsstring) (fallback : jsstring)
  : jsstring :=
  match value with
  | Some s => if str_eqb s [] then fallback else s
  | None => fallback
  end.

(** The body of an error response ([httpError.error]), as far as the
    factory reads it. *)
Module ErrorBody.
Record t : Type := mk {
  email : option jsstring;
  errors : option (list jsstring);
  message : option jsstring
}.
End ErrorBody.

(** The argument of [fromHttpError], declared [any]: the four properties
    that the factory reads, each possibly missing.  An [HttpErrorResponse]
    has them all; an [Error] object has only [message]. *)
Module HttpError.
Record t : Type := mk {
  status : option JsNumber;
  url : option jsstring;
  message : option jsstring;
  error : option ErrorBody.t
}.

(** [httpError.status === n] *)
Definition statusIs (h : t) (n : Z) : bool :=
  match status h with
  | Some s => num_eqb s (num n)
  | None => false
  end.
End HttpError.

Module DomainErrorFactory.

(** [static fromHttpError(httpError: any)] *)
Definition fromHttpError (httpError : HttpError.t) : DomainError :=
  if HttpError.statusIs httpError 404 then
    UserNotFoundError (orString (HttpError.url httpError) (str "unknown"))
  else if HttpError.statusIs httpError 409 then
    UserAlreadyExistsError
      (orString (HttpError.error httpError ≫= ErrorBody.email) (str "unknown"))
  else if HttpError.statusIs httpError 400 then
    let validationErrors :=
      match HttpError.error httpError ≫= ErrorBody.errors with
      | Some errors => errors
      | None =>
          [orString (HttpError.error httpError ≫= ErrorBody.message)
             (str "Invalid data")]
      end in
    InvalidUserDataError (str "Validation failed") (Some validationErrors)
  else if HttpError.statusIs httpError 0 then
    NetworkError (str "Network connection failed")
  else
    RepositoryError
      (orString (HttpError.message httpError) (str "Repository operation failed"))
      (orString (HttpError.url httpError) (str "unknown")).

(** [static fromValidationErrors(errors)] *)
Definition fromValidationErrors (errors : list jsstring) : DomainError :=
  ValidationError (str "Validation failed") errors.

(** [static businessRuleViolation(message, rule)] *)
Definition businessRuleViolation (message rule : jsstring) : DomainError :=
  BusinessRuleViolationError message rule.

End DomainErrorFactory.

(** ** The application error handling ([error-handling.service.ts]) *)

(** A value caught by an error handler ([error: any]): something thrown in
    the domain layer, or an error response of the transport. *)
Inductive Caught : Type :=
| CaughtError (e : JsError)
| CaughtResponse (h : HttpError.t).

(** What the factory reads of a caught value: an error object has a
    [message] and none of [status], [url], [error]. *)
Definition asHttpError (c : Caught) : HttpError.t :=
  match c with
  | CaughtError e => HttpError.mk None None (Some (message e)) None
  | CaughtResponse h => h
  end.

Module ErrorHandlingService.

(** A call of [notificationService.showError(title, message)]. *)
Record Shown : Type := mkShown { title : jsstring; text : jsstring }.

(** A handler delivers a failing observable and may show notifications;
    [console.error] is not modelled. *)
Definition Handled : Type := DomainError * list Shown.

(** [handleRepositoryError(operation)(error)] *)
Definition handleRepositoryError (error : Caught) : Handled :=
  let domainError := DomainErrorFactory.fromHttpError (asHttpError error) in
  (domainError, [mkShown (str "Error") (userMessage domainError)]).

(** [handleUseCaseError(useCaseName)(error)] *)
Definition handleUseCaseError (error : Caught) : Handled :=
  match error with
  | CaughtError (Domain d) => (d, [])
  | _ =>
      let domainError := DomainErrorFactory.fromHttpError (asHttpError error) in
      (domainError, [mkShown (str "Operation Failed") (userMessage domainError)])
  end.

(** [handleErrorWithMessage(userMessage, logMessage)(error)] *)
Definition handleErrorWithMessage (userMessage : jsstring) (error : Caught)
  : Handled :=
  (match error with
   | CaughtError (Domain d) => d
   | _ => DomainErrorFactory.fromHttpError (asHttpError error)
   end,
   [mkShown (str "Error") userMessage]).

(** [handleSilentError(operation)(error)] *)
Definition handleSilentError (error : Caught) : Handled :=
  (match error with
   | CaughtError (Domain d) => d
   | _ => DomainErrorFactory.fromHttpError (asHttpError error)
   end,
   []).

(** [extractUserMessage(error)]; here [error] may also be [null] or a
    value without a message ([None]). *)
Definition extractUserMessage (error : option Caught) : jsstring :=
  match error with
  | Some (CaughtError (Domain d)) => userMessage d
  | Some c =>
      match HttpError.message (asHttpError c) with
      | Some m => if str_eqb m [] then str "An unexpected error occurred" else m
      | None => str "An unexpected error occurred"
      end
  | None => str "An unexpected error occurred"
  end.

End ErrorHandlingService.

(** The rule of the use cases for a name: ASCII letters and white space
    only, and at least two characters after trimming. *)
Definition nameAccepted (name : jsstring) : Prop :=
  Forall (fun c => isAsciiLetter c || isWhiteSpace c = true) name
  /\ (2 <= strlen (trim name))%Z.

(** ** Validation utilities ([validation.utils.ts]) *)
Module ValidationUtils.

(** [isValidEmail(email)] *)
Definition isValidEmail (email : jsstring) : bool :=
  RegExp.test emailRegex email.

(** [isValidName(name)] *)
Definition isValidName (name : jsstring) : bool :=
  RegExp.test nameRegex name && (2 <=? strlen (trim name))%Z.

(** [isEmpty(value)] for a string, [null] or [undefined]. *)
Definition isEmpty (value : option jsstring) : bool :=
  match value with
  | Some s => isBlank s
  | None => true
  end.

(** [ValidationResult] *)
Record ValidationResult : Type := mkResult {
  isValid : bool;
  errors : list jsstring
}.

(** The messages that one property adds to [errors]. *)
Definition checkField (f : Field) (valid : jsstring -> bool)
    (required invalid : string) : list jsstring :=
  match f with
  | Present s =>
      if isEmpty (Some s) then [str required]
      else if negb (valid s) then [str invalid]
      else []
  | Missing | Undefined => []
  end.

(** [validateUserData(userData)], each of the three properties optional. *)
Definition validateUserData (email firstName lastName : Field)
  : ValidationResult :=
  let errors :=
    checkField email isValidEmail "Email is required" "Invalid email format"
    ++ checkField firstName isValidName "First name is required"
         "First name must contain only letters and spaces, and be at least 2 characters long"
    ++ checkField lastName isValidName "Last name is required"
         "Last name must contain only letters and spaces, and be at least 2 characters long" in
  mkResult (bool_decide (List.length errors = 0%nat)) errors.

End ValidationUtils.

(** ** Arithmetic on numbers

    The result of an arithmetic operation on doubles is the exact
    result rounded to the nearest double, ties to the one with an even
    significand (IEEE 754 binary64: 53 significant bits, exponents from
    -1022 to 1023, gradual underflow, overflow to an infinity).  A
    zero stands for both zeros. *)
Module Double.

(** [2 ^ s], for any integer [s]. *)
Definition pow2 (s : Z) : Q :=
  if (0 <=? s)%Z then inject_Z (2 ^ s) else 1 # Z.to_pos (2 ^ (- s)).

(** The [e] with [2 ^ e <= n / d < 2 ^ (e + 1)], for positive [n] and
    [d]. *)
Definition exponent (n d : Z) : Z :=
  let k := (Z.log2 n - Z.log2 d)%Z in
  if (if 0 <=? k then d * 2 ^ k <=? n else d <=? n * 2 ^ (- k))%Z
  then k else (k - 1)%Z.

(** The integer nearest to [n / d], the even one of two that are equally
    near, for positive [d]. *)
Definition nearest (n d : Z) : Z :=
  let q := (n / d)%Z in
  match (2 * (n mod d) ?= d)%Z with
  | Lt => q
  | Gt => (q + 1)%Z
  | Eq => if Z.even q then q else (q + 1)%Z
  end.

(** The double nearest to a rational above 0, or [None] when that is
    beyond the largest double. *)
Definition roundPositive (q : Q) : option Q :=
  let e := Z.max (exponent (Qnum q) (Z.pos (Qden q))) (-1022) in
  let ulp := pow2 (e - 52) in
  let significand := (q / ulp)%Q in
  let rounded :=
    (inject_Z (nearest (Qnum significand) (Z.pos (Qden significand))) * ulp)%Q in
  if Qle_bool (pow2 1024) rounded then None else Some (Qred rounded).

(** The double nearest to a rational. *)
Definition round (q : Q) : JsNumber :=
  let q := Qred q in
  match Qnum q with
  | Z0 => Finite 0
  | Z.pos _ =>
      match roundPositive q with
      | Some v => Finite v
      | None => Infinity false
      end
  | Z.neg _ =>
      match roundPositive (- q) with
      | Some v => Finite (- v)
      | None => Infinity true
      end
  end.

End Double.

(** [a + b] *)
Definition num_add (a b : JsNumber) : JsNumber :=
  match a, b with
  | NaN, _ | _, NaN => NaN
  | Infinity s, Infinity s' => if Bool.eqb s s' then Infinity s else NaN
  | Infinity s, Finite _ | Finite _, Infinity s => Infinity s
  | Finite p, Finite q => Double.round (p + q)
  end.

(** [a - b] *)
Definition num_sub (a b : JsNumber) : JsNumber :=
  match a, b with
  | NaN, _ | _, NaN => NaN
  | Infinity s, Infinity s' => if Bool.eqb s s' then NaN else Infinity s
  | Infinity s, Finite _ => Infinity s
  | Finite _, Infinity s => Infinity (negb s)
  | Finite p, Finite q => Double.round (p - q)
  end.

(** [a * b] *)
Definition num_mul (a b : JsNumber) : JsNumber :=
  let negative (q : Q) := (Qnum q <? 0)%Z in
  match a, b with
  | NaN, _ | _, NaN => NaN
  | Infinity s, Infinity s' => Infinity (xorb s s')
  | Infinity s, Finite q | Finite q, Infinity s =>
      if Qeq_bool q 0 then NaN else Infinity (xorb s (negative q))
  | Finite p, Finite q => Double.round (p * q)
  end.

(** ToIntegerOrInfinity, for an index: [NaN] counts as 0 and a finite
    number is truncated; [None] is minus infinity and [Some None] plus
    infinity. *)
Definition toIntegerOrInfinity (n : JsNumber) : option (option Z) :=
  match n with
  | NaN => Some (Some 0%Z)
  | Infinity true => None
  | Infinity false => Some None
  | Finite q => Some (Some (Z.quot (Qnum q) (Z.pos (Qden q))))
  end.

(** The position in a list of length [len] that an argument of [slice]
    stands for: a negative one counts from the end. *)
Definition sliceIndex (n : JsNumber) (len : nat) : nat :=
  match toIntegerOrInfinity n with
  | None => 0
  | Some None => len
  | Some (Some relative) =>
      if (relative <? 0)%Z
      then Z.to_nat (Z.max (Z.of_nat len + relative) 0)
      else Z.to_nat (Z.min relative (Z.of_nat len))
  end.

(** [l.slice(start, end)] *)
Definition slice {A : Type} (start end_ : JsNumber) (l : list A) : list A :=
  let k := sliceIndex start (List.length l) in
  let final := sliceIndex end_ (List.length l) in
  List.firstn (final - k) (List.skipn k l).

(** ** The in-memory repository ([user-mock.repository.ts]) *)

(** [n.toString()] for a whole number from 0 up to 2^53: its decimal
    digits. *)
Definition decimal (n : N) : jsstring :=
  str (NilEmpty.string_of_uint (N.to_uint n)).

(** [s.includes(t)] *)
Fixpoint includes (s t : jsstring) : bool :=
  bool_decide (List.firstn (List.length t) s = t)
  || match s with
     | _ :: rest => includes rest t
     | [] => false
     end.

(** [l.slice(0, limit)] for a number above 0: the end index is the limit
    truncated, or the whole list for [Infinity]. *)
Definition sliceTo {A : Type} (limit : JsNumber) (l : list A) : list A :=
  match limit with
  | Finite q => List.firstn (Z.to_nat (Z.quot (Qnum q) (Z.pos (Qden q)))) l
  | Infinity false => l
  | Infinity true | NaN => []
  end.

Module UserMockRepository.

(** What the two text queries take from the host: the case mapping of
    [toLowerCase], which depends on the Unicode tables. *)
Class Host : Type := {
  toLowerCase : jsstring -> jsstring
}.

(** The fields [users] and [nextId], and the system clock: [time n] is
    what the [n]-th evaluation of [new Date()] gives, [reads] how many
    there have been. *)
Record t : Type := mk {
  users : list User.t;
  nextId : N;
  time : nat -> Z;
  reads : nat
}.

(** [new Date()] at the [k]-th evaluation from now. *)
Definition clock (st : t) (k : nat) : JsDate.t := Some (time st (reads st + k)).

(** [nextId++]: numbers are doubles, and adding one to 2^53 gives 2^53
    again. *)
Definition increment (n : N) : N :=
  if (n <? 2 ^ 53)%N then (n + 1)%N else n.

(** [users.find((u) => key(u) === value)] with its index. *)
Definition findBy (key : User.t -> jsstring) (value : jsstring)
    (l : list User.t) : option (nat * User.t) :=
  list_find (fun u => key u = value) l.

(** [value || fallback] for a property of the update payload. *)
Definition orExisting (value : Field) (fallback : jsstring) : jsstring :=
  match value with
  | Present s => if str_eqb s [] then fallback else s
  | Missing | Undefined => fallback
  end.

(** An exception thrown while a method runs (by the constructor of the
    entity) reaches the subscriber of the use case as an error, because
    the use cases call the writing methods inside [switchMap]. *)
Definition attempt {A : Type} (c : Completion A) (st : t)
    (k : A -> Notification A * t) : Notification A * t :=
  match c with
  | Return a => k a
  | Throw e => (Failure e, st)
  end.

Definition getById (id : jsstring) (st : t)
  : Notification (option User.t) * t :=
  (Next (snd <$> findBy User.id id (users st)), st).

Definition getByEmail (email : jsstring) (st : t)
  : Notification (option User.t) * t :=
  (Next (snd <$> findBy User.email email (users st)), st).

Definition create (userData : CreateUserData.t) (st : t)
  : Notification User.t * t :=
  match findBy User.email (CreateUserData.email userData) (users st) with
  | Some _ =>
      (Failure (Error (str "User with this email already exists")), st)
  | None =>
      let read := mk (users st) (nextId st) (time st) (reads st + 2) in
      attempt
        (User.new (decimal (nextId st)) (CreateUserData.email userData)
           (CreateUserData.firstName userData)
           (CreateUserData.lastName userData)
           (clock st 0) (clock st 1) (Some true))
        read
        (fun newUser =>
           (Next newUser,
            mk (users st ++ [newUser]) (increment (nextId st)) (time st)
              (reads st + 2)))
  end.

Definition update (id : jsstring) (userData : UpdateUserData.t) (st : t)
  : Notification User.t * t :=
  match findBy User.id id (users st) with
  | None => (Failure (Error (str "User not found")), st)
  | Some (userIndex, existingUser) =>
      let read := mk (users st) (nextId st) (time st) (reads st + 1) in
      attempt
        (User.updateInfo (clock st 0) existingUser
           (orExisting (UpdateUserData.firstName userData)
              (User.firstName existingUser))
           (orExisting (UpdateUserData.lastName userData)
              (User.lastName existingUser)))
        read
        (fun updatedUser =>
           (Next updatedUser,
            mk (<[userIndex := updatedUser]> (users st)) (nextId st) (time st)
              (reads st + 1)))
  end.

(** [delete(id)]: the soft delete. *)
Definition delete (id : jsstring) (st : t) : Notification bool * t :=
  match findBy User.id id (users st) with
  | None => (Failure (Error (str "User not found")), st)
  | Some (userIndex, user) =>
      if negb (User.isActive user)
      then (Failure (Error (str "User is already inactive")), st)
      else
        let read := mk (users st) (nextId st) (time st) (reads st + 1) in
        match User.deactivate (clock st 0) user with
        | Throw e => (Failure e, read)
        | Return deactivated =>
            (Next true,
             mk (<[userIndex := deactivated]> (users st)) (nextId st)
               (time st) (reads st + 1))
        end
  end.

Definition permanentDelete (id : jsstring) (st : t) : Notification bool * t :=
  match findBy User.id id (users st) with
  | None => (Failure (Error (str "User not found")), st)
  | Some (userIndex, user) =>
      if User.isActive user
      then (Failure
              (Error (str "Cannot permanently delete active user. Deactivate first.")),
            st)
      else
        (Next true,
         mk (base.delete userIndex (users st)) (nextId st) (time st) (reads st))
  end.

Definition existsByEmail (email : jsstring) (st : t) : Notification bool * t :=
  (Next (bool_decide (is_Some (findBy User.email email (users st)))), st).

(** [user.createdAt >= startDate && user.createdAt <= endDate] *)
Definition createdWithin (startDate endDate : JsDate.t) (user : User.t) : bool :=
  JsDate.geb (User.createdAt user) startDate
  && JsDate.geb endDate (User.createdAt user).

Definition getByDateRange (startDate endDate : JsDate.t) (st : t)
  : Notification (list User.t) * t :=
  (Next (List.filter (createdWithin startDate endDate) (users st)), st).

Definition getActiveUsersCount (st : t) : Notification JsNumber * t :=
  (Next (num (Z.of_nat (List.length (List.filter User.isActive (users st))))),
   st).

Section Queries.
Context `{Host}.

(** The filter of [search] and of [getAll]: the term, already in lower
    case, occurs in the first name, the last name or the email. *)
Definition mentions (searchTerm : jsstring) (user : User.t) : bool :=
  includes (toLowerCase (User.firstName user)) searchTerm
  || includes (toLowerCase (User.lastName user)) searchTerm
  || includes (toLowerCase (User.email user)) searchTerm.

Definition search (query : jsstring) (limit : option JsNumber) (st : t)
  : Notification (list User.t) * t :=
  let results := List.filter (mentions (toLowerCase query)) (users st) in
  let results :=
    match limit with
    | Some n =>
        if num_truthy n && num_gt n (num 0) then sliceTo n results
        else results
    | None => results
    end in
  (Next results, st).

Definition getAll (options : ListOptions.t) (st : t)
  : Notification UserPage.t * t :=
  let filteredUsers := users st in
  let filteredUsers :=
    match ListOptions.isActive options with
    | Some active =>
        List.filter (fun user => Bool.eqb (User.isActive user) active)
          filteredUsers
    | None => filteredUsers
    end in
  let filteredUsers :=
    match ListOptions.search options with
    | Some term =>
        if str_eqb term [] then filteredUsers
        else List.filter (mentions (toLowerCase term)) filteredUsers
    | None => filteredUsers
    end in
  let page := ListUsersUseCase.orDefault (ListOptions.page options) (num 1) in
  let limit := ListUsersUseCase.orDefault (ListOptions.limit options) (num 10) in
  let startIndex := num_mul (num_sub page (num 1)) limit in
  let endIndex := num_add startIndex limit in
  let paginatedUsers := slice startIndex endIndex filteredUsers in
  (Next (UserPage.mk paginatedUsers
           (num (Z.of_nat (List.length filteredUsers))) page limit),
   st).

#[global] Instance repository : IUserRepository.t t := {|
  IUserRepository.getAll := getAll;
  IUserRepository.getById := getById;
  IUserRepository.getByEmail := getByEmail;
  IUserRepository.create := create;
  IUserRepository.update := update;
  IUserRepository.delete := delete;
  IUserRepository.permanentDelete := permanentDelete;
  IUserRepository.existsByEmail := existsByEmail;
  IUserRepository.getByDateRange := getByDateRange;
  IUserRepository.getActiveUsersCount := getActiveUsersCount;
  IUserRepository.search := search
|}.
End Queries.

(** The five users the repository starts with, and [nextId = 6]. *)
Definition seed (id email firstName lastName : string) (created : Z)
    (active : bool) : User.t :=
  User.mk (str id) (str email) (str firstName) (str lastName)
    (Some created) (Some created) active.

Definition initialUsers : list User.t :=
  [ seed "1" "john.doe@example.com" "John" "Doe" 1673740800000 true;
    seed "2" "jane.smith@example.com" "Jane" "Smith" 1676851200000 true;
    seed "3" "bob.johnson@example.com" "Bob" "Johnson" 1678406400000 false;
    seed "4" "alice.brown@example.com" "Alice" "Brown" 1680652800000 true;
    seed "5" "charlie.wilson@example.com" "Charlie" "Wilson" 1683849600000 true ].

Definition initial (time : nat -> Z) : t := mk initialUsers 6 time 0.

(** The state that every step of the repository keeps: ids and emails
    are unique, every user satisfies the invariants of the entity, and
    every id is the decimal form of a number handed out before. *)
Record Consistent (st : t) : Prop := {
  ids_unique : NoDup (User.id <$> users st);
  emails_unique : NoDup (User.email <$> users st);
  users_valid :
    Forall (fun u => User.invariants (User.email u) (User.firstName u)
                       (User.lastName u) = true) (users st);
  ids_handed_out :
    Forall (fun u => exists k, (k < nextId st)%N /\ User.id u = decimal k)
      (users st)
}.

End UserMockRepository.

(** A host for the examples: letters are mapped within ASCII. *)
#[global] Instance asciiHost : UserMockRepository.Host := {|
  UserMockRepository.toLowerCase :=
    List.map (fun c => if ((65 <=? c) && (c <=? 90))%N then (c + 32)%N else c)
|}.

(** ** The HTTP repository ([user.repository.ts]) *)
Module UserRepository.

(** What an observable of [UserHttpService] delivers to the operators
    piped on it: the body of the response, or the error of the request. *)
Inductive Response (A : Type) : Type :=
| Body (a : A)
| Fault (error : Caught).
Arguments Body {A} a.
Arguments Fault {A} error.

(** [source.pipe(map(project), catchError(selector))] with a selector
    that answers with [of(...)] or [throwError(...)]: an exception of the
    projection is caught like an error of the source.  The projection is
    undefined ([None]) where [mapToUser] is. *)
Definition piped {A B : Type} (source : Response A)
    (project : A -> option (Completion B))
    (selector : Caught -> Notification B) : option (Notification B) :=
  match source with
  | Body a =>
      completion ← project a;
      Some match completion with
           | Return b => Next b
           | Throw e => selector (CaughtError e)
           end
  | Fault error => Some (selector error)
  end.

(** [error.status === n] on a caught value. *)
Definition statusIs (error : Caught) (n : Z) : bool :=
  HttpError.statusIs (asHttpError error) n.

Section UserRepository.
Context `{JsDate.Host}.

(** [private mapToUser(userData: any)]; as for [User.fromJSON], the
    result is [None] when a property does not have the type that the
    constructor declares. *)
Definition mapToUser (userData : gmap string JsVal)
  : option (Completion User.t) :=
  id ← User.asString (User.prop userData "id");
  email ← User.asString (User.prop userData "email");
  firstName ← User.asString (User.prop userData "firstName");
  lastName ← User.asString (User.prop userData "lastName");
  isActive ← User.asOptionalBool (User.prop userData "isActive");
  Some (User.new id email firstName lastName
          (JsDate.new (User.prop userData "createdAt"))
          (JsDate.new (User.prop userData "updatedAt"))
          isActive).

(** [(userData) => (userData ? this.mapToUser(userData) : null)] *)
Definition mapToUserOrNull (userData : option (gmap string JsVal))
  : option (Completion (option User.t)) :=
  match userData with
  | Some userData =>
      completion ← mapToUser userData;
      Some (andThen completion (fun user => Return (Some user)))
  | None => Some (Return None)
  end.

(** [getById(id)], on the response to [getUserById(id)]. *)
Definition getById (response : Response (option (gmap string JsVal)))
  : option (Notification (option User.t)) :=
  piped response mapToUserOrNull
    (fun error =>
       if statusIs error 404 then Next None
       else Failure
              (Domain (DomainErrorFactory.fromHttpError (asHttpError error)))).

(** [getByEmail(email)], on the response to [getUserByEmail(email)]. *)
Definition getByEmail (response : Response (option (gmap string JsVal)))
  : option (Notification (option User.t)) :=
  piped response mapToUserOrNull
    (fun error =>
       if statusIs error 404 then Next None
       else Failure (Error (str "Failed to fetch user"))).

(** [create(userData)], on the response to [createUser(userData)]. *)
Definition create (response : Response (gmap string JsVal))
  : option (Notification User.t) :=
  piped response mapToUser
    (fun error =>
       if statusIs error 409
       then Failure (Error (str "User with this email already exists"))
       else Failure (Error (str "Failed to create user"))).

(** [update(id, userData)], on the response to [updateUser(id, userData)]. *)
Definition update (response : Response (gmap string JsVal))
  : option (Notification User.t) :=
  piped response mapToUser
    (fun error =>
       if statusIs error 404
       then Failure (Error (str "User not found"))
       else Failure (Error (str "Failed to update user"))).

End UserRepository.
End UserRepository.

(** * Part II: properties *)
(* ===================================================================== *)

(** ** Regular expressions *)
Module RegExpFacts.
Import RegExp.

Lemma nullable_Matches r : nullable r = true <-> Matches r [].
Proof.
  split.
  - induction r; cbn; intros Hn; try discriminate.
    + constructor.
    + apply andb_true_iff in Hn as [H1 H2].
      change (@nil N) with (@nil N ++ @nil N). constructor; auto.
    + apply orb_true_iff in Hn as [Hn|Hn]; [apply MAltL|apply MAltR]; auto.
    + constructor.
  - intros Hm. remember (@nil N) as s eqn:Es.
    induction Hm; cbn; try reflexivity; try discriminate.
    + apply app_eq_nil in Es as [-> ->]. rewrite IHHm1, IHHm2; auto.
    + rewrite IHHm; auto.
    + rewrite IHHm; auto. apply orb_true_r.
Qed.

(** A non-empty match of [r*] starts with a non-empty match of [r]. *)
Lemma Matches_Star_cons r c s :
  Matches (Star r) (c :: s) ->
  exists s1 s2, s = s1 ++ s2 /\ Matches r (c :: s1) /\ Matches (Star r) s2.
Proof.
  intros Hm. remember (Star r) as r' eqn:Er. remember (c :: s) as cs eqn:Ecs.
  revert s Ecs.
  induction Hm; intros s' Ecs; try discriminate.
  injection Er as ->.
  destruct s1 as [|c1 s1].
  - cbn in Ecs. apply IHHm2; auto.
  - cbn in Ecs. injection Ecs as -> <-.
    exists s1, s2. auto.
Qed.

Ltac invert H := inversion H; subst; clear H.

Lemma Matches_Seq_cons r1 r2 c s1 s2 :
  Matches r1 (c :: s1) -> Matches r2 s2 -> Matches (Seq r1 r2) (c :: s1 ++ s2).
Proof. intros H1 H2. change (c :: s1 ++ s2) with ((c :: s1) ++ s2). now constructor. Qed.

Lemma Matches_Seq_inv r1 r2 c s :
  Matches (Seq r1 r2) (c :: s) ->
  (Matches r1 [] /\ Matches r2 (c :: s))
  \/ exists s1 s2, s = s1 ++ s2 /\ Matches r1 (c :: s1) /\ Matches r2 s2.
Proof.
  intros Hm. inversion Hm as [| |? ? s1 s2 H1 H2 E1 E2| | | |]; subst.
  destruct s1 as [|c1 s1]; cbn in E2.
  - subst s2. now left.
  - injection E2 as -> <-. right. now exists s1, s2.
Qed.

Lemma deriv_Matches r : forall c s, Matches (deriv c r) s <-> Matches r (c :: s).
Proof.
  induction r as [| |p|r1 IH1 r2 IH2|r1 IH1 r2 IH2|r IH]; intros c s; cbn [deriv].
  - split; intros Hm; invert Hm.
  - split; intros Hm; invert Hm.
  - split; intros Hm.
    + destruct (p c) eqn:Hp; invert Hm. now constructor.
    + invert Hm. match goal with Hp : p c = true |- _ => rewrite Hp end.
      constructor.
  - split; intros Hm.
    + destruct (nullable r1) eqn:Hn.
      * invert Hm.
        -- match goal with Hs : Matches (Seq _ _) _ |- _ => invert Hs end.
           apply Matches_Seq_cons; [now apply IH1|assumption].
        -- apply nullable_Matches in Hn.
           change (c :: s) with ([] ++ c :: s).
           constructor; [assumption|now apply IH2].
      * invert Hm. apply Matches_Seq_cons; [now apply IH1|assumption].
    + apply Matches_Seq_inv in Hm as [[Hnil H2]|(s1 & s2 & -> & H1 & H2)].
      * apply nullable_Matches in Hnil. rewrite Hnil.
        apply MAltR. now apply IH2.
      * assert (Matches (Seq (deriv c r1) r2) (s1 ++ s2))
          by (constructor; [now apply IH1|assumption]).
        destruct (nullable r1); [now apply MAltL|assumption].
  - split; intros Hm; invert Hm;
      [apply MAltL; now apply IH1|apply MAltR; now apply IH2
      |apply MAltL; now apply IH1|apply MAltR; now apply IH2].
  - split; intros Hm.
    + invert Hm. change (c :: s1 ++ s2) with ((c :: s1) ++ s2).
      constructor; [now apply IH|assumption].
    + apply Matches_Star_cons in Hm as (s1 & s2 & -> & H1 & H2).
      constructor; [now apply IH|assumption].
Qed.

(** [test] decides whether the pattern matches the whole string. *)
Lemma test_Matches r s : test r s = true <-> Matches r s.
Proof.
  unfold test. revert r. induction s as [|c s IH]; intros r; cbn [List.fold_left].
  - apply nullable_Matches.
  - rewrite IH. apply deriv_Matches.
Qed.

Lemma Matches_Star_Class p s :
  Matches (Star (Class p)) s <-> Forall (fun c => p c = true) s.
Proof.
  split.
  - intros Hm. remember (Star (Class p)) as r eqn:Er.
    induction Hm as [| | | | | |r' s1 s2 Hm1 _ Hm2 IH2]; try discriminate;
      [constructor|].
    injection Er as ->. invert Hm1. constructor; auto.
  - induction 1 as [|c s Hc _ IH]; [constructor|].
    change (c :: s) with ([c] ++ s). constructor; [now constructor|assumption].
Qed.

(** [[p]+] matches the non-empty strings of characters of the class. *)
Lemma Matches_Plus_Class p s :
  Matches (Plus (Class p)) s <-> s <> [] /\ Forall (fun c => p c = true) s.
Proof.
  unfold Plus. split.
  - intros Hm. inversion Hm as [| |? ? s1 s2 H1 H2| | | |]; subst.
    invert H1. apply Matches_Star_Class in H2.
    split; [discriminate|]. constructor; auto.
  - intros [Hne Hall]. destruct Hall as [|c s Hc Hall]; [congruence|].
    change (c :: s) with ([c] ++ s).
    constructor; [now constructor|now apply Matches_Star_Class].
Qed.

(** The names that [nameRegex] accepts: non-empty, made of ASCII letters
    and white space. *)
Lemma nameRegex_spec s :
  test nameRegex s = true <->
  s <> [] /\ Forall (fun c => isAsciiLetter c || isWhiteSpace c = true) s.
Proof. rewrite test_Matches. apply Matches_Plus_Class. Qed.

Lemma Matches_Chr c s : Matches (Chr c) s <-> s = [c].
Proof.
  unfold Chr. split.
  - intros Hm. invert Hm.
    match goal with Hx : (_ =? _)%N = true |- _ => apply N.eqb_eq in Hx end.
    now subst.
  - intros ->. constructor. apply N.eqb_refl.
Qed.

Lemma Matches_Seq r1 r2 s :
  Matches (Seq r1 r2) s <->
  exists s1 s2, s = s1 ++ s2 /\ Matches r1 s1 /\ Matches r2 s2.
Proof.
  split.
  - intros Hm. inversion Hm as [| |? ? s1 s2 H1 H2| | | |]; subst.
    now exists s1, s2.
  - intros (s1 & s2 & -> & H1 & H2). now constructor.
Qed.

(** The strings that [emailRegex] accepts: [local@domain.tld], the three
    parts non-empty and free of white space and of [@] (the second and
    third may contain further dots). *)
Lemma emailRegex_spec s :
  test emailRegex s = true <->
  exists a b c,
    s = a ++ [64%N] ++ b ++ [46%N] ++ c
    /\ a <> [] /\ b <> [] /\ c <> []
    /\ Forall (fun x => notSpaceNorAt x = true) (a ++ b ++ c).
Proof.
  rewrite test_Matches. unfold emailRegex. split.
  - intros Hm.
    apply Matches_Seq in Hm as (a & s1 & -> & Ha & Hm).
    apply Matches_Seq in Hm as (at_ & s2 & -> & Hat & Hm).
    apply Matches_Seq in Hm as (b & s3 & -> & Hb & Hm).
    apply Matches_Seq in Hm as (dot & c & -> & Hdot & Hc).
    apply Matches_Chr in Hat as ->. apply Matches_Chr in Hdot as ->.
    apply Matches_Plus_Class in Ha as [Ha1 Ha2], Hb as [Hb1 Hb2], Hc as [Hc1 Hc2].
    exists a, b, c. repeat split; auto.
    rewrite !Forall_app. auto.
  - intros (a & b & c & -> & Ha & Hb & Hc & Hall).
    rewrite !Forall_app in Hall. destruct Hall as (Ha' & Hb' & Hc').
    constructor; [now apply Matches_Plus_Class|].
    constructor; [now apply Matches_Chr|].
    constructor; [now apply Matches_Plus_Class|].
    constructor; [now apply Matches_Chr|].
    now apply Matches_Plus_Class.
Qed.
End RegExpFacts.

(** ** Calendar arithmetic and the ISO text form *)
Module DateFacts.
Import JsDate.
Local Open Scope Z_scope.

Lemma DayFromYear_succ y : DayFromYear (y + 1) = DayFromYear y + DaysInYear y.
Proof.
  unfold DayFromYear, DaysInYear.
  destruct (Z.eqb_spec (y mod 4) 0); destruct (Z.eqb_spec (y mod 100) 0);
    destruct (Z.eqb_spec (y mod 400) 0); cbn [andb orb negb];
    Z.to_euclidean_division_equations; lia.
Qed.

(** [YearFromDay d] is the year whose days include [d]: the largest
    [y] with [DayFromYear y <= d]. *)
Lemma YearFromDay_spec d :
  DayFromYear (YearFromDay d) <= d < DayFromYear (YearFromDay d + 1).
Proof.
  unfold YearFromDay.
  set (e := 1970 + d * 400 / 146097).
  destruct (Z.ltb_spec d (DayFromYear e)) as [E1|E1].
  - replace (e - 1 + 1) with e by lia. split; [|lia].
    unfold DayFromYear in *. subst e. Z.to_euclidean_division_equations; lia.
  - destruct (Z.leb_spec (DayFromYear (e + 1)) d) as [E2|E2]; [|lia].
    split; [lia|].
    unfold DayFromYear in *. subst e. Z.to_euclidean_division_equations; lia.
Qed.

Lemma DaysInYear_cases y : DaysInYear y = 365 \/ DaysInYear y = 366.
Proof. unfold DaysInYear. destruct (_ || _); auto. Qed.

Lemma DayWithinYear_range tv :
  0 <= DayWithinYear tv < DaysInYear (YearFromTime tv).
Proof.
  unfold DayWithinYear, YearFromTime.
  pose proof (YearFromDay_spec (Day tv)) as H.
  rewrite DayFromYear_succ in H. lia.
Qed.

(** The year of a time value that a [Date] can hold has at most six
    digits. *)
Lemma YearFromTime_bound tv :
  inRange tv = true -> -271821 <= YearFromTime tv <= 275760.
Proof.
  unfold inRange, maxTime. intros H.
  apply andb_true_iff in H as [H1 H2].
  apply Z.leb_le in H1, H2.
  unfold YearFromTime.
  pose proof (YearFromDay_spec (Day tv)) as H.
  rewrite DayFromYear_succ in H.
  pose proof (DaysInYear_cases (YearFromDay (Day tv))) as Hc.
  set (y := YearFromDay (Day tv)) in *. clearbody y.
  assert (-100000000 <= Day tv <= 100000000)
    by (unfold Day, msPerDay; Z.to_euclidean_division_equations; lia).
  unfold DayFromYear in H. Z.to_euclidean_division_equations; lia.
Qed.

Lemma digit_of_Z d : 0 <= d < 10 -> digit (Z.to_N (48 + d)) = Some d.
Proof.
  intros H. unfold digit.
  replace ((48 <=? Z.to_N (48 + d))%N && (Z.to_N (48 + d) <=? 57)%N) with true.
  - f_equal. lia.
  - symmetry. apply andb_true_iff. split; apply N.leb_le; lia.
Qed.

Lemma length_digitsOf k : forall n, List.length (digitsOf k n) = k.
Proof.
  induction k as [|k IH]; intros n; cbn [digitsOf]; [reflexivity|].
  rewrite List.length_app, IH. cbn. lia.
Qed.

Lemma numberOf_digitsOf k :
  forall n, 0 <= n -> numberOf (digitsOf k n) = Some (n mod 10 ^ Z.of_nat k).
Proof.
  induction k as [|k IH]; intros n Hn.
  - cbn. now rewrite Z.mod_1_r.
  - cbn [digitsOf]. unfold numberOf in *. rewrite List.fold_left_app.
    rewrite IH by (apply Z.div_pos; lia).
    cbn [List.fold_left].
    rewrite digit_of_Z by (apply Z.mod_pos_bound; lia).
    f_equal.
    rewrite Nat2Z.inj_succ, Z.pow_succ_r by lia.
    rewrite Z.rem_mul_r by lia. lia.
Qed.

Lemma takeDigits_digitsOf k n rest :
  0 <= n < 10 ^ Z.of_nat k ->
  takeDigits k (digitsOf k n ++ rest) = Some (n, rest).
Proof.
  intros Hn. unfold takeDigits.
  rewrite List.length_app, length_digitsOf.
  replace (k <=? k + List.length rest)%nat with true
    by (symmetry; apply Nat.leb_le; lia).
  pose proof (take_app_length (digitsOf k n) rest) as Ht.
  pose proof (drop_app_length (digitsOf k n) rest) as Hs.
  rewrite length_digitsOf in Ht, Hs.
  rewrite Ht, Hs.
  rewrite numberOf_digitsOf by lia. cbn [mbind option_bind].
  rewrite Z.mod_small by lia. reflexivity.
Qed.

Lemma digitsOf_head k n :
  exists c tl, digitsOf (S k) n = c :: tl /\ (48 <= c <= 57)%N.
Proof.
  revert n. induction k as [|k IH]; intros n.
  - exists (Z.to_N (48 + n mod 10)), []. split; [reflexivity|].
    pose proof (Z.mod_pos_bound n 10). lia.
  - destruct (IH (n / 10)) as (c & tl & E & Hc).
    exists c, (tl ++ [Z.to_N (48 + n mod 10)]).
    change (digitsOf (S (S k)) n)
      with (digitsOf (S k) (n / 10) ++ [Z.to_N (48 + n mod 10)]).
    rewrite E. split; [reflexivity|exact Hc].
Qed.

Lemma takeYear_yearText y rest :
  -999999 <= y <= 999999 ->
  takeYear (yearText y ++ rest) = Some (y, rest).
Proof.
  intros Hy. unfold yearText.
  destruct ((0 <=? y) && (y <=? 9999)) eqn:E.
  - apply andb_true_iff in E as [E1 E2]. apply Z.leb_le in E1, E2.
    destruct (digitsOf_head 3 y) as (c & tl & Ed & Hc).
    pose proof (takeDigits_digitsOf 4 y rest) as T.
    rewrite Ed in *. cbn [app takeYear].
    replace (c =? 43)%N with false by (symmetry; apply N.eqb_neq; lia).
    replace (c =? 45)%N with false by (symmetry; apply N.eqb_neq; lia).
    apply T. cbn. lia.
  - destruct (Z.ltb_spec y 0) as [Hneg|Hpos]; cbn [app takeYear N.eqb Pos.eqb].
    + rewrite takeDigits_digitsOf by (cbn; lia).
      cbn. destruct (Z.eqb_spec (Z.abs y) 0); [lia|].
      do 2 f_equal. lia.
    + rewrite takeDigits_digitsOf by (cbn; lia).
      do 2 f_equal. lia.
Qed.

Lemma month_day_range leap d :
  0 <= leap <= 1 -> 0 <= d < 365 + leap ->
  let m := monthOfDay leap d in
  0 <= m <= 11 /\
  1 <= d - monthStart leap m + 1 <= monthStart leap (m + 1) - monthStart leap m /\
  d - monthStart leap m + 1 <= 31.
Proof.
  intros Hl Hd. unfold monthOfDay.
  repeat (match goal with
          | |- context [if ?a <? ?b then _ else _] =>
              destruct (Z.ltb_spec a b)
          end; [simpl; lia|]).
  simpl; lia.
Qed.

Lemma time_fields tv :
  0 <= HourFromTime tv <= 23 /\ 0 <= MinFromTime tv <= 59 /\
  0 <= SecFromTime tv <= 59 /\ 0 <= msFromTime tv <= 999 /\
  MakeDate (Day tv)
    (MakeTime (HourFromTime tv) (MinFromTime tv) (SecFromTime tv) (msFromTime tv))
  = tv.
Proof.
  unfold HourFromTime, MinFromTime, SecFromTime, msFromTime, MakeDate,
    MakeTime, Day, msPerDay, msPerHour, msPerMinute, msPerSecond.
  Z.to_euclidean_division_equations. lia.
Qed.

(** Reading the text that [toISOString] writes gives the time value
    back, to the millisecond. *)
Lemma parseISO_isoText tv :
  inRange tv = true -> parseISO (isoText tv) = Some tv.
Proof.
  intros Hr.
  pose proof (YearFromTime_bound tv Hr) as Hy.
  pose proof (DayWithinYear_range tv) as Hd.
  pose proof (DaysInYear_cases (YearFromTime tv)) as Hc.
  pose proof (month_day_range (InLeapYear tv) (DayWithinYear tv)) as Hm.
  cbv zeta in Hm. fold (MonthFromTime tv) in Hm.
  fold (DateFromTime tv) in Hm.
  specialize (Hm ltac:(unfold InLeapYear; lia) ltac:(unfold InLeapYear; lia)).
  destruct Hm as (Hm1 & Hm2 & Hm3).
  destruct (time_fields tv) as (Hh & Hmi & Hs & Hms & Hmk).
  unfold parseISO, isoText.
  rewrite takeYear_yearText by lia.
  cbn [mbind option_bind app expect N.eqb Pos.eqb].
  do 5 (rewrite takeDigits_digitsOf by (cbn; lia);
        cbn [mbind option_bind app expect N.eqb Pos.eqb]).
  rewrite (takeDigits_digitsOf 3 _ [90%N]) by (cbn; lia).
  cbn [mbind option_bind app expect N.eqb Pos.eqb].
  replace (MonthFromTime tv + 1 - 1) with (MonthFromTime tv) by lia.
  unfold DaysInMonth. fold (InLeapYear tv).
  repeat match goal with
         | |- context [?a <=? ?b] =>
             replace (a <=? b) with true by (symmetry; apply Z.leb_le; lia)
         end.
  cbn [andb].
  replace (MakeDay (YearFromTime tv) (MonthFromTime tv) (DateFromTime tv))
    with (Day tv).
  - rewrite Hmk. unfold TimeClip. now rewrite Hr.
  - unfold MakeDay. fold (InLeapYear tv). unfold DateFromTime, DayWithinYear. lia.
Qed.

Lemma parse_isoText `{Host} tv :
  inRange tv = true -> parse (isoText tv) = Some tv.
Proof. intros Hr. unfold parse. now rewrite parseISO_isoText. Qed.
End DateFacts.

(** ** The entity *)
Module EntityFacts.

Lemma empty_is_short name :
  str_eqb name [] = true -> (strlen (trim name) <? 2)%Z = true.
Proof.
  unfold str_eqb. intros E. apply bool_decide_eq_true in E. now subst.
Qed.

Lemma validateName_short name label :
  User.validateName name label =
    if (strlen (trim name) <? 2)%Z
    then Throw (Error (strcat (str label)
                         (str " must be at least 2 characters long")))
    else Return tt.
Proof.
  unfold User.validateName.
  destruct (str_eqb name []) eqn:E; [|reflexivity].
  now rewrite (empty_is_short _ E).
Qed.

Lemma new_invariants id email fn ln c u a :
  User.new id email fn ln c u a =
    if negb (RegExp.test emailRegex email)
    then Throw (Error (str "Invalid email format"))
    else if (strlen (trim fn) <? 2)%Z
    then Throw (Error (str "First name must be at least 2 characters long"))
    else if (strlen (trim ln) <? 2)%Z
    then Throw (Error (str "Last name must be at least 2 characters long"))
    else Return (User.mk id email fn ln c u (default true a)).
Proof.
  unfold User.new, User.validateEmail. rewrite !validateName_short.
  destruct (negb _); [reflexivity|]. cbn [andThen].
  destruct (_ <? 2)%Z; [reflexivity|]. cbn [andThen].
  destruct (_ <? 2)%Z; reflexivity.
Qed.

Lemma new_valid id email fn ln c u a :
  User.invariants email fn ln = true ->
  User.new id email fn ln c u a
  = Return (User.mk id email fn ln c u (default true a)).
Proof.
  unfold User.invariants. intros Hv.
  apply andb_true_iff in Hv as [Hv H3]. apply andb_true_iff in Hv as [H1 H2].
  rewrite new_invariants, H1. cbn [negb].
  apply Z.leb_le in H2, H3.
  destruct (Z.ltb_spec (strlen (trim fn)) 2); [lia|].
  destruct (Z.ltb_spec (strlen (trim ln)) 2); [lia|]. reflexivity.
Qed.

Lemma new_Return id email fn ln c u a user :
  User.new id email fn ln c u a = Return user ->
  User.invariants email fn ln = true
  /\ user = User.mk id email fn ln c u (default true a).
Proof.
  rewrite new_invariants. unfold User.invariants.
  destruct (RegExp.test emailRegex email); cbn [negb andb]; [|discriminate].
  destruct (Z.ltb_spec (strlen (trim fn)) 2); [discriminate|].
  destruct (Z.ltb_spec (strlen (trim ln)) 2); [discriminate|].
  intros [= <-]. split; [|reflexivity].
  apply andb_true_iff; split; apply Z.leb_le; lia.
Qed.

Lemma toJSON_valid (u : User.t) t1 t2 :
  User.createdAt u = Some t1 -> User.updatedAt u = Some t2 ->
  User.toJSON u =
    Return (<["id" := VStr (User.id u)]>
           (<["email" := VStr (User.email u)]>
           (<["firstName" := VStr (User.firstName u)]>
           (<["lastName" := VStr (User.lastName u)]>
           (<["fullName" := VStr (User.fullName u)]>
           (<["createdAt" := VStr (JsDate.isoText t1)]>
           (<["updatedAt" := VStr (JsDate.isoText t2)]>
           (<["isActive" := VBool (User.isActive u)]> ∅))))))))%string.
Proof. unfold User.toJSON. intros -> ->. reflexivity. Qed.

Lemma roundTrip_valid `{JsDate.Host} (u : User.t) t1 t2 :
  User.createdAt u = Some t1 -> User.updatedAt u = Some t2 ->
  JsDate.inRange t1 = true -> JsDate.inRange t2 = true ->
  User.roundTrip u =
    Some (User.new (User.id u) (User.email u) (User.firstName u)
            (User.lastName u) (Some t1) (Some t2) (Some (User.isActive u))).
Proof.
  intros E1 E2 R1 R2. unfold User.roundTrip.
  rewrite (toJSON_valid u t1 t2 E1 E2).
  unfold User.fromJSON, User.prop.
  simplify_map_eq.
  cbn [mbind option_bind User.asString User.asOptionalBool default].
  rewrite !DateFacts.parse_isoText by assumption. reflexivity.
Qed.
Lemma eta_user (u : User.t) :
  User.mk (User.id u) (User.email u) (User.firstName u) (User.lastName u)
    (User.createdAt u) (User.updatedAt u) (User.isActive u) = u.
Proof. now destruct u. Qed.



End EntityFacts.

(** ** The use cases *)
Module UseCaseFacts.

Lemma throwIf_false msg : throwIf false msg = Return tt.
Proof. reflexivity. Qed.

Lemma throwIf_true msg : throwIf true msg = Throw (Error (str msg)).
Proof. reflexivity. Qed.

(** A blank string has no two characters left after trimming. *)
Lemma isBlank_short s : isBlank s = true -> (strlen (trim s) <? 2)%Z = true.
Proof.
  unfold isBlank. intros E. apply orb_true_iff in E as [E|E].
  - now apply EntityFacts.empty_is_short.
  - apply Z.eqb_eq in E. rewrite E. reflexivity.
Qed.

Lemma long_not_blank s : (strlen (trim s) <? 2)%Z = false -> isBlank s = false.
Proof.
  intros E. destruct (isBlank s) eqn:B; [|reflexivity].
  apply isBlank_short in B. congruence.
Qed.

Section WithRepository.
Context {R : Type} `{IUserRepository.t R}.

(** Unfolds one run of a use case down to the repository calls. *)
Ltac run :=
  unfold Rx.subscribe, Rx.switchMap, Rx.map, Rx.invoke, Rx.throwError,
    Rx.deliver; cbn [andThen Rx.repo Rx.calls].

Lemma subscribe_invoke {A : Type} (c : Call)
    (op : R -> Notification A * R) (w : Rx.World R) :
  Rx.subscribe (Return (Rx.invoke c op)) w =
    let (n, r1) := op (Rx.repo w) in
    (Rx.deliver n, Rx.mkWorld r1 (Rx.calls w ++ [c])).
Proof. run. now destruct (op (Rx.repo w)). Qed.

Lemma softDelete_fetched id (w : Rx.World R) fetched r1 :
  isBlank id = false ->
  IUserRepository.getById id (Rx.repo w) = (Next fetched, r1) ->
  Rx.subscribe (DeleteUserUseCase.executeSoftDelete id) w =
    match fetched with
    | None =>
        (Rx.Errored (Error (str "User not found")),
         Rx.mkWorld r1 (Rx.calls w ++ [GetById id]))
    | Some user =>
        if User.isActive user
        then let (n, r2) := IUserRepository.delete id r1 in
             (Rx.deliver n,
              Rx.mkWorld r2 (Rx.calls w ++ [GetById id; Delete id]))
        else (Rx.Errored (Error (str "User is already inactive")),
              Rx.mkWorld r1 (Rx.calls w ++ [GetById id]))
    end.
Proof.
  intros Hid Hget. unfold DeleteUserUseCase.executeSoftDelete.
  rewrite Hid, throwIf_false. run. rewrite Hget.
  destruct fetched as [user|]; [|reflexivity].
  destruct (User.isActive user); cbn [negb Rx.repo Rx.calls]; [|reflexivity].
  destruct (IUserRepository.delete id r1) as [n r2].
  now rewrite <- app_assoc.
Qed.

Lemma hardDelete_fetched id (w : Rx.World R) fetched r1 :
  isBlank id = false ->
  IUserRepository.getById id (Rx.repo w) = (Next fetched, r1) ->
  Rx.subscribe (DeleteUserUseCase.executeHardDelete id) w =
    match fetched with
    | None =>
        (Rx.Errored (Error (str "User not found")),
         Rx.mkWorld r1 (Rx.calls w ++ [GetById id]))
    | Some user =>
        if User.isActive user
        then (Rx.Errored
                (Error (str "Cannot permanently delete active user. Deactivate first.")),
              Rx.mkWorld r1 (Rx.calls w ++ [GetById id]))
        else let (n, r2) := IUserRepository.permanentDelete id r1 in
             (Rx.deliver n,
              Rx.mkWorld r2 (Rx.calls w ++ [GetById id; PermanentDelete id]))
    end.
Proof.
  intros Hid Hget. unfold DeleteUserUseCase.executeHardDelete.
  rewrite Hid, throwIf_false. run. rewrite Hget.
  destruct fetched as [user|]; [|reflexivity].
  destruct (User.isActive user); cbn [negb Rx.repo Rx.calls]; [reflexivity|].
  destruct (IUserRepository.permanentDelete id r1) as [n r2].
  now rewrite <- app_assoc.
Qed.

Lemma update_fetched id userData (w : Rx.World R) fetched r1 :
  UpdateUserUseCase.validateInput id userData = Return tt ->
  IUserRepository.getById id (Rx.repo w) = (Next fetched, r1) ->
  Rx.subscribe (UpdateUserUseCase.execute id userData) w =
    match fetched with
    | None =>
        (Rx.Errored (Error (str "User not found")),
         Rx.mkWorld r1 (Rx.calls w ++ [GetById id]))
    | Some user =>
        if User.isActive user
        then match UpdateUserUseCase.validateUpdateData userData with
             | Throw e =>
                 (Rx.Errored e, Rx.mkWorld r1 (Rx.calls w ++ [GetById id]))
             | Return _ =>
                 let (n, r2) := IUserRepository.update id userData r1 in
                 (Rx.deliver n,
                  Rx.mkWorld r2
                    (Rx.calls w ++ [GetById id; Update id userData]))
             end
        else (Rx.Errored (Error (str "Cannot update inactive user")),
              Rx.mkWorld r1 (Rx.calls w ++ [GetById id]))
    end.
Proof.
  intros Hin Hget. unfold UpdateUserUseCase.execute.
  rewrite Hin. run. rewrite Hget.
  destruct fetched as [user|]; [|reflexivity].
  destruct (User.isActive user); cbn [negb Rx.repo Rx.calls]; [|reflexivity].
  destruct (UpdateUserUseCase.validateUpdateData userData) as [[]|e];
    cbn [andThen Rx.repo Rx.calls]; [|reflexivity].
  destruct (IUserRepository.update id userData r1) as [n r2].
  now rewrite <- app_assoc.
Qed.

Lemma create_checked userData (w : Rx.World R) exists_ r1 :
  CreateUserUseCase.validateUserData userData = Return tt ->
  IUserRepository.existsByEmail (CreateUserData.email userData) (Rx.repo w)
  = (Next exists_, r1) ->
  Rx.subscribe (CreateUserUseCase.execute userData) w =
    if exists_
    then (Rx.Errored (Error (str "User with this email already exists")),
          Rx.mkWorld r1
            (Rx.calls w ++ [ExistsByEmail (CreateUserData.email userData)]))
    else let (n, r2) := IUserRepository.create userData r1 in
         (Rx.deliver n,
          Rx.mkWorld r2
            (Rx.calls w ++ [ExistsByEmail (CreateUserData.email userData);
                            Create userData])).
Proof.
  intros Hv Hex. unfold CreateUserUseCase.execute.
  rewrite Hv. run. rewrite Hex.
  destruct exists_; cbn [Rx.repo Rx.calls]; [reflexivity|].
  destruct (IUserRepository.create userData r1) as [[user|e] r2];
    now rewrite <- app_assoc.
Qed.

(** A method that throws leaves the repository alone. *)
Lemma subscribe_Throw {A : Type} (e : JsError) (w : Rx.World R) :
  Rx.subscribe (A := A) (Throw e) w = (Rx.Thrown e, w).
Proof. reflexivity. Qed.
End WithRepository.
End UseCaseFacts.

(** ** Validation *)
Module ValidationFacts.
End ValidationFacts.

(** ** Numbers *)
Module NumberFacts.

(** A number above zero is truthy. *)
Lemma positive_truthy n : num_gt n (num 0) = true -> num_truthy n = true.
Proof.
  destruct n as [|[]|q]; cbn; try easy.
  intros Hq. apply negb_true_iff in Hq. apply negb_true_iff.
  destruct (Qeq_bool q 0) eqn:E; [|reflexivity].
  apply Qeq_bool_iff in E.
  assert (Qle_bool q (inject_Z 0) = true); [|congruence].
  apply Qle_bool_iff. rewrite E. apply Qle_refl.
Qed.

(** [Math.min(n, 100)] is [100] above 100 and [n] otherwise. *)
Lemma Math_min_100 n :
  n <> NaN ->
  Math_min n (num 100) = if num_gt n (num 100) then num 100 else n.
Proof. destruct n as [|[]|q]; cbn; try easy. Qed.

Lemma Math_min_100_bound n :
  n <> NaN -> num_gt (Math_min n (num 100)) (num 100) = false.
Proof.
  intros Hn. rewrite (Math_min_100 n Hn).
  destruct (num_gt n (num 100)) eqn:E; [reflexivity|exact E].
Qed.
End NumberFacts.

(** ** Listing and search *)
Module ListFacts.

(** The page that [validateAndSetDefaults] delegates. *)
Lemma validated_page options :
  ListOptions.page (ListUsersUseCase.validateAndSetDefaults options) =
    Some match options ≫= ListOptions.page with
         | Some n =>
             if num_truthy n && negb (num_lt n (num 1)) then n else num 1
         | None => num 1
         end.
Proof.
  destruct options as [[[page|] limit search active]|]; cbn; try reflexivity.
  unfold ListUsersUseCase.orDefault.
  destruct (num_truthy page); cbn [andb]; [|reflexivity].
  destruct (num_lt page (num 1)); reflexivity.
Qed.

(** The limit that [validateAndSetDefaults] delegates. *)
Lemma validated_limit options :
  ListOptions.limit (ListUsersUseCase.validateAndSetDefaults options) =
    Some match options ≫= ListOptions.limit with
         | Some n =>
             if num_truthy n && negb (num_lt n (num 1))
             then if num_gt n (num 100) then num 100 else n
             else num 10
         | None => num 10
         end.
Proof.
  destruct options as [[page [limit|] search active]|]; cbn; try reflexivity.
  unfold ListUsersUseCase.orDefault.
  destruct (num_truthy limit); cbn [andb]; [|reflexivity].
  destruct (num_lt limit (num 1)); reflexivity.
Qed.

(** The search term that [validateAndSetDefaults] delegates. *)
Lemma validated_search options :
  ListOptions.search (ListUsersUseCase.validateAndSetDefaults options) =
    match options ≫= ListOptions.search with
    | Some s =>
        if str_eqb s [] then Some []
        else if (strlen (trim s) <? 2)%Z then None else Some (trim s)
    | None => None
    end.
Proof.
  destruct options as [[page limit [s|] active]|]; cbn; try reflexivity.
  destruct (str_eqb s []) eqn:E; cbn [negb andb].
  - apply bool_decide_eq_true in E. now subst.
  - destruct (strlen (trim s) <? 2)%Z; reflexivity.
Qed.
End ListFacts.

(* ===================================================================== *)
(** ** Domain errors and their handling *)
Module ErrorFacts.

Lemma orString_nonempty value fallback :
  fallback <> [] -> orString value fallback <> [].
Proof.
  intros Hf. unfold orString. destruct value as [s|]; [|exact Hf].
  destruct (str_eqb s []) eqn:E; [exact Hf|].
  unfold str_eqb in E. now apply bool_decide_eq_false in E.
Qed.

Lemma userMessage_nonempty d : userMessage d <> [].
Proof. destruct d; discriminate. Qed.

(** An error object carries no status. *)
Lemma statusIs_error e n : HttpError.statusIs (asHttpError (CaughtError e)) n = false.
Proof. reflexivity. Qed.

Lemma fromHttpError_error e :
  DomainErrorFactory.fromHttpError (asHttpError (CaughtError e))
  = RepositoryError
      (orString (Some (message e)) (str "Repository operation failed"))
      (str "unknown").
Proof. reflexivity. Qed.

End ErrorFacts.

(** ** Trimming *)
Module StringFacts.

Lemma trimStart_clean s :
  Forall (fun c => isWhiteSpace c = false) s -> trimStart s = s.
Proof. destruct 1 as [|c s Hc _]; [reflexivity|]. cbn. now rewrite Hc. Qed.

(** A string without white space is its own trimmed form. *)
Lemma trim_clean s :
  Forall (fun c => isWhiteSpace c = false) s -> trim s = s.
Proof.
  intros Hs. unfold trim, trimEnd. rewrite (trimStart_clean s Hs).
  rewrite trimStart_clean; [apply rev_involutive|].
  now apply Forall_rev.
Qed.

Lemma notSpaceNorAt_clean c : notSpaceNorAt c = true -> isWhiteSpace c = false.
Proof.
  unfold notSpaceNorAt. intros H. apply negb_true_iff in H.
  now apply orb_false_iff in H as [H _].
Qed.

(** A string that matches the email pattern is not blank: it has no
    white space and at least five characters. *)
Lemma email_not_blank email :
  RegExp.test emailRegex email = true ->
  trim email = email /\ (5 <= strlen email)%Z.
Proof.
  intros Ht. apply RegExpFacts.emailRegex_spec in Ht
    as (a & b & c & -> & Ha & Hb & Hc & Hall).
  rewrite !Forall_app in Hall. destruct Hall as (Ha' & Hb' & Hc').
  split.
  - apply trim_clean. rewrite !Forall_app. repeat split.
    + eapply Forall_impl; [exact Ha'|]. intros x. apply notSpaceNorAt_clean.
    + now repeat constructor.
    + eapply Forall_impl; [exact Hb'|]. intros x. apply notSpaceNorAt_clean.
    + now repeat constructor.
    + eapply Forall_impl; [exact Hc'|]. intros x. apply notSpaceNorAt_clean.
  - unfold strlen. rewrite !length_app. cbn [List.length].
    destruct a; [congruence|]. destruct b; [congruence|].
    destruct c; [congruence|]. cbn [List.length].
    lia.
Qed.

Lemma email_isBlank email :
  RegExp.test emailRegex email = true -> isBlank email = false.
Proof.
  intros Ht. destruct (email_not_blank email Ht) as [Htrim Hlen].
  unfold isBlank. rewrite Htrim. apply orb_false_iff. split.
  - unfold str_eqb. apply bool_decide_eq_false. intros ->.
    unfold strlen in Hlen. cbn in Hlen. lia.
  - apply Z.eqb_neq. lia.
Qed.

End StringFacts.

(** ** Names and payloads *)
Module PayloadFacts.

Lemma long_nonempty s : (2 <= strlen (trim s))%Z -> s <> [].
Proof. intros H ->. unfold strlen in H. cbn in H. lia. Qed.

Lemma validateField_accepts name label :
  UpdateUserUseCase.validateField (Present name) label = Return tt
  <-> nameAccepted name.
Proof.
  unfold UpdateUserUseCase.validateField, nameAccepted, throwIf. split.
  - destruct (isBlank name) eqn:B; cbn [andThen]; [discriminate|].
    destruct (Z.ltb_spec (strlen (trim name)) 2); cbn [andThen]; [discriminate|].
    destruct (RegExp.test nameRegex name) eqn:T; cbn [negb]; [|discriminate].
    intros _. apply RegExpFacts.nameRegex_spec in T as [_ T]. split; [exact T|lia].
  - intros [Hall Hlen].
    assert (T : RegExp.test nameRegex name = true)
      by (apply RegExpFacts.nameRegex_spec; split;
          [now apply long_nonempty|exact Hall]).
    rewrite UseCaseFacts.long_not_blank
      by (apply Z.ltb_ge; lia).
    cbn [andThen]. destruct (Z.ltb_spec (strlen (trim name)) 2); [lia|].
    cbn [andThen]. now rewrite T.
Qed.

Lemma validateUserData_accepts userData :
  CreateUserUseCase.validateUserData userData = Return tt
  <-> RegExp.test emailRegex (CreateUserData.email userData) = true
      /\ nameAccepted (CreateUserData.firstName userData)
      /\ nameAccepted (CreateUserData.lastName userData).
Proof.
  destruct userData as [email fn ln]. cbn [CreateUserData.email
    CreateUserData.firstName CreateUserData.lastName].
  unfold CreateUserUseCase.validateUserData, nameAccepted, throwIf.
  cbn [CreateUserData.email CreateUserData.firstName CreateUserData.lastName].
  cbv zeta. split.
  - destruct (isBlank email); cbn [andThen]; [discriminate|].
    destruct (isBlank fn); cbn [andThen]; [discriminate|].
    destruct (isBlank ln); cbn [andThen]; [discriminate|].
    destruct (RegExp.test emailRegex email); cbn [negb andThen]; [|discriminate].
    destruct (Z.ltb_spec (strlen (trim fn)) 2); cbn [andThen]; [discriminate|].
    destruct (Z.ltb_spec (strlen (trim ln)) 2); cbn [andThen]; [discriminate|].
    destruct (RegExp.test nameRegex fn) eqn:T1; cbn [negb andThen]; [|discriminate].
    destruct (RegExp.test nameRegex ln) eqn:T2; cbn [negb]; [|discriminate].
    intros _. apply RegExpFacts.nameRegex_spec in T1 as [_ T1], T2 as [_ T2].
    repeat split; auto; lia.
  - intros (He & [H1 L1] & [H2 L2]).
    rewrite (StringFacts.email_isBlank email He), He.
    rewrite !UseCaseFacts.long_not_blank by (apply Z.ltb_ge; lia).
    cbn [negb andThen].
    destruct (Z.ltb_spec (strlen (trim fn)) 2); [lia|].
    destruct (Z.ltb_spec (strlen (trim ln)) 2); [lia|]. cbn [andThen].
    assert (T1 : RegExp.test nameRegex fn = true)
      by (apply RegExpFacts.nameRegex_spec; split;
          [now apply long_nonempty|exact H1]).
    assert (T2 : RegExp.test nameRegex ln = true)
      by (apply RegExpFacts.nameRegex_spec; split;
          [now apply long_nonempty|exact H2]).
    now rewrite T1, T2.
Qed.

End PayloadFacts.

(** ** Deserialization *)
Module SerializationFacts.

Lemma fromJSON_Return `{JsDate.Host}
    (data : gmap string JsVal) (user : User.t) :
  User.fromJSON data = Some (Return user) ->
  User.invariants (User.email user) (User.firstName user) (User.lastName user)
  = true
  /\ User.prop data "id" = VStr (User.id user)
  /\ User.prop data "email" = VStr (User.email user)
  /\ User.prop data "firstName" = VStr (User.firstName user)
  /\ User.prop data "lastName" = VStr (User.lastName user)
  /\ User.createdAt user = JsDate.new (User.prop data "createdAt")
  /\ User.updatedAt user = JsDate.new (User.prop data "updatedAt")
  /\ (User.prop data "isActive" = VBool (User.isActive user)
      \/ User.prop data "isActive" = VUndefined /\ User.isActive user = true).
Proof.
  unfold User.fromJSON.
  destruct (User.prop data "id") as [| | | |id]; try done.
  destruct (User.prop data "email") as [| | | |email]; try done.
  destruct (User.prop data "firstName") as [| | | |fn]; try done.
  destruct (User.prop data "lastName") as [| | | |ln]; try done.
  cbn [User.asString mbind option_bind].
  destruct (User.prop data "isActive") as [| |b| |]; try done;
    cbn [User.asOptionalBool mbind option_bind]; intros [= Hnew];
    apply EntityFacts.new_Return in Hnew as [Hinv ->]; cbn; repeat split;
    auto.
Qed.

End SerializationFacts.

(** ** Arithmetic on whole numbers *)
Module ArithmeticFacts.

Lemma nearest_whole r d : (0 < d)%Z -> Double.nearest (r * d) d = r.
Proof.
  intros Hd. unfold Double.nearest.
  rewrite Z.div_mul, Z.mod_mul by lia. cbn [Z.mul].
  destruct d; try lia; reflexivity.
Qed.

Lemma pow2_neg t :
  (0 <= t)%Z -> (Double.pow2 (- t) == / inject_Z (2 ^ t))%Q.
Proof.
  intros Ht. unfold Double.pow2.
  assert (Hpos : (0 < 2 ^ t)%Z) by (apply Z.pow_pos_nonneg; lia).
  destruct (Z.leb_spec 0 (- t)).
  - assert (t = 0%Z) as -> by lia. reflexivity.
  - rewrite Z.opp_involutive.
    destruct (2 ^ t)%Z as [|p|p] eqn:E; try lia. reflexivity.
Qed.

Lemma Qred_whole z : Qred (inject_Z z) = inject_Z z.
Proof.
  unfold inject_Z, Qred. cbn [Qnum Qden].
  pose proof (Z.ggcd_gcd z 1) as Hg. pose proof (Z.ggcd_correct_divisors z 1) as Hd.
  destruct (Z.ggcd z 1) as [g [a b]]. cbn [fst snd] in *.
  rewrite Z.gcd_1_r in Hg. subst g. destruct Hd as [Ha Hb].
  rewrite Z.mul_1_l in Ha, Hb. subst a b. reflexivity.
Qed.

(** A whole number from 1 up to 2^53 is a double. *)
Lemma roundPositive_whole z :
  (0 < z < 2 ^ 53)%Z -> Double.roundPositive (inject_Z z) = Some (inject_Z z).
Proof.
  intros [Hpos Hlt]. unfold Double.roundPositive. cbn [Qnum Qden inject_Z].
  assert (He : Double.exponent z 1 = Z.log2 z).
  { unfold Double.exponent. change (Z.log2 1) with 0%Z. rewrite Z.sub_0_r.
    pose proof (Z.log2_nonneg z). pose proof (Z.log2_spec z Hpos) as [Hlow _].
    destruct (Z.leb_spec 0 (Z.log2 z)); [|lia].
    destruct (Z.leb_spec (1 * 2 ^ Z.log2 z) z); [reflexivity|lia]. }
  rewrite He.
  assert (Hlog : (0 <= Z.log2 z < 53)%Z).
  { split; [apply Z.log2_nonneg|]. apply Z.log2_lt_pow2; lia. }
  rewrite Z.max_l by lia.
  set (t := (52 - Z.log2 z)%Z).
  replace (Z.log2 z - 52)%Z with (- t)%Z by (subst t; lia).
  assert (Ht : (0 <= t)%Z) by (subst t; lia).
  assert (Hpow : (0 < 2 ^ t)%Z) by (apply Z.pow_pos_nonneg; lia).
  assert (Hnz : ~ (inject_Z (2 ^ t) == 0)%Q).
  { unfold Qeq. cbn. lia. }
  set (sig := (inject_Z z / Double.pow2 (- t))%Q).
  assert (Hsig : (sig == inject_Z (z * 2 ^ t))%Q).
  { subst sig. rewrite (pow2_neg t Ht), inject_Z_mult. now field. }
  assert (Hn : Double.nearest (Qnum sig) (Z.pos (Qden sig)) = (z * 2 ^ t)%Z).
  { unfold Qeq in Hsig. cbn [Qnum Qden inject_Z] in Hsig.
    rewrite Z.mul_1_r in Hsig. rewrite Hsig. apply nearest_whole. lia. }
  rewrite Hn.
  assert (Hval : (inject_Z (z * 2 ^ t) * Double.pow2 (- t) == inject_Z z)%Q).
  { rewrite (pow2_neg t Ht), inject_Z_mult. now field. }
  assert (Hover : Qle_bool (Double.pow2 1024)
                    (inject_Z (z * 2 ^ t) * Double.pow2 (- t)) = false).
  { rewrite Hval. destruct (Qle_bool _ _) eqn:E; [|reflexivity].
    apply Qle_bool_iff in E. unfold Qle, Double.pow2 in E.
    cbn [Qnum Qden inject_Z Z.leb] in E.
    change (0 <=? 1024)%Z with true in E. cbn [Qnum Qden inject_Z] in E.
    assert (2 ^ 53 < 2 ^ 1024)%Z by (apply Z.pow_lt_mono_r; lia). lia. }
  rewrite Hover. f_equal.
  rewrite (Qred_complete _ _ Hval). apply Qred_whole.
Qed.

Lemma round_whole q z :
  (q == inject_Z z)%Q -> (0 <= z < 2 ^ 53)%Z -> Double.round q = num z.
Proof.
  intros Hq [H0 Hlt]. unfold Double.round.
  rewrite (Qred_complete _ _ Hq), Qred_whole. cbn [Qnum inject_Z].
  destruct z as [|p|p]; [reflexivity| |lia].
  rewrite roundPositive_whole by lia. reflexivity.
Qed.

(** Sums, differences and products of whole numbers are exact as long
    as the result is a whole number from 0 up to 2^53. *)
Lemma num_add_whole a b :
  (0 <= a + b < 2 ^ 53)%Z -> num_add (num a) (num b) = num (a + b).
Proof.
  intros H. unfold num_add, num. apply round_whole; [|exact H].
  now rewrite inject_Z_plus.
Qed.

Lemma num_sub_whole a b :
  (0 <= a - b < 2 ^ 53)%Z -> num_sub (num a) (num b) = num (a - b).
Proof.
  intros H. unfold num_sub, num. apply round_whole; [|exact H].
  unfold Z.sub, Qminus. now rewrite inject_Z_plus, inject_Z_opp.
Qed.

Lemma num_mul_whole a b :
  (0 <= a * b < 2 ^ 53)%Z -> num_mul (num a) (num b) = num (a * b).
Proof.
  intros H. unfold num_mul, num. apply round_whole; [|exact H].
  now rewrite inject_Z_mult.
Qed.

Lemma sliceIndex_whole z len :
  (0 <= z)%Z -> sliceIndex (num z) len = Nat.min (Z.to_nat z) len.
Proof.
  intros Hz. unfold sliceIndex, toIntegerOrInfinity, num.
  cbn [Qnum Qden inject_Z]. rewrite Z.quot_1_r.
  destruct (Z.ltb_spec z 0); lia.
Qed.

(** With whole bounds, a slice is what is left after dropping and
    taking. *)
Lemma slice_whole {A : Type} (a n : Z) (l : list A) :
  (0 <= a)%Z -> (0 <= n)%Z ->
  slice (num a) (num (a + n)) l = take (Z.to_nat n) (drop (Z.to_nat a) l).
Proof.
  intros Ha Hn. unfold slice. rewrite !sliceIndex_whole by lia.
  destruct (Nat.le_gt_cases (List.length l) (Z.to_nat a)) as [Hout|Hin].
  - rewrite Nat.min_r by lia. rewrite !drop_ge by lia. now rewrite !take_nil.
  - rewrite (Nat.min_l (Z.to_nat a)) by lia.
    destruct (Nat.le_gt_cases (Z.to_nat (a + n)) (List.length l)) as [Hfit|Hcut].
    + rewrite Nat.min_l by lia. f_equal. lia.
    + rewrite Nat.min_r by lia.
      rewrite !take_ge; [reflexivity| |]; rewrite length_drop; lia.
Qed.

(** A slice keeps the order of the list. *)
Lemma slice_sublist {A : Type} (start end_ : JsNumber) (l : list A) :
  sublist (slice start end_ l) l.
Proof.
  unfold slice. etransitivity; [apply sublist_take|apply sublist_drop].
Qed.

End ArithmeticFacts.

(** ** The in-memory repository *)
Module MockFacts.
Import UserMockRepository.

Lemma str_inj a b : str a = str b -> a = b.
Proof.
  unfold str. revert b. induction a as [|c a IH]; intros [|d b]; cbn;
    try discriminate; [reflexivity|].
  intros [= Hc Hrest]. f_equal; [|now apply IH].
  rewrite <- (ascii_N_embedding c), <- (ascii_N_embedding d). now rewrite Hc.
Qed.

(** Different numbers have different decimal forms. *)
Lemma decimal_inj a b : decimal a = decimal b -> a = b.
Proof.
  unfold decimal. intros E. apply str_inj in E.
  apply DecimalN.Unsigned.to_uint_inj.
  assert (Some (N.to_uint a) = Some (N.to_uint b)) as [= ->]; [|reflexivity].
  rewrite <- !NilEmpty.usu. now rewrite E.
Qed.

Lemma findBy_Some key value l i u :
  findBy key value l = Some (i, u) -> l !! i = Some u /\ key u = value.
Proof. unfold findBy. intros Hf. apply list_find_Some in Hf. tauto. Qed.

Lemma findBy_None key value l :
  findBy key value l = None <-> value ∉ key <$> l.
Proof.
  unfold findBy. rewrite list_find_None, list_elem_of_fmap, Forall_forall.
  split.
  - intros Hall (u & -> & Hu). now apply (Hall u).
  - intros Hnot u Hu E. apply Hnot. exists u. auto.
Qed.

(** With unique keys, the user at a position is the one that a search
    for its key finds. *)
Lemma findBy_lookup key l i u :
  NoDup (key <$> l) -> l !! i = Some u -> findBy key (key u) l = Some (i, u).
Proof.
  intros Hnd Hi. unfold findBy. apply list_find_Some.
  split; [exact Hi|]. split; [reflexivity|].
  intros j v Hj Hlt E.
  assert (i = j); [|lia].
  apply (NoDup_lookup (key <$> l) i j (key u)); [exact Hnd| |].
  - rewrite list_lookup_fmap, Hi. reflexivity.
  - rewrite list_lookup_fmap, Hj. cbn. now rewrite E.
Qed.

Lemma findBy_is_Some key value l :
  is_Some (findBy key value l) <-> value ∈ key <$> l.
Proof.
  destruct (findBy key value l) as [[i u]|] eqn:E.
  - split; [|eauto]. intros _. apply findBy_Some in E as [Hi <-].
    apply list_elem_of_fmap. exists u. split; [reflexivity|].
    now apply list_elem_of_lookup_2 in Hi.
  - apply findBy_None in E. split; [intros [? [=]]|done].
Qed.

(** Replacing a user by one with the same key leaves the keys as they
    are. *)
Lemma keys_insert (key : User.t -> jsstring) (l : list User.t) (i : nat) u u' :
  l !! i = Some u -> key u' = key u -> key <$> <[i := u']> l = key <$> l.
Proof.
  intros Hi Hk. rewrite list_fmap_insert, Hk.
  apply list_insert_id. rewrite list_lookup_fmap, Hi. reflexivity.
Qed.

Lemma lookup_valid st i u :
  Consistent st -> users st !! i = Some u ->
  User.invariants (User.email u) (User.firstName u) (User.lastName u) = true.
Proof.
  intros [_ _ Hv _] Hi.
  apply (proj1 (Forall_forall _ _) Hv u). now apply list_elem_of_lookup_2 in Hi.
Qed.

Lemma deactivate_valid now u :
  User.invariants (User.email u) (User.firstName u) (User.lastName u) = true ->
  User.deactivate now u
  = Return (User.mk (User.id u) (User.email u) (User.firstName u)
              (User.lastName u) (User.createdAt u) now false).
Proof. intros Hinv. unfold User.deactivate. now apply EntityFacts.new_valid. Qed.


(** The decimal form of a number has no white space and is not empty. *)
Lemma string_of_uint_clean d :
  Forall (fun c => isWhiteSpace c = false) (str (NilEmpty.string_of_uint d)).
Proof. induction d; cbn; constructor; auto. Qed.

Lemma decimal_not_blank n : isBlank (decimal n) = false.
Proof.
  unfold isBlank, decimal.
  rewrite (StringFacts.trim_clean _ (string_of_uint_clean _)).
  assert (Hd : N.to_uint n <> Decimal.Nil).
  { destruct n as [|p]; [discriminate|]. apply DecimalPos.Unsigned.to_uint_nonnil. }
  destruct (N.to_uint n); try congruence; reflexivity.
Qed.

(** Consistency speaks of the users and of the next id only. *)
Lemma consistent_ext st st' :
  users st' = users st -> nextId st' = nextId st ->
  Consistent st -> Consistent st'.
Proof.
  intros Hu Hn [H1 H2 H3 H4]. split; rewrite ?Hu, ?Hn; assumption.
Qed.

Lemma initial_consistent time : Consistent (initial time).
Proof.
  split; cbn [users nextId initial].
  - apply (bool_decide_unpack _). vm_compute. exact I.
  - apply (bool_decide_unpack _). vm_compute. exact I.
  - unfold initialUsers. repeat constructor.
  - unfold initialUsers.
    repeat (constructor;
            [first [ exists 1%N; split; [lia|reflexivity]
                   | exists 2%N; split; [lia|reflexivity]
                   | exists 3%N; split; [lia|reflexivity]
                   | exists 4%N; split; [lia|reflexivity]
                   | exists 5%N; split; [lia|reflexivity] ]|]).
    constructor.
Qed.

(** An id that has not been handed out is not in the store. *)
Lemma fresh_id st k :
  Consistent st -> (nextId st <= k)%N ->
  findBy User.id (decimal k) (users st) = None.
Proof.
  intros [_ _ _ Hh] Hk. apply findBy_None. intros Hin.
  apply list_elem_of_fmap in Hin as (u & E & Hu).
  rewrite Forall_forall in Hh. destruct (Hh u Hu) as (j & Hj & Ej).
  rewrite Ej in E. apply decimal_inj in E. lia.
Qed.

Lemma create_consistent userData st :
  Consistent st -> (nextId st < 2 ^ 53)%N ->
  Consistent (create userData st).2.
Proof.
  intros Hc Hn. unfold create.
  destruct (findBy User.email _ _) as [?|] eqn:Ee; [exact Hc|].
  destruct (User.new _ _ _ _ _ _ _) as [newUser|e] eqn:En; cbn [attempt snd];
    [|now apply (consistent_ext st)].
  apply EntityFacts.new_Return in En as [Hinv ->].
  pose proof (fresh_id st (nextId st) Hc (N.le_refl _)) as Hfresh.
  destruct Hc as [H1 H2 H3 H4].
  apply findBy_None in Ee, Hfresh.
  split; cbn [users nextId].
  - rewrite fmap_app. apply NoDup_app. split; [exact H1|]. split.
    + intros x Hx Hin. cbn in Hin. apply list_elem_of_singleton in Hin.
      subst x. now apply Hfresh.
    + cbn. apply NoDup_singleton.
  - rewrite fmap_app. apply NoDup_app. split; [exact H2|]. split.
    + intros x Hx Hin. cbn in Hin. apply list_elem_of_singleton in Hin.
      subst x. now apply Ee.
    + cbn. apply NoDup_singleton.
  - apply Forall_app. split; [exact H3|]. now repeat constructor.
  - assert (Hinc : increment (nextId st) = (nextId st + 1)%N).
    { unfold increment. destruct (N.ltb_spec (nextId st) (2 ^ 53)); [reflexivity|lia]. }
    rewrite Hinc. apply Forall_app. split.
    + eapply Forall_impl; [exact H4|]. intros u (k & Hk & E).
      exists k. split; [lia|exact E].
    + repeat constructor. exists (nextId st). split; [lia|reflexivity].
Qed.

(** Replacing a user by one with the same id and email that satisfies
    the invariants of the entity keeps the store consistent. *)
Lemma insert_consistent st i u u' n r :
  Consistent st -> users st !! i = Some u ->
  User.id u' = User.id u -> User.email u' = User.email u ->
  User.invariants (User.email u') (User.firstName u') (User.lastName u') = true ->
  Consistent (mk (<[i := u']> (users st)) (nextId st) n r).
Proof.
  intros [H1 H2 H3 H4] Hi Eid Eemail Hinv. split; cbn [users nextId].
  - now rewrite (keys_insert User.id _ i u u').
  - now rewrite (keys_insert User.email _ i u u').
  - apply Forall_insert; assumption.
  - apply Forall_insert; [assumption|]. rewrite Eid.
    rewrite Forall_forall in H4. apply H4.
    now apply list_elem_of_lookup_2 in Hi.
Qed.

Lemma update_consistent id userData st :
  Consistent st -> Consistent (update id userData st).2.
Proof.
  intros Hc. unfold update.
  destruct (findBy User.id id (users st)) as [[i u]|] eqn:Ef; [|exact Hc].
  apply findBy_Some in Ef as [Hi _].
  destruct (User.updateInfo _ _ _ _) as [u'|e] eqn:En; cbn [attempt snd];
    [|now apply (consistent_ext st)].
  apply EntityFacts.new_Return in En as [Hinv ->].
  now apply (insert_consistent st i u).
Qed.

Lemma delete_consistent id st :
  Consistent st -> Consistent (delete id st).2.
Proof.
  intros Hc. unfold delete.
  destruct (findBy User.id id (users st)) as [[i u]|] eqn:Ef; [|exact Hc].
  apply findBy_Some in Ef as [Hi _].
  destruct (negb (User.isActive u)); [exact Hc|].
  destruct (User.deactivate _ _) as [u'|e] eqn:En; cbn [snd];
    [|now apply (consistent_ext st)].
  apply EntityFacts.new_Return in En as [Hinv ->].
  now apply (insert_consistent st i u).
Qed.

Lemma permanentDelete_consistent id st :
  Consistent st -> Consistent (permanentDelete id st).2.
Proof.
  intros Hc. unfold permanentDelete.
  destruct (findBy User.id id (users st)) as [[i u]|] eqn:Ef; [|exact Hc].
  destruct (User.isActive u); [exact Hc|]. cbn [snd].
  destruct Hc as [H1 H2 H3 H4]. split; cbn [users nextId].
  - rewrite list_fmap_delete. eapply sublist_NoDup; [exact H1|apply sublist_delete].
  - rewrite list_fmap_delete. eapply sublist_NoDup; [exact H2|apply sublist_delete].
  - now apply Forall_delete.
  - now apply Forall_delete.
Qed.


(** A user appended to the store is found under a key that was not in
    use, at the end of the list. *)
Lemma findBy_snoc key l u :
  findBy key (key u) l = None ->
  findBy key (key u) (l ++ [u]) = Some (List.length l, u).
Proof.
  unfold findBy. intros Hn. rewrite list_find_app_r by exact Hn. cbn.
  destruct (decide (key u = key u)); [reflexivity|congruence].
Qed.

(** What a successful [create] has done. *)
Lemma create_Next userData st user st' :
  create userData st = (Next user, st') ->
  findBy User.email (CreateUserData.email userData) (users st) = None
  /\ User.invariants (CreateUserData.email userData)
       (CreateUserData.firstName userData) (CreateUserData.lastName userData)
     = true
  /\ user = User.mk (decimal (nextId st)) (CreateUserData.email userData)
              (CreateUserData.firstName userData)
              (CreateUserData.lastName userData) (clock st 0) (clock st 1) true
  /\ st' = mk (users st ++ [user]) (increment (nextId st)) (time st)
             (reads st + 2).
Proof.
  unfold create.
  destruct (findBy User.email _ _) as [?|] eqn:Ee; [discriminate|].
  destruct (User.new _ _ _ _ _ _ _) as [newUser|e] eqn:En; cbn [attempt];
    [|discriminate].
  apply EntityFacts.new_Return in En as [Hinv ->].
  intros [= <- <-]. auto.
Qed.

(** Without the user at a position, its id is no longer in the store. *)
Lemma findBy_delete st i u :
  Consistent st -> users st !! i = Some u ->
  findBy User.id (User.id u) (base.delete i (users st)) = None.
Proof.
  intros [H1 _ _ _] Hi. apply findBy_None.
  rewrite <- (take_drop_middle _ _ _ Hi) in H1.
  rewrite delete_take_drop, fmap_app.
  rewrite fmap_app, fmap_cons in H1.
  apply NoDup_app in H1 as (_ & Hdisjoint & Hrest).
  apply NoDup_cons in Hrest as [Hnot _].
  intros Hin. apply elem_of_app in Hin as [Hin|Hin]; [|now apply Hnot].
  apply (Hdisjoint _ Hin). apply list_elem_of_here.
Qed.

(** The ids of a consistent store are not blank. *)
Lemma stored_id_not_blank st i u :
  Consistent st -> users st !! i = Some u -> isBlank (User.id u) = false.
Proof.
  intros [_ _ _ H4] Hi. rewrite Forall_forall in H4.
  destruct (H4 u) as (k & _ & ->); [|apply decimal_not_blank].
  now apply list_elem_of_lookup_2 in Hi.
Qed.


(** The limit that [executeSearch] hands over is a number above 0 and at
    most 100. *)
Lemma searchLimit_range limit :
  exists q, ListUsersUseCase.searchLimit limit = Finite q
            /\ (0 < Qnum q)%Z /\ (Qnum q <= 100 * Z.pos (Qden q))%Z.
Proof.
  assert (H20 : exists q, num 20 = Finite q
                          /\ (0 < Qnum q)%Z
                          /\ (Qnum q <= 100 * Z.pos (Qden q))%Z)
    by (eexists; split; [reflexivity|cbn; lia]).
  unfold ListUsersUseCase.searchLimit, num_gt, num in *.
  destruct limit as [[|[]|q]|]; cbn [num_truthy num_lt andb];
    try exact H20.
  - eexists. split; [reflexivity|cbn; lia].
  - destruct (negb (Qeq_bool q 0)); cbn [andb]; [|exact H20].
    destruct (negb (Qle_bool q (inject_Z 0))) eqn:Epos; [|exact H20].
    apply negb_true_iff in Epos.
    assert (Hpos : (0 < Qnum q)%Z).
    { destruct (Z_lt_le_dec 0 (Qnum q)) as [?|Hle]; [assumption|].
      assert (Qle_bool q (inject_Z 0) = true); [|congruence].
      apply Qle_bool_iff. unfold Qle. cbn. lia. }
    unfold Math_min. cbn [num_lt].
    destruct (Qle_bool q (inject_Z 100)) eqn:Ele; cbn [negb].
    + exists q. split; [reflexivity|]. split; [exact Hpos|].
      apply Qle_bool_iff in Ele. unfold Qle in Ele. cbn in Ele. lia.
    + eexists. split; [reflexivity|cbn; lia].
Qed.

(** A slice up to such a limit has at most 100 elements. *)
Lemma sliceTo_bound {A : Type} q (l : list A) :
  (0 < Qnum q)%Z -> (Qnum q <= 100 * Z.pos (Qden q))%Z ->
  (List.length (sliceTo (Finite q) l) <= 100)%nat.
Proof.
  intros Hpos Hle. unfold sliceTo.
  etransitivity; [apply firstn_le_length|].
  rewrite Z.quot_div_nonneg by lia.
  assert (Qnum q / Z.pos (Qden q) <= 100)%Z
    by (apply Z.div_le_upper_bound; lia).
  lia.
Qed.

Lemma filter_sublist {A : Type} (f : A -> bool) (l : list A) :
  sublist (List.filter f l) l.
Proof.
  induction l as [|x l IH]; cbn; [constructor|].
  destruct (f x); now constructor.
Qed.

Lemma filter_Forall {A : Type} (f : A -> bool) (l : list A) :
  Forall (fun x => f x = true) (List.filter f l).
Proof.
  apply Forall_forall. intros x Hx. apply list_elem_of_In in Hx.
  now apply filter_In in Hx.
Qed.


(** Counting after a replacement and after a removal. *)
Lemma count_insert {A : Type} (f : A -> bool) (l : list A) i x y :
  l !! i = Some x ->
  (List.length (List.filter f (<[i := y]> l)) + (if f x then 1 else 0)
   = List.length (List.filter f l) + (if f y then 1 else 0))%nat.
Proof.
  intros Hi. rewrite insert_take_drop by now apply lookup_lt_Some in Hi.
  rewrite <- (take_drop_middle l i x Hi) at 3.
  rewrite !List.filter_app, !length_app. cbn [List.filter].
  destruct (f x), (f y); cbn [List.length]; lia.
Qed.

Lemma count_delete {A : Type} (f : A -> bool) (l : list A) i x :
  l !! i = Some x ->
  (List.length (List.filter f (base.delete i l)) + (if f x then 1 else 0)
   = List.length (List.filter f l))%nat.
Proof.
  intros Hi. rewrite delete_take_drop.
  rewrite <- (take_drop_middle l i x Hi) at 3.
  rewrite !List.filter_app, !length_app. cbn [List.filter].
  destruct (f x); cbn [List.length]; lia.
Qed.


Lemma filter_filter {A : Type} (f g : A -> bool) (l : list A) :
  List.filter g (List.filter f l) = List.filter (fun x => f x && g x) l.
Proof.
  induction l as [|x l IH]; cbn; [reflexivity|].
  destruct (f x); cbn; [|exact IH]. destruct (g x); now rewrite IH.
Qed.

Lemma filter_true {A : Type} (l : list A) : List.filter (fun _ => true) l = l.
Proof. induction l as [|x l IH]; cbn; [reflexivity|]. now rewrite IH. Qed.

(** The page and the limit that [validateAndSetDefaults] delegates are
    truthy, so that [getAll] does not replace them. *)
Lemma validated_truthy options :
  exists page limit,
    ListOptions.page (ListUsersUseCase.validateAndSetDefaults options)
    = Some page
    /\ ListOptions.limit (ListUsersUseCase.validateAndSetDefaults options)
       = Some limit
    /\ num_truthy page = true /\ num_truthy limit = true.
Proof.
  rewrite ListFacts.validated_page, ListFacts.validated_limit.
  do 2 eexists. split; [reflexivity|]. split; [reflexivity|]. split.
  - destruct (options ≫= ListOptions.page) as [n|]; [|reflexivity].
    destruct (num_truthy n) eqn:E; cbn [andb]; [|reflexivity].
    destruct (negb (num_lt n (num 1))); [exact E|reflexivity].
  - destruct (options ≫= ListOptions.limit) as [n|]; [|reflexivity].
    destruct (num_truthy n) eqn:E; cbn [andb]; [|reflexivity].
    destruct (negb (num_lt n (num 1))); [|reflexivity].
    destruct (num_gt n (num 100)); [reflexivity|exact E].
Qed.

Lemma num_whole_ge a b : num_lt (num a) (num b) = false -> (b <= a)%Z.
Proof.
  unfold num_lt, num. intros E. apply negb_false_iff, Qle_bool_iff in E.
  now rewrite Zle_Qle.
Qed.

Lemma num_whole_inj a b : num a = num b -> a = b.
Proof. unfold num, inject_Z. now intros [= ->]. Qed.

(** A whole page that [validateAndSetDefaults] delegates is at least 1,
    and a whole limit lies between 1 and 100. *)
Lemma validated_whole options P L :
  ListOptions.page (ListUsersUseCase.validateAndSetDefaults options)
  = Some (num P) ->
  ListOptions.limit (ListUsersUseCase.validateAndSetDefaults options)
  = Some (num L) ->
  (1 <= P)%Z /\ (1 <= L <= 100)%Z.
Proof.
  rewrite ListFacts.validated_page, ListFacts.validated_limit.
  intros Hp Hl. apply (inj Some) in Hp, Hl. split.
  - destruct (options ≫= ListOptions.page) as [n|];
      [|apply num_whole_inj in Hp; lia].
    destruct (num_truthy n), (num_lt n (num 1)) eqn:E; cbn [andb negb] in Hp;
      try (apply num_whole_inj in Hp; lia).
    subst n. now apply num_whole_ge in E.
  - destruct (options ≫= ListOptions.limit) as [n|];
      [|apply num_whole_inj in Hl; lia].
    destruct (num_truthy n), (num_lt n (num 1)) eqn:E,
      (num_gt n (num 100)) eqn:E'; cbn [andb negb] in Hl;
      try (apply num_whole_inj in Hl; lia).
    subst n. apply num_whole_ge in E, E'. lia.
Qed.

End MockFacts.

(** ** The HTTP repository *)
Module HttpFacts.
Import UserRepository.

Lemma mapToUser_fromJSON `{JsDate.Host} (userData : gmap string JsVal) :
  mapToUser userData = User.fromJSON userData.
Proof. reflexivity. Qed.

(** What the constructor throws is one of three errors; its message is
    not empty. *)
Lemma new_Throw id email fn ln c u a e :
  User.new id email fn ln c u a = Throw e ->
  e ∈ [Error (str "Invalid email format");
       Error (str "First name must be at least 2 characters long");
       Error (str "Last name must be at least 2 characters long")].
Proof.
  rewrite EntityFacts.new_invariants.
  destruct (negb _); [intros [= <-]; set_solver|].
  destruct (_ <? 2)%Z; [intros [= <-]; set_solver|].
  destruct (_ <? 2)%Z; [intros [= <-]; set_solver|discriminate].
Qed.

Lemma mapToUser_Throw `{JsDate.Host} (userData : gmap string JsVal) e :
  mapToUser userData = Some (Throw e) ->
  e ∈ [Error (str "Invalid email format");
       Error (str "First name must be at least 2 characters long");
       Error (str "Last name must be at least 2 characters long")].
Proof.
  unfold mapToUser.
  destruct (User.asString (User.prop userData "id")); [|done].
  destruct (User.asString (User.prop userData "email")); [|done].
  destruct (User.asString (User.prop userData "firstName")); [|done].
  destruct (User.asString (User.prop userData "lastName")); [|done].
  destruct (User.asOptionalBool (User.prop userData "isActive")); [|done].
  cbn [mbind option_bind]. intros [= E]. now apply new_Throw in E.
Qed.

(** How a pipe fails: the source failed, or the projection threw. *)
Lemma piped_Failure {A B : Type} (source : Response A)
    (project : A -> option (Completion B))
    (selector : Caught -> Notification B) e :
  piped source project selector = Some (Failure e) ->
  exists error,
    selector error = Failure e
    /\ (source = Fault error
        \/ exists a thrown,
             source = Body a /\ project a = Some (Throw thrown)
             /\ error = CaughtError thrown).
Proof.
  unfold piped. destruct source as [a|error].
  - destruct (project a) as [[b|thrown]|] eqn:Ep; cbn; [discriminate| |discriminate].
    intros [= E]. exists (CaughtError thrown). split; [exact E|].
    right. now exists a, thrown.
  - intros [= E]. exists error. split; [exact E|now left].
Qed.

End HttpFacts.

(** * Part III: the claims of the specification *)
(* ===================================================================== *)

(** ** Construction and serialization of the entity *)

(** C3, as stated, fails: the first name 'John123' contains characters
    that are neither letters nor spaces, and the constructor accepts
    it. *)
Lemma constructor_accepts_digits :
  existsb (fun c => negb (isAsciiLetter c || (c =? 32)%N)) (str "John123")
  = true
  /\ RegExp.test nameRegex (str "John123") = false
  /\ User.new (str "1") (str "test@example.com") (str "John123") (str "Doe")
       Samples.date20230101 Samples.date20230101 (Some true)
     = Return
         (User.mk (str "1") (str "test@example.com") (str "John123")
            (str "Doe") Samples.date20230101 Samples.date20230101 true).
Proof. repeat split. Qed.

(** C3, amended.  The constructor throws, and no object exists, when the
    email does not match the email format or a name has fewer than two
    characters after trimming; otherwise it returns the entity with the
    given fields, [isActive] being [true] when the argument is left
    out.  The characters of the names are not examined. *)
Theorem constructor_enforces_invariants
    (id email firstName lastName : jsstring) (createdAt updatedAt : JsDate.t)
    (isActive : option bool) :
  if User.invariants email firstName lastName
  then User.new id email firstName lastName createdAt updatedAt isActive
       = Return (User.mk id email firstName lastName createdAt updatedAt
                   (default true isActive))
  else exists msg,
         User.new id email firstName lastName createdAt updatedAt isActive
         = Throw (Error msg).
Proof.
  destruct (User.invariants email firstName lastName) eqn:Hinv.
  - now apply EntityFacts.new_valid.
  - rewrite EntityFacts.new_invariants. unfold User.invariants in Hinv.
    destruct (RegExp.test emailRegex email); cbn [negb andb] in *;
      [|eexists; reflexivity].
    destruct (Z.ltb_spec (strlen (trim firstName)) 2); [eexists; reflexivity|].
    destruct (Z.ltb_spec (strlen (trim lastName)) 2); [eexists; reflexivity|].
    exfalso. apply andb_false_iff in Hinv as [Hinv|Hinv];
      apply Z.leb_gt in Hinv; lia.
Qed.

(** C4, as stated, fails: the constructor does not look at the dates, so
    an entity can hold an invalid date, and then [toJSON] throws a
    [RangeError] instead of producing the serialized form. *)
Lemma invalid_date_breaks_round_trip :
  let u := User.mk (str "1") (str "test@example.com") (str "John") (str "Doe")
             None None true in
  User.new (str "1") (str "test@example.com") (str "John") (str "Doe")
    None None (Some true) = Return u
  /\ User.toJSON u = Throw (RangeError (str "Invalid time value"))
  /\ User.roundTrip (H := strictHost) u
     = Some (Throw (RangeError (str "Invalid time value")))
  /\ User.roundTrip (H := strictHost) u <> Some (Return u).
Proof. repeat split. discriminate. Qed.

(** C4, amended.  For every entity that satisfies the invariants of the
    constructor and whose two dates are valid, [fromJSON(toJSON(u))] is
    [u]: every field is equal, the two time values to the millisecond. *)
Theorem fromJSON_toJSON `{JsDate.Host} (u : User.t) (created updated : Z) :
  User.invariants (User.email u) (User.firstName u) (User.lastName u) = true ->
  User.createdAt u = Some created -> JsDate.inRange created = true ->
  User.updatedAt u = Some updated -> JsDate.inRange updated = true ->
  User.roundTrip u = Some (Return u).
Proof.
  intros Hinv Hc Rc Hu Ru.
  rewrite (EntityFacts.roundTrip_valid u created updated Hc Hu Rc Ru).
  rewrite (EntityFacts.new_valid _ _ _ _ _ _ _ Hinv). cbn [default].
  rewrite <- Hc, <- Hu. now rewrite EntityFacts.eta_user.
Qed.

(** The serialization test of [user.entity.spec.ts]. *)
Lemma fromJSON_toJSON_john :
  User.roundTrip (H := strictHost) Samples.john = Some (Return Samples.john).
Proof.
  exact (fromJSON_toJSON (H := strictHost) Samples.john
           1672531200000 1672531200000
           eq_refl eq_refl eq_refl eq_refl eq_refl).
Defined.




(** ** Creation *)

(** C2, as stated, fails: with [existsByEmail] delivering [true] the use
    case fails with [new Error('User with this email already exists')],
    which is not a [UserAlreadyExistsError] nor any other [DomainError]. *)
Lemma create_existing_is_plain_error :
  let outcome :=
    fst (Rx.subscribe (CreateUserUseCase.execute Samples.validUserData)
           (Samples.start (Samples.spy None true))) in
  Rx.failure outcome = Some (Error (str "User with this email already exists"))
  /\ Rx.failure outcome
     <> Some (Domain (UserAlreadyExistsError (str "test@example.com")))
  /\ (isDomainError <$> Rx.failure outcome) = Some false.
Proof. repeat split. discriminate. Qed.

(** C2, amended.  For a payload that passes [validateUserData]: when
    [existsByEmail] delivers [true] the use case fails with the plain
    [Error] 'User with this email already exists' after that single call
    ([create] is not invoked); when it delivers [false] the calls are one
    [existsByEmail] and one [create], and the subscriber receives what
    [create] delivers. *)
Theorem create_checks_then_creates {R : Type} `{IUserRepository.t R}
    (userData : CreateUserData.t) (w : Rx.World R) (exists_ : bool) (r1 : R) :
  CreateUserUseCase.validateUserData userData = Return tt ->
  IUserRepository.existsByEmail (CreateUserData.email userData) (Rx.repo w)
  = (Next exists_, r1) ->
  Rx.subscribe (CreateUserUseCase.execute userData) w =
    if exists_
    then (Rx.Errored (Error (str "User with this email already exists")),
          Rx.mkWorld r1
            (Rx.calls w ++ [ExistsByEmail (CreateUserData.email userData)]))
    else let (n, r2) := IUserRepository.create userData r1 in
         (Rx.deliver n,
          Rx.mkWorld r2
            (Rx.calls w ++ [ExistsByEmail (CreateUserData.email userData);
                            Create userData])).
Proof. apply UseCaseFacts.create_checked. Qed.

(** The first test of [create-user.use-case.spec.ts]. *)
Lemma create_checks_then_creates_john :
  Rx.subscribe (CreateUserUseCase.execute Samples.validUserData)
    (Samples.start (Samples.spy None false))
  = (Rx.Emitted Samples.john,
     Rx.mkWorld (Samples.spy None false)
       [ExistsByEmail (str "test@example.com"); Create Samples.validUserData]).
Proof.
  exact (create_checks_then_creates Samples.validUserData
           (Samples.start (Samples.spy None false)) false
           (Samples.spy None false) eq_refl eq_refl).
Defined.

(** ** Update *)

(** C6.  When [getById] delivers an inactive user, the update fails with
    'Cannot update inactive user' after that single call, whatever the
    names in the payload are: they have not been looked at, and [update]
    is not invoked. *)
Theorem update_inactive_fails_first {R : Type} `{IUserRepository.t R}
    (id : jsstring) (userData : UpdateUserData.t) (w : Rx.World R)
    (user : User.t) (r1 : R) :
  UpdateUserUseCase.validateInput id userData = Return tt ->
  IUserRepository.getById id (Rx.repo w) = (Next (Some user), r1) ->
  User.isActive user = false ->
  Rx.subscribe (UpdateUserUseCase.execute id userData) w
  = (Rx.Errored (Error (str "Cannot update inactive user")),
     Rx.mkWorld r1 (Rx.calls w ++ [GetById id])).
Proof.
  intros Hin Hget Hact.
  rewrite (UseCaseFacts.update_fetched id userData w (Some user) r1 Hin Hget).
  now rewrite Hact.
Qed.

(** An inactive user and a first name that the name validation rejects:
    the failure is the one of the inactive check. *)
Lemma update_inactive_fails_first_bob :
  UpdateUserUseCase.validateUpdateData
    (UpdateUserData.mk (Present (str "A")) Missing)
  = Throw (Error (str "First name must be at least 2 characters long"))
  /\ Rx.subscribe
       (UpdateUserUseCase.execute (str "3")
          (UpdateUserData.mk (Present (str "A")) Missing))
       (Samples.start (Samples.spy (Some Samples.bob) false))
     = (Rx.Errored (Error (str "Cannot update inactive user")),
        Rx.mkWorld (Samples.spy (Some Samples.bob) false) [GetById (str "3")]).
Proof.
  split; [reflexivity|].
  exact (update_inactive_fails_first (str "3")
           (UpdateUserData.mk (Present (str "A")) Missing)
           (Samples.start (Samples.spy (Some Samples.bob) false))
           Samples.bob (Samples.spy (Some Samples.bob) false)
           eq_refl eq_refl eq_refl).
Defined.

(** ** Deletion *)

(** C1.  When [getById] delivers a user, soft delete of an inactive user
    and hard delete of an active user fail after that single read; soft
    delete of an active user hands over to the repository's [delete], and
    hard delete of an inactive user calls [permanentDelete] exactly once
    and delivers what it delivers.  When the user is gone ([null]) both
    fail.  So the only transitions are Active to Inactive (soft) and
    Inactive to Removed (hard). *)
Theorem delete_follows_lifecycle {R : Type} `{IUserRepository.t R}
    (id : jsstring) (w : Rx.World R) (fetched : option User.t) (r1 : R) :
  isBlank id = false ->
  IUserRepository.getById id (Rx.repo w) = (Next fetched, r1) ->
  let afterRead := Rx.mkWorld r1 (Rx.calls w ++ [GetById id]) in
  let soft := Rx.subscribe (DeleteUserUseCase.executeSoftDelete id) w in
  let hard := Rx.subscribe (DeleteUserUseCase.executeHardDelete id) w in
  match fetched with
  | Some user =>
      if User.isActive user
      then
        soft = (let (n, r2) := IUserRepository.delete id r1 in
                (Rx.deliver n,
                 Rx.mkWorld r2 (Rx.calls w ++ [GetById id; Delete id])))
        /\ hard = (Rx.Errored
                     (Error (str "Cannot permanently delete active user. Deactivate first.")),
                   afterRead)
      else
        soft = (Rx.Errored (Error (str "User is already inactive")), afterRead)
        /\ hard = (let (n, r2) := IUserRepository.permanentDelete id r1 in
                   (Rx.deliver n,
                    Rx.mkWorld r2
                      (Rx.calls w ++ [GetById id; PermanentDelete id])))
  | None =>
      soft = (Rx.Errored (Error (str "User not found")), afterRead)
      /\ hard = (Rx.Errored (Error (str "User not found")), afterRead)
  end.
Proof.
  intros Hid Hget afterRead soft hard. subst soft hard afterRead.
  rewrite (UseCaseFacts.softDelete_fetched id w fetched r1 Hid Hget).
  rewrite (UseCaseFacts.hardDelete_fetched id w fetched r1 Hid Hget).
  destruct fetched as [user|]; [destruct (User.isActive user)|]; split; reflexivity.
Qed.

(** The inactive user of the mock repository: soft delete fails, hard
    delete calls [permanentDelete] once and delivers [true]. *)
Lemma delete_follows_lifecycle_bob :
  let w := Samples.start (Samples.spy (Some Samples.bob) false) in
  Rx.subscribe (DeleteUserUseCase.executeSoftDelete (str "3")) w
  = (Rx.Errored (Error (str "User is already inactive")),
     Rx.mkWorld (Samples.spy (Some Samples.bob) false) [GetById (str "3")])
  /\ Rx.subscribe (DeleteUserUseCase.executeHardDelete (str "3")) w
     = (Rx.Emitted true,
        Rx.mkWorld (Samples.spy (Some Samples.bob) false)
          [GetById (str "3"); PermanentDelete (str "3")]).
Proof.
  exact (delete_follows_lifecycle (str "3")
           (Samples.start (Samples.spy (Some Samples.bob) false))
           (Some Samples.bob) (Samples.spy (Some Samples.bob) false)
           eq_refl eq_refl).
Defined.

(** ** Errors *)

(** C7, as stated, fails: soft delete of a user that [getById] does not
    find fails with [new Error('User not found')], which is an instance of
    no [DomainError] subclass (so it has neither [code] nor
    [userMessage]). *)
Lemma not_found_is_plain_error :
  let outcome :=
    fst (Rx.subscribe (DeleteUserUseCase.executeSoftDelete (str "1"))
           (Samples.start (Samples.spy None false))) in
  outcome = Rx.Errored (Error (str "User not found"))
  /\ (isDomainError <$> Rx.failure outcome) = Some false
  /\ (Rx.failure outcome ≫= codeOf) = None
  /\ (Rx.failure outcome ≫= userMessageOf) = None
  /\ Rx.failure outcome <> Some (Domain (UserNotFoundError (str "1"))).
Proof. repeat split. discriminate. Qed.

(** C7, amended.  The failures that the use cases raise after a
    repository read reach the subscriber through the error channel of the
    observable as instances of the built-in [Error] with a fixed message:
    'User with this email already exists' (create), and after [getById]
    'User not found' (update and both deletions), 'Cannot update inactive
    user', 'User is already inactive', 'Cannot permanently delete active
    user. Deactivate first.'. *)
Theorem post_read_failures_are_plain_errors {R : Type} `{IUserRepository.t R}
    (id : jsstring) (userData : UpdateUserData.t)
    (createData : CreateUserData.t) (w : Rx.World R)
    (fetched : option User.t) (r1 r2 : R) :
  isBlank id = false ->
  UpdateUserUseCase.validateInput id userData = Return tt ->
  CreateUserUseCase.validateUserData createData = Return tt ->
  IUserRepository.getById id (Rx.repo w) = (Next fetched, r1) ->
  IUserRepository.existsByEmail (CreateUserData.email createData) (Rx.repo w)
  = (Next true, r2) ->
  let created := fst (Rx.subscribe (CreateUserUseCase.execute createData) w) in
  let updated := fst (Rx.subscribe (UpdateUserUseCase.execute id userData) w) in
  let soft := fst (Rx.subscribe (DeleteUserUseCase.executeSoftDelete id) w) in
  let hard := fst (Rx.subscribe (DeleteUserUseCase.executeHardDelete id) w) in
  created = Rx.Errored (Error (str "User with this email already exists"))
  /\ match fetched with
     | None =>
         updated = Rx.Errored (Error (str "User not found"))
         /\ soft = Rx.Errored (Error (str "User not found"))
         /\ hard = Rx.Errored (Error (str "User not found"))
     | Some user =>
         if User.isActive user
         then hard = Rx.Errored
                       (Error (str "Cannot permanently delete active user. Deactivate first."))
         else updated = Rx.Errored (Error (str "Cannot update inactive user"))
              /\ soft = Rx.Errored (Error (str "User is already inactive"))
     end.
Proof.
  intros Hid Hin Hv Hget Hex created updated soft hard.
  subst created updated soft hard.
  rewrite (UseCaseFacts.create_checked createData w true r2 Hv Hex).
  rewrite (UseCaseFacts.update_fetched id userData w fetched r1 Hin Hget).
  rewrite (UseCaseFacts.softDelete_fetched id w fetched r1 Hid Hget).
  rewrite (UseCaseFacts.hardDelete_fetched id w fetched r1 Hid Hget).
  split; [reflexivity|].
  destruct fetched as [user|]; [destruct (User.isActive user)|];
    repeat split; reflexivity.
Qed.

(** An existing email and an unknown id. *)
Lemma post_read_failures_are_plain_errors_unknown :
  let w := Samples.start (Samples.spy None true) in
  let update := UpdateUserData.mk (Present (str "Jane")) Missing in
  fst (Rx.subscribe (CreateUserUseCase.execute Samples.validUserData) w)
  = Rx.Errored (Error (str "User with this email already exists"))
  /\ fst (Rx.subscribe (UpdateUserUseCase.execute (str "9") update) w)
     = Rx.Errored (Error (str "User not found"))
  /\ fst (Rx.subscribe (DeleteUserUseCase.executeSoftDelete (str "9")) w)
     = Rx.Errored (Error (str "User not found"))
  /\ fst (Rx.subscribe (DeleteUserUseCase.executeHardDelete (str "9")) w)
     = Rx.Errored (Error (str "User not found")).
Proof.
  exact (post_read_failures_are_plain_errors (str "9")
           (UpdateUserData.mk (Present (str "Jane")) Missing)
           Samples.validUserData (Samples.start (Samples.spy None true))
           None (Samples.spy None true) (Samples.spy None true)
           eq_refl eq_refl eq_refl eq_refl eq_refl).
Defined.

(** ** Validation *)




(** ** Listing and search, as specified *)

(** C5, as stated, fails: the empty search string has trimmed length 0,
    and it is delegated as the empty string, not as [undefined]. *)
Lemma empty_search_is_kept :
  let options := ListOptions.mk None None (Some (str "")) None in
  (strlen (trim (str "")) <? 2)%Z = true
  /\ ListUsersUseCase.validateAndSetDefaults (Some options)
     = ListOptions.mk (Some (num 1)) (Some (num 10)) (Some (str "")) None
  /\ snd (Rx.subscribe (ListUsersUseCase.execute (Some options))
            (Samples.start (Samples.spy None false)))
     = Rx.mkWorld (Samples.spy None false)
         [GetAll (ListOptions.mk (Some (num 1)) (Some (num 10))
                    (Some (str "")) None)].
Proof. repeat split. Qed.

(** C5, amended.  [execute] makes one call, [getAll], with the options
    normalized: the page is the given one when it is a number that is at
    least 1, and 1 otherwise (missing, [0], [NaN], below 1); the limit is
    10 when it is missing, [0], [NaN] or below 1, 100 when it is above
    100, and the given one otherwise; a non-empty search term is
    replaced by [undefined] when its trimmed length is below 2 and
    trimmed otherwise, while the empty string is delegated as it is;
    [isActive] is passed on.  The delegated page is never below 1 and the
    delegated limit lies in [1,100].  [{page:0, limit:500, search:"a"}]
    becomes [{page:1, limit:100, search:undefined}]. *)
Theorem list_normalizes_options {R : Type} `{IUserRepository.t R}
    (options : option ListOptions.t) (w : Rx.World R) :
  let validated := ListUsersUseCase.validateAndSetDefaults options in
  Rx.subscribe (ListUsersUseCase.execute options) w
  = (let (n, r1) := IUserRepository.getAll validated (Rx.repo w) in
     (Rx.deliver n, Rx.mkWorld r1 (Rx.calls w ++ [GetAll validated])))
  /\ (exists page limit,
        ListOptions.page validated = Some page
        /\ page = match options ≫= ListOptions.page with
                  | Some n =>
                      if num_truthy n && negb (num_lt n (num 1)) then n
                      else num 1
                  | None => num 1
                  end
        /\ num_lt page (num 1) = false
        /\ ListOptions.limit validated = Some limit
        /\ limit = match options ≫= ListOptions.limit with
                   | Some n =>
                       if num_truthy n && negb (num_lt n (num 1))
                       then if num_gt n (num 100) then num 100 else n
                       else num 10
                   | None => num 10
                   end
        /\ num_lt limit (num 1) = false
        /\ num_gt limit (num 100) = false)
  /\ ListOptions.search validated
     = match options ≫= ListOptions.search with
       | Some s =>
           if str_eqb s [] then Some []
           else if (strlen (trim s) <? 2)%Z then None else Some (trim s)
       | None => None
       end
  /\ ListOptions.isActive validated = options ≫= ListOptions.isActive
  /\ ListUsersUseCase.validateAndSetDefaults
       (Some (ListOptions.mk (Some (num 0)) (Some (num 500)) (Some (str "a"))
                None))
     = ListOptions.mk (Some (num 1)) (Some (num 100)) None None.
Proof.
  intros validated. subst validated. repeat apply conj.
  - apply UseCaseFacts.subscribe_invoke.
  - eexists _, _. split; [apply ListFacts.validated_page|].
    split; [reflexivity|]. split.
    { destruct (options ≫= ListOptions.page) as [n|]; [|reflexivity].
      destruct (num_truthy n); cbn [andb]; [|reflexivity].
      destruct (num_lt n (num 1)) eqn:E; [reflexivity|exact E]. }
    split; [apply ListFacts.validated_limit|].
    split; [reflexivity|].
    destruct (options ≫= ListOptions.limit) as [n|]; [|split; reflexivity].
    destruct (num_truthy n); cbn [andb]; [|split; reflexivity].
    destruct (num_lt n (num 1)) eqn:E1; cbn [negb]; [split; reflexivity|].
    destruct (num_gt n (num 100)) eqn:E2; [split; reflexivity|].
    split; assumption.
  - apply ListFacts.validated_search.
  - now destruct options.
  - reflexivity.
Qed.

(** C9, as stated, fails: a limit of [0] is not clamped to 1 but replaced
    by 20, and a limit of one half is delegated as it is, below the
    range. *)
Lemma search_limit_is_not_clamped :
  ListUsersUseCase.searchLimit (Some (num 0)) = num 20
  /\ ListUsersUseCase.clampedLimit (Some (num 0)) = num 1
  /\ ListUsersUseCase.searchLimit (Some (Finite (1 # 2))) = Finite (1 # 2)
  /\ num_lt (Finite (1 # 2)) (num 1) = true
  /\ snd (Rx.subscribe
            (ListUsersUseCase.executeSearch (str "jo") (Some (num 0)))
            (Samples.start (Samples.spy None false)))
     = Rx.mkWorld (Samples.spy None false)
         [Search (str "jo") (Some (num 20))].
Proof. repeat split. Qed.

(** C9, amended.  [executeSearch] throws an [Error] when the trimmed
    query has fewer than two characters.  Otherwise it makes one call,
    [search], with the trimmed query and a limit that is
    [Math.min(limit, 100)] when the given limit is above 0, and 20 when
    no limit is given or the limit is [0], negative or [NaN].  The
    delegated limit is never above 100, and it is below 1 only for a
    given limit strictly between 0 and 1. *)
Theorem search_validates_and_limits {R : Type} `{IUserRepository.t R}
    (query : jsstring) (limit : option JsNumber) (w : Rx.World R) :
  (if (strlen (trim query) <? 2)%Z
   then exists msg,
          Rx.subscribe (ListUsersUseCase.executeSearch query limit) w
          = (Rx.Thrown (Error msg), w)
   else Rx.subscribe (ListUsersUseCase.executeSearch query limit) w
        = (let (n, r1) :=
             IUserRepository.search (trim query)
               (Some (ListUsersUseCase.searchLimit limit)) (Rx.repo w) in
           (Rx.deliver n,
            Rx.mkWorld r1
              (Rx.calls w
               ++ [Search (trim query)
                     (Some (ListUsersUseCase.searchLimit limit))]))))
  /\ ListUsersUseCase.searchLimit limit
     = match limit with
       | Some n =>
           if num_gt n (num 0) then Math_min n (num 100) else num 20
       | None => num 20
       end
  /\ num_gt (ListUsersUseCase.searchLimit limit) (num 100) = false
  /\ num_lt (ListUsersUseCase.searchLimit limit) (num 1)
     = match limit with
       | Some n => num_gt n (num 0) && num_lt n (num 1)
       | None => false
       end.
Proof.
  assert (Hlimit :
    ListUsersUseCase.searchLimit limit
    = match limit with
      | Some n => if num_gt n (num 0) then Math_min n (num 100) else num 20
      | None => num 20
      end).
  { destruct limit as [n|]; [|reflexivity]. unfold ListUsersUseCase.searchLimit.
    destruct (num_gt n (num 0)) eqn:E.
    - now rewrite (NumberFacts.positive_truthy n E).
    - now rewrite andb_false_r. }
  repeat apply conj.
  - unfold ListUsersUseCase.executeSearch.
    destruct (strlen (trim query) <? 2)%Z eqn:E.
    + destruct (isBlank query); eexists; reflexivity.
    + rewrite (UseCaseFacts.long_not_blank query E).
      cbn [throwIf andThen]. apply UseCaseFacts.subscribe_invoke.
  - exact Hlimit.
  - rewrite Hlimit. destruct limit as [n|]; [|reflexivity].
    destruct (num_gt n (num 0)) eqn:E; [|reflexivity].
    apply NumberFacts.Math_min_100_bound. now destruct n.
  - rewrite Hlimit. destruct limit as [n|]; [|reflexivity].
    destruct (num_gt n (num 0)) eqn:E; [|reflexivity]. cbn [andb].
    rewrite NumberFacts.Math_min_100 by now destruct n.
    destruct (num_gt n (num 100)) eqn:E100; [|reflexivity].
    destruct n as [|[]|q]; cbn in *; try easy.
    symmetry. apply negb_false_iff, Qle_bool_iff.
    apply negb_true_iff in E100.
    destruct (Qlt_le_dec (inject_Z 100) q) as [Hlt|Hle].
    + apply Qlt_le_weak. apply Qle_lt_trans with (inject_Z 100); [easy|exact Hlt].
    + apply Qle_bool_iff in Hle. congruence.
Qed.

(** * Part IV: further properties of the code *)

(** X1.  The eight error classes have pairwise different codes: two
    domain errors have the same [code] exactly when they are instances of
    the same class, and then they have the same [userMessage]. *)
Theorem code_identifies_class (e1 e2 : DomainError) :
  (code e1 = code e2 <-> className e1 = className e2)
  /\ (code e1 = code e2 -> userMessage e1 = userMessage e2).
Proof.
  split; [split|]; destruct e1, e2; intros E; try reflexivity;
    try (exfalso; vm_compute in E; discriminate E).
Qed.

(** X2.  [fromHttpError] decides by the status alone: 404 gives a
    [UserNotFoundError], 409 a [UserAlreadyExistsError], 400 an
    [InvalidUserDataError] whose [details] are present (the list of the
    response when it has one, even an empty one, and otherwise a single
    message), 0 a [NetworkError], and anything else, a missing or [NaN]
    status included, a [RepositoryError].  It never builds a
    [UserInactiveError], a [ValidationError] or a
    [BusinessRuleViolationError]. *)
Theorem fromHttpError_by_status (h : HttpError.t) :
  let d := DomainErrorFactory.fromHttpError h in
  let status n := HttpError.statusIs h n in
  (className d = str "UserNotFoundError" <-> status 404%Z = true)
  /\ (className d = str "UserAlreadyExistsError" <-> status 409%Z = true)
  /\ (className d = str "InvalidUserDataError" <-> status 400%Z = true)
  /\ (className d = str "NetworkError" <-> status 0%Z = true)
  /\ (className d = str "RepositoryError"
      <-> status 404%Z || status 409%Z || status 400%Z || status 0%Z = false)
  /\ className d <> str "UserInactiveError"
  /\ className d <> str "ValidationError"
  /\ className d <> str "BusinessRuleViolationError"
  /\ (status 400%Z = true ->
      exists errors,
        details d = Some errors
        /\ (forall given,
              HttpError.error h ≫= ErrorBody.errors = Some given ->
              errors = given)
        /\ (HttpError.error h ≫= ErrorBody.errors = None ->
            exists m, errors = [m] /\ m <> [])).
Proof.
  intros d status. subst d status. unfold DomainErrorFactory.fromHttpError.
  assert (Hexcl : forall a b : Z,
            a <> b -> HttpError.statusIs h a = true ->
            HttpError.statusIs h b = false).
  { intros a b Hab. unfold HttpError.statusIs.
    destruct (HttpError.status h) as [[| |q]|]; cbn; try discriminate.
    intros Ha. apply Qeq_bool_iff in Ha.
    destruct (Qeq_bool q (inject_Z b)) eqn:Hb; [|reflexivity].
    apply Qeq_bool_iff in Hb. exfalso. apply Hab.
    rewrite Ha in Hb. now apply inject_Z_injective. }
  destruct (HttpError.statusIs h 404) eqn:E404.
  { rewrite (Hexcl 404 409)%Z, (Hexcl 404 400)%Z, (Hexcl 404 0)%Z by (lia || assumption).
    cbn. repeat split; try easy. }
  destruct (HttpError.statusIs h 409) eqn:E409.
  { rewrite (Hexcl 409 400)%Z, (Hexcl 409 0)%Z by (lia || assumption).
    cbn. repeat split; try easy. }
  destruct (HttpError.statusIs h 400) eqn:E400.
  { rewrite (Hexcl 400 0)%Z by (lia || assumption).
    cbn. repeat split; try easy. intros _.
    destruct (HttpError.error h ≫= ErrorBody.errors) as [errors|].
    - exists errors. repeat split; [congruence|easy].
    - eexists. repeat split; [easy|]. intros _. eexists. split; [reflexivity|].
      now apply ErrorFacts.orString_nonempty. }
  destruct (HttpError.statusIs h 0) eqn:E0; cbn; repeat split; easy.
Qed.

(** A 400 response that carries a list of errors. *)
Lemma fromHttpError_by_status_400 :
  let h := HttpError.mk (Some (num 400)) None (Some (str "Bad Request"))
             (Some (ErrorBody.mk None (Some [str "email: taken"]) None)) in
  details (DomainErrorFactory.fromHttpError h) = Some [str "email: taken"].
Proof.
  cbv zeta.
  destruct (fromHttpError_by_status
              (HttpError.mk (Some (num 400)) None (Some (str "Bad Request"))
                 (Some (ErrorBody.mk None (Some [str "email: taken"]) None))))
    as (_ & _ & _ & _ & _ & _ & _ & _ & H400).
  destruct (H400 eq_refl) as (errors & Hd & He & _).
  rewrite Hd. f_equal. now apply He.
Defined.

(** X3.  [handleUseCaseError] passes a [DomainError] on as it is and shows
    nothing; handling its own result again changes nothing.  A plain
    [Error] of a use case (message [m], not empty) becomes a
    [RepositoryError] with code REPOSITORY_ERROR that keeps the message,
    and one notification 'Operation Failed' with the text 'Data access
    error occurred' is shown. *)
Theorem handleUseCaseError_converts_once (c : Caught) (m : jsstring) :
  m <> [] ->
  (forall d, ErrorHandlingService.handleUseCaseError (CaughtError (Domain d))
             = (d, []))
  /\ ErrorHandlingService.handleUseCaseError
       (CaughtError (Domain (fst (ErrorHandlingService.handleUseCaseError c))))
     = (fst (ErrorHandlingService.handleUseCaseError c), [])
  /\ ErrorHandlingService.handleUseCaseError (CaughtError (Error m))
     = (RepositoryError m (str "unknown"),
        [ErrorHandlingService.mkShown (str "Operation Failed")
           (str "Data access error occurred")])
  /\ code (fst (ErrorHandlingService.handleUseCaseError (CaughtError (Error m))))
     = str "REPOSITORY_ERROR".
Proof.
  intros Hm.
  assert (Hkept : orString (Some m) (str "Repository operation failed") = m).
  { unfold orString. destruct (str_eqb m []) eqn:E; [|reflexivity].
    unfold str_eqb in E. now apply bool_decide_eq_true in E. }
  assert (Hplain :
    ErrorHandlingService.handleUseCaseError (CaughtError (Error m))
    = (RepositoryError m (str "unknown"),
       [ErrorHandlingService.mkShown (str "Operation Failed")
          (str "Data access error occurred")])).
  { unfold ErrorHandlingService.handleUseCaseError.
    rewrite ErrorFacts.fromHttpError_error. cbn [message].
    now rewrite Hkept. }
  split; [reflexivity|]. split; [reflexivity|].
  split; [exact Hplain|]. now rewrite Hplain.
Qed.

(** The 'User not found' failure of the use cases, handled. *)
Lemma handleUseCaseError_converts_once_not_found :
  ErrorHandlingService.handleUseCaseError
    (CaughtError (Error (str "User not found")))
  = (RepositoryError (str "User not found") (str "unknown"),
     [ErrorHandlingService.mkShown (str "Operation Failed")
        (str "Data access error occurred")]).
Proof.
  exact (proj1 (proj2 (proj2
           (handleUseCaseError_converts_once
              (CaughtError (Error (str "User not found")))
              (str "User not found") ltac:(discriminate))))).
Defined.

(** X4.  The four error handlers compared, for any caught value.
    [handleSilentError] and [handleErrorWithMessage] deliver the error
    that [handleUseCaseError] delivers; they differ in what is shown:
    nothing, the given text under 'Error', and at most one notification
    'Operation Failed'.  [handleRepositoryError] always shows one
    notification under 'Error'; it delivers the same error as the others
    unless the caught value is a [DomainError], whose class it does not
    look at: that comes out as a [RepositoryError] for the operation
    'unknown', while the other three pass it on unchanged. *)
Theorem handlers_compared (c : Caught) (text : jsstring) :
  let delivered := fst (ErrorHandlingService.handleUseCaseError c) in
  fst (ErrorHandlingService.handleSilentError c) = delivered
  /\ fst (ErrorHandlingService.handleErrorWithMessage text c) = delivered
  /\ snd (ErrorHandlingService.handleSilentError c) = []
  /\ snd (ErrorHandlingService.handleErrorWithMessage text c)
     = [ErrorHandlingService.mkShown (str "Error") text]
  /\ (List.length (snd (ErrorHandlingService.handleUseCaseError c)) <= 1)%nat
  /\ snd (ErrorHandlingService.handleRepositoryError c)
     = [ErrorHandlingService.mkShown (str "Error")
          (userMessage (fst (ErrorHandlingService.handleRepositoryError c)))]
  /\ match c with
     | CaughtError (Domain d) =>
         delivered = d
         /\ exists m,
              fst (ErrorHandlingService.handleRepositoryError c)
              = RepositoryError m (str "unknown")
     | _ => fst (ErrorHandlingService.handleRepositoryError c) = delivered
     end.
Proof.
  destruct c as [[m|m|d]|h]; cbn; repeat split; try lia.
  eexists. reflexivity.
Qed.

(** X5.  [extractUserMessage] says what it returns for every value: the
    [userMessage] of a [DomainError]; the message of any other error
    object, or of an error response that has one, when that message is
    not empty; and 'An unexpected error occurred' otherwise (an empty or
    missing message, [null]).  What it returns is never the empty
    string. *)
Theorem extractUserMessage_nonempty (error : option Caught) :
  let result := ErrorHandlingService.extractUserMessage error in
  let fallback := str "An unexpected error occurred" in
  let orFallback (m : jsstring) :=
    match m with
    | [] => fallback
    | _ :: _ => m
    end in
  result <> []
  /\ match error with
     | Some (CaughtError (Domain d)) => result = userMessage d
     | Some (CaughtError (Error m)) => result = orFallback m
     | Some (CaughtError (RangeError m)) => result = orFallback m
     | Some (CaughtResponse h) =>
         match HttpError.message h with
         | Some m => result = orFallback m
         | None => result = fallback
         end
     | None => result = fallback
     end.
Proof.
  intros result fallback orFallback. subst result fallback orFallback.
  assert (Hdefault : forall m : jsstring,
            (if str_eqb m [] then str "An unexpected error occurred" else m)
            = match m with
              | [] => str "An unexpected error occurred"
              | _ :: _ => m
              end).
  { intros [|c m]; reflexivity. }
  assert (Hnonempty : forall m : jsstring,
            match m with
            | [] => str "An unexpected error occurred"
            | _ :: _ => m
            end <> []).
  { intros [|c m]; discriminate. }
  unfold ErrorHandlingService.extractUserMessage.
  destruct error as [[[m|m|d]|h]|]; cbn [asHttpError HttpError.message message].
  - rewrite Hdefault. split; [apply Hnonempty|reflexivity].
  - rewrite Hdefault. split; [apply Hnonempty|reflexivity].
  - split; [apply ErrorFacts.userMessage_nonempty|reflexivity].
  - destruct (HttpError.message h) as [m|].
    + rewrite Hdefault. split; [apply Hnonempty|reflexivity].
    + split; [discriminate|reflexivity].
  - split; [discriminate|reflexivity].
Qed.

(** ** The entity, further *)

(** X6.  For an entity that the constructor has returned, [deactivate]
    and [activate] never throw and change nothing but [isActive] and
    [updatedAt].  The entity has no guard of its own: deactivating twice
    is the same as deactivating once at the later time, and activating
    after deactivating gives the active entity. *)
Theorem derived_copies_of_entity
    (id email firstName lastName : jsstring) (createdAt updatedAt : JsDate.t)
    (isActive : option bool) (user : User.t) (now later : JsDate.t) :
  User.new id email firstName lastName createdAt updatedAt isActive
  = Return user ->
  User.deactivate now user
  = Return (User.mk id email firstName lastName createdAt now false)
  /\ User.activate now user
     = Return (User.mk id email firstName lastName createdAt now true)
  /\ andThen (User.deactivate now user) (User.deactivate later)
     = User.deactivate later user
  /\ andThen (User.deactivate now user) (User.activate later)
     = User.activate later user.
Proof.
  intros Hnew. apply EntityFacts.new_Return in Hnew as [Hinv ->].
  unfold User.deactivate, User.activate.
  cbn [User.id User.email User.firstName User.lastName User.createdAt].
  rewrite !(EntityFacts.new_valid _ _ _ _ _ _ _ Hinv). cbn [andThen default].
  cbn [User.id User.email User.firstName User.lastName User.createdAt].
  rewrite !(EntityFacts.new_valid _ _ _ _ _ _ _ Hinv). repeat split.
Qed.

(** The inactive user of the mock repository, activated. *)
Lemma derived_copies_of_entity_bob :
  User.activate Samples.date20230101 Samples.bob
  = Return
      (User.mk (str "3") (str "bob.johnson@example.com") (str "Bob")
         (str "Johnson") Samples.date20230310 Samples.date20230101 true).
Proof.
  exact (proj1 (proj2
           (derived_copies_of_entity (str "3") (str "bob.johnson@example.com")
              (str "Bob") (str "Johnson") Samples.date20230310
              Samples.date20230310 (Some false) Samples.bob
              Samples.date20230101 Samples.date20230101 eq_refl))).
Defined.

(** X7.  [updateInfo] on an entity that the constructor has returned
    validates the two new names again: with both at least two characters
    long after trimming it returns the entity with the new names, the
    same id, email, [createdAt] and [isActive], and [updatedAt] set to
    the current time; otherwise it throws.  As in the constructor, the
    characters of the names are not examined. *)
Theorem updateInfo_validates_names
    (id email firstName lastName : jsstring) (createdAt updatedAt : JsDate.t)
    (isActive : option bool) (user : User.t) (now : JsDate.t)
    (newFirst newLast : jsstring) :
  User.new id email firstName lastName createdAt updatedAt isActive
  = Return user ->
  if (2 <=? strlen (trim newFirst))%Z && (2 <=? strlen (trim newLast))%Z
  then User.updateInfo now user newFirst newLast
       = Return (User.mk id email newFirst newLast createdAt now
                   (default true isActive))
  else exists msg,
         User.updateInfo now user newFirst newLast = Throw (Error msg).
Proof.
  intros Hnew. apply EntityFacts.new_Return in Hnew as [Hinv ->].
  unfold User.updateInfo.
  cbn [User.id User.email User.createdAt User.isActive].
  pose proof (constructor_like := EntityFacts.new_invariants id email newFirst
    newLast createdAt now (Some (default true isActive))).
  unfold User.invariants in Hinv.
  apply andb_true_iff in Hinv as [Hinv _]. apply andb_true_iff in Hinv as [He _].
  rewrite He in constructor_like. cbn [negb] in constructor_like.
  rewrite constructor_like.
  destruct (Z.ltb_spec (strlen (trim newFirst)) 2) as [H1|H1];
    destruct (Z.ltb_spec (strlen (trim newLast)) 2) as [H2|H2];
    destruct (Z.leb_spec 2 (strlen (trim newFirst)));
    destruct (Z.leb_spec 2 (strlen (trim newLast)));
    cbn [andb]; try lia; try (eexists; reflexivity); reflexivity.
Qed.

(** The update of [user.entity.spec.ts], and a name with digits. *)
Lemma updateInfo_validates_names_john :
  User.updateInfo Samples.date20230310 Samples.john (str "Jane2") (str "Smith")
  = Return
      (User.mk (str "1") (str "test@example.com") (str "Jane2") (str "Smith")
         Samples.date20230101 Samples.date20230310 true).
Proof.
  exact (updateInfo_validates_names (str "1") (str "test@example.com")
           (str "John") (str "Doe") Samples.date20230101 Samples.date20230101
           (Some true) Samples.john Samples.date20230310
           (str "Jane2") (str "Smith") eq_refl).
Defined.

(** X8.  Whatever [fromJSON] builds satisfies the invariants of the
    constructor, and its fields are the properties of the data object:
    the four strings as they are, the two dates through [new Date], and
    [isActive] (or [true] when that is missing or [undefined]). *)
Theorem fromJSON_builds_valid_entities `{JsDate.Host}
    (data : gmap string JsVal) (user : User.t) :
  User.fromJSON data = Some (Return user) ->
  User.invariants (User.email user) (User.firstName user) (User.lastName user)
  = true
  /\ User.prop data "id" = VStr (User.id user)
  /\ User.prop data "email" = VStr (User.email user)
  /\ User.prop data "firstName" = VStr (User.firstName user)
  /\ User.prop data "lastName" = VStr (User.lastName user)
  /\ User.createdAt user = JsDate.new (User.prop data "createdAt")
  /\ User.updatedAt user = JsDate.new (User.prop data "updatedAt")
  /\ (User.prop data "isActive" = VBool (User.isActive user)
      \/ User.prop data "isActive" = VUndefined /\ User.isActive user = true).
Proof. apply SerializationFacts.fromJSON_Return. Qed.

(** The record of the repository test. *)
Lemma fromJSON_builds_valid_entities_john :
  User.invariants (str "test@example.com") (str "John") (str "Doe") = true.
Proof.
  exact (proj1
           (fromJSON_builds_valid_entities (H := strictHost)
              (<["id" := VStr (str "1")]>
                (<["email" := VStr (str "test@example.com")]>
                (<["firstName" := VStr (str "John")]>
                (<["lastName" := VStr (str "Doe")]>
                (<["createdAt" := VStr (str "2023-01-01T00:00:00.000Z")]>
                (<["updatedAt" := VStr (str "2023-01-01T00:00:00.000Z")]>
                (<["isActive" := VBool true]> ∅)))))))
              Samples.john eq_refl)).
Defined.

(** X9.  A data object without [createdAt] (missing or [undefined]) is
    not rejected by [fromJSON]; the entity that it builds holds an
    invalid date, so that its [toJSON] throws a [RangeError]. *)
Theorem fromJSON_without_date_cannot_be_serialized `{JsDate.Host}
    (data : gmap string JsVal) (user : User.t) :
  User.prop data "createdAt" = VUndefined ->
  User.fromJSON data = Some (Return user) ->
  User.createdAt user = None
  /\ User.toJSON user = Throw (RangeError (str "Invalid time value"))
  /\ User.roundTrip user = Some (Throw (RangeError (str "Invalid time value"))).
Proof.
  intros Hc Hfrom.
  destruct (SerializationFacts.fromJSON_Return data user Hfrom)
    as (_ & _ & _ & _ & _ & Hcreated & _).
  rewrite Hc in Hcreated. cbn in Hcreated.
  unfold User.roundTrip, User.toJSON. rewrite Hcreated. repeat split.
Qed.

(** The record of the repository test without its [createdAt]. *)
Lemma fromJSON_without_date_cannot_be_serialized_john :
  User.toJSON
    (User.mk (str "1") (str "test@example.com") (str "John") (str "Doe")
       None Samples.date20230101 true)
  = Throw (RangeError (str "Invalid time value")).
Proof.
  exact (proj1 (proj2
           (fromJSON_without_date_cannot_be_serialized (H := strictHost)
              (<["id" := VStr (str "1")]>
                (<["email" := VStr (str "test@example.com")]>
                (<["firstName" := VStr (str "John")]>
                (<["lastName" := VStr (str "Doe")]>
                (<["updatedAt" := VStr (str "2023-01-01T00:00:00.000Z")]>
                (<["isActive" := VBool true]> ∅))))))
              (User.mk (str "1") (str "test@example.com") (str "John")
                 (str "Doe") None Samples.date20230101 true)
              eq_refl eq_refl))).
Defined.

(** ** Validation, further *)

(** X10.  The email check of the entity (the pattern is the one of the
    create and get use cases and of [isValidEmail]) accepts exactly the
    strings [local@domain.tld] whose three parts are not empty and contain
    neither white space nor [@]; the domain and the last part may contain
    further dots.  Everything else makes it throw 'Invalid email
    format'. *)
Theorem validateEmail_accepts (email : jsstring) :
  (User.validateEmail email = Return tt
   <-> exists local domain tld,
         email = local ++ [64%N] ++ domain ++ [46%N] ++ tld
         /\ local <> [] /\ domain <> [] /\ tld <> []
         /\ Forall (fun c => notSpaceNorAt c = true) (local ++ domain ++ tld))
  /\ (User.validateEmail email = Return tt
      \/ User.validateEmail email = Throw (Error (str "Invalid email format"))).
Proof.
  rewrite <- RegExpFacts.emailRegex_spec. unfold User.validateEmail.
  destruct (RegExp.test emailRegex email); cbn [negb].
  - split; [easy|now left].
  - split; [easy|now right].
Qed.

(** X11.  [CreateUserUseCase.validateUserData] accepts a payload exactly
    when the email matches the email pattern and each name consists of
    ASCII letters and white space and has at least two characters after
    trimming (the three 'is required' checks never decide alone);
    otherwise it throws an [Error]. *)
Theorem create_validation_accepts (userData : CreateUserData.t) :
  (CreateUserUseCase.validateUserData userData = Return tt
   <-> RegExp.test emailRegex (CreateUserData.email userData) = true
       /\ nameAccepted (CreateUserData.firstName userData)
       /\ nameAccepted (CreateUserData.lastName userData))
  /\ (CreateUserUseCase.validateUserData userData = Return tt
      \/ exists msg,
           CreateUserUseCase.validateUserData userData = Throw (Error msg)).
Proof.
  split; [apply PayloadFacts.validateUserData_accepts|].
  unfold CreateUserUseCase.validateUserData, throwIf. cbv zeta.
  repeat match goal with
         | |- context [if ?b then Throw _ else Return tt] =>
             destruct b; cbn [andThen]; [right; eexists; reflexivity|]
         end.
  now left.
Qed.

(** X12.  What the create use case accepts, the entity accepts: for a
    payload that passes [validateUserData] the constructor returns, with
    any id and dates, so a repository can build the entity from it. *)
Theorem create_validation_implies_constructor
    (userData : CreateUserData.t) (id : jsstring)
    (createdAt updatedAt : JsDate.t) (isActive : option bool) :
  CreateUserUseCase.validateUserData userData = Return tt ->
  User.new id (CreateUserData.email userData)
    (CreateUserData.firstName userData) (CreateUserData.lastName userData)
    createdAt updatedAt isActive
  = Return
      (User.mk id (CreateUserData.email userData)
         (CreateUserData.firstName userData) (CreateUserData.lastName userData)
         createdAt updatedAt (default true isActive)).
Proof.
  intros Hv. apply PayloadFacts.validateUserData_accepts in Hv
    as (He & [_ H1] & [_ H2]).
  apply EntityFacts.new_valid. unfold User.invariants. rewrite He.
  apply andb_true_iff. split; [|now apply Z.leb_le].
  now apply Z.leb_le.
Qed.

(** The payload of the create tests. *)
Lemma create_validation_implies_constructor_john :
  User.new (str "1") (str "test@example.com") (str "John") (str "Doe")
    Samples.date20230101 Samples.date20230101 None
  = Return Samples.john.
Proof.
  exact (create_validation_implies_constructor Samples.validUserData (str "1")
           Samples.date20230101 Samples.date20230101 None eq_refl).
Defined.

(** X13.  The update use case applies to a provided name the rule of the
    create use case, and validates nothing else: a payload is accepted by
    [validateUpdateData] exactly when each name that is present as a
    string is made of ASCII letters and white space and has at least two
    characters after trimming.  A key that is missing or holds
    [undefined] is not validated. *)
Theorem update_validation_accepts (userData : UpdateUserData.t) :
  let accepted f :=
    match f with
    | Present name => nameAccepted name
    | Missing | Undefined => True
    end in
  UpdateUserUseCase.validateUpdateData userData = Return tt
  <-> accepted (UpdateUserData.firstName userData)
      /\ accepted (UpdateUserData.lastName userData).
Proof.
  intros accepted. subst accepted.
  assert (Hfield : forall f label,
            UpdateUserUseCase.validateField f label = Return tt
            <-> match f with
                | Present name => nameAccepted name
                | Missing | Undefined => True
                end).
  { intros [| |name] label; [easy|easy|].
    apply PayloadFacts.validateField_accepts. }
  unfold UpdateUserUseCase.validateUpdateData.
  rewrite <- (Hfield (UpdateUserData.firstName userData) "First name"%string).
  rewrite <- (Hfield (UpdateUserData.lastName userData) "Last name"%string).
  destruct (UpdateUserUseCase.validateField
              (UpdateUserData.firstName userData) "First name") as [[]|e];
    cbn [andThen]; [tauto|].
  split; [discriminate|]. now intros [? _].
Qed.

(** X14.  [validateUserData] of the validation utilities and the create
    use case agree on which payloads are valid: for three given strings
    the result has [isValid = true] exactly when
    [CreateUserUseCase.validateUserData] returns.  The utility reports at
    most one message for each property, and none for a property that is
    missing or [undefined]. *)
Theorem utility_validation_agrees (email firstName lastName : jsstring)
    (e f l : Field) :
  (ValidationUtils.isValid
     (ValidationUtils.validateUserData (Present email) (Present firstName)
        (Present lastName)) = true
   <-> CreateUserUseCase.validateUserData
         (CreateUserData.mk email firstName lastName) = Return tt)
  /\ (List.length (ValidationUtils.errors (ValidationUtils.validateUserData e f l))
      <= match e with Present _ => 1 | _ => 0 end
         + match f with Present _ => 1 | _ => 0 end
         + match l with Present _ => 1 | _ => 0 end)%nat.
Proof.
  split.
  - rewrite PayloadFacts.validateUserData_accepts.
    cbn [CreateUserData.email CreateUserData.firstName CreateUserData.lastName].
    unfold ValidationUtils.validateUserData, ValidationUtils.isValid.
    rewrite bool_decide_eq_true, length_zero_iff_nil.
    assert (Hname : forall name required invalid,
              ValidationUtils.checkField (Present name)
                ValidationUtils.isValidName required invalid = []
              <-> nameAccepted name).
    { intros name required invalid.
      unfold ValidationUtils.checkField, ValidationUtils.isEmpty,
        ValidationUtils.isValidName, nameAccepted.
      destruct (isBlank name) eqn:B.
      - split; [discriminate|]. intros [_ Hlen].
        apply UseCaseFacts.isBlank_short in B. apply Z.ltb_lt in B. lia.
      - destruct (RegExp.test nameRegex name) eqn:T; cbn [andb negb].
        + apply RegExpFacts.nameRegex_spec in T as [_ T].
          destruct (Z.leb_spec 2 (strlen (trim name))); cbn [negb].
          * split; auto.
          * split; [discriminate|]. intros [_ ?]. lia.
        + split; [discriminate|]. intros [Hall Hlen].
          assert (RegExp.test nameRegex name = true); [|congruence].
          apply RegExpFacts.nameRegex_spec. split; [|exact Hall].
          now apply PayloadFacts.long_nonempty. }
    assert (Hemail :
              ValidationUtils.checkField (Present email)
                ValidationUtils.isValidEmail "Email is required"
                "Invalid email format" = []
              <-> RegExp.test emailRegex email = true).
    { unfold ValidationUtils.checkField, ValidationUtils.isEmpty,
        ValidationUtils.isValidEmail.
      destruct (RegExp.test emailRegex email) eqn:T.
      - now rewrite (StringFacts.email_isBlank email T).
      - destruct (isBlank email); split; discriminate. }
    rewrite <- Hemail, <- (Hname firstName), <- (Hname lastName).
    split.
    + intros E. apply app_eq_nil in E as [E1 E].
      apply app_eq_nil in E as [E2 E3]. eauto.
    + intros (-> & -> & ->). reflexivity.
  - unfold ValidationUtils.validateUserData, ValidationUtils.errors.
    rewrite !length_app.
    assert (Hone : forall x valid required invalid,
              (List.length (ValidationUtils.checkField x valid required invalid)
               <= match x with Present _ => 1 | _ => 0 end)%nat).
    { intros [| |s] valid required invalid; cbn; try lia.
      destruct (isBlank s); cbn; [lia|]. destruct (valid s); cbn; lia. }
    pose proof (Hone e ValidationUtils.isValidEmail "Email is required"%string
                  "Invalid email format"%string).
    pose proof (Hone f ValidationUtils.isValidName "First name is required"%string
                  "First name must contain only letters and spaces, and be at least 2 characters long"%string).
    pose proof (Hone l ValidationUtils.isValidName "Last name is required"%string
                  "Last name must contain only letters and spaces, and be at least 2 characters long"%string).
    lia.
Qed.

(** ** The use cases, further *)

(** X15.  [GetUserUseCase] only hands over: for an id that is not blank,
    [execute] makes one [getById] call with the id as given (not
    trimmed) and delivers what the repository delivers, an absent user
    ([null]) as a value and not as an error.  [executeByEmail] does the
    same with [getByEmail] for every email that matches the email
    pattern (such an email is never blank). *)
Theorem get_hands_over {R : Type} `{IUserRepository.t R}
    (id email : jsstring) (w : Rx.World R) :
  isBlank id = false ->
  RegExp.test emailRegex email = true ->
  Rx.subscribe (GetUserUseCase.execute id) w
  = (let (n, r1) := IUserRepository.getById id (Rx.repo w) in
     (Rx.deliver n, Rx.mkWorld r1 (Rx.calls w ++ [GetById id])))
  /\ Rx.subscribe (GetUserUseCase.executeByEmail email) w
     = (let (n, r1) := IUserRepository.getByEmail email (Rx.repo w) in
        (Rx.deliver n, Rx.mkWorld r1 (Rx.calls w ++ [GetByEmail email])))
  /\ Rx.deliver (A := option User.t) (Next None) = Rx.Emitted None.
Proof.
  intros Hid Hemail. repeat split.
  - unfold GetUserUseCase.execute. rewrite Hid. cbn [throwIf andThen].
    apply UseCaseFacts.subscribe_invoke.
  - unfold GetUserUseCase.executeByEmail.
    rewrite (StringFacts.email_isBlank email Hemail), Hemail.
    cbn [negb throwIf andThen]. apply UseCaseFacts.subscribe_invoke.
Qed.

(** An id with surrounding spaces, and an unknown user. *)
Lemma get_hands_over_unknown :
  Rx.subscribe (GetUserUseCase.execute (str " 9 "))
    (Samples.start (Samples.spy None false))
  = (Rx.Emitted None,
     Rx.mkWorld (Samples.spy None false) [GetById (str " 9 ")]).
Proof.
  exact (proj1
           (get_hands_over (str " 9 ") (str "a@b.c")
              (Samples.start (Samples.spy None false)) eq_refl eq_refl)).
Defined.

(** X16.  [executeByDateRange] with two valid dates throws when the start
    is not before the end ('Start date must be before end date'), else
    when the start is after the current time ('Start date cannot be in
    the future'), and otherwise makes one [getByDateRange] call with the
    two dates; the end date may lie in the future.  An invalid start date
    ([NaN]) passes both comparisons: it is never rejected, whatever the
    end date and the current time are. *)
Theorem date_range_validation {R : Type} `{IUserRepository.t R}
    (now endDate : JsDate.t) (s e n : Z) (w : Rx.World R) :
  let delegated startDate endDate :=
    let (no, r1) :=
      IUserRepository.getByDateRange startDate endDate (Rx.repo w) in
    (Rx.deliver no,
     Rx.mkWorld r1 (Rx.calls w ++ [GetByDateRange startDate endDate])) in
  Rx.subscribe
    (ListUsersUseCase.executeByDateRange (Some n) (Some s) (Some e)) w
  = (if (e <=? s)%Z
     then (Rx.Thrown (Error (str "Start date must be before end date")), w)
     else if (n <? s)%Z
     then (Rx.Thrown (Error (str "Start date cannot be in the future")), w)
     else delegated (Some s) (Some e))
  /\ Rx.subscribe (ListUsersUseCase.executeByDateRange now None endDate) w
     = delegated None endDate.
Proof.
  intros delegated. subst delegated. split.
  - unfold ListUsersUseCase.executeByDateRange. cbn [JsDate.geb JsDate.gtb].
    destruct (e <=? s)%Z; cbn [throwIf andThen]; [reflexivity|].
    destruct (n <? s)%Z; cbn [throwIf andThen]; [reflexivity|].
    apply UseCaseFacts.subscribe_invoke.
  - unfold ListUsersUseCase.executeByDateRange. cbn [JsDate.geb JsDate.gtb].
    cbn [throwIf andThen]. apply UseCaseFacts.subscribe_invoke.
Qed.

(** X17.  A failure of the first repository call ends the use case: when
    [getById] fails with [e], update and both deletions fail with the
    same [e] and make no other call; when [existsByEmail] fails with [e],
    create fails with [e] and [create] is not called. *)
Theorem read_failure_propagates {R : Type} `{IUserRepository.t R}
    (id : jsstring) (userData : UpdateUserData.t)
    (createData : CreateUserData.t) (w : Rx.World R) (e e' : JsError)
    (r1 r2 : R) :
  UpdateUserUseCase.validateInput id userData = Return tt ->
  CreateUserUseCase.validateUserData createData = Return tt ->
  IUserRepository.getById id (Rx.repo w) = (Failure e, r1) ->
  IUserRepository.existsByEmail (CreateUserData.email createData) (Rx.repo w)
  = (Failure e', r2) ->
  let afterRead (A : Type) : Rx.Outcome A * Rx.World R :=
    (Rx.Errored e, Rx.mkWorld r1 (Rx.calls w ++ [GetById id])) in
  Rx.subscribe (UpdateUserUseCase.execute id userData) w = afterRead User.t
  /\ Rx.subscribe (DeleteUserUseCase.executeSoftDelete id) w = afterRead bool
  /\ Rx.subscribe (DeleteUserUseCase.executeHardDelete id) w = afterRead bool
  /\ Rx.subscribe (CreateUserUseCase.execute createData) w
     = (Rx.Errored e',
        Rx.mkWorld r2
          (Rx.calls w ++ [ExistsByEmail (CreateUserData.email createData)])).
Proof.
  intros Hin Hv Hget Hex afterRead. subst afterRead.
  assert (Hid : isBlank id = false).
  { unfold UpdateUserUseCase.validateInput in Hin.
    destruct (isBlank id); [discriminate|reflexivity]. }
  repeat split.
  - unfold UpdateUserUseCase.execute. rewrite Hin.
    unfold Rx.subscribe, Rx.switchMap, Rx.invoke. cbn [andThen].
    now rewrite Hget.
  - unfold DeleteUserUseCase.executeSoftDelete. rewrite Hid.
    unfold Rx.subscribe, Rx.switchMap, Rx.invoke. cbn [throwIf andThen].
    now rewrite Hget.
  - unfold DeleteUserUseCase.executeHardDelete. rewrite Hid.
    unfold Rx.subscribe, Rx.switchMap, Rx.invoke. cbn [throwIf andThen].
    now rewrite Hget.
  - unfold CreateUserUseCase.execute. rewrite Hv.
    unfold Rx.subscribe, Rx.switchMap, Rx.map, Rx.invoke. cbn [andThen].
    now rewrite Hex.
Qed.

(** The repository failure of the create tests. *)
Lemma read_failure_propagates_database :
  let w := Samples.start (SpyRepository.failing Samples.repositoryError) in
  Rx.subscribe (CreateUserUseCase.execute Samples.validUserData) w
  = (Rx.Errored Samples.repositoryError,
     Rx.mkWorld (SpyRepository.failing Samples.repositoryError)
       [ExistsByEmail (str "test@example.com")]).
Proof.
  exact (proj2 (proj2 (proj2
           (read_failure_propagates (str "1")
              (UpdateUserData.mk (Present (str "Jane")) Missing)
              Samples.validUserData
              (Samples.start (SpyRepository.failing Samples.repositoryError))
              Samples.repositoryError Samples.repositoryError
              (SpyRepository.failing Samples.repositoryError)
              (SpyRepository.failing Samples.repositoryError)
              eq_refl eq_refl eq_refl eq_refl)))).
Defined.

(** X18.  No use case writes before it has read: whatever the
    repository does, soft delete makes no call (blank id), or [getById]
    alone, or [getById] followed by [delete]; hard delete the same with
    [permanentDelete]; update the same with [update]; and create makes no
    call, or [existsByEmail] alone, or [existsByEmail] followed by
    [create].  No other repository method is ever called by them. *)
Theorem use_cases_read_before_writing {R : Type} `{IUserRepository.t R}
    (id : jsstring) (userData : UpdateUserData.t)
    (createData : CreateUserData.t) (w : Rx.World R) :
  let made {A : Type} (m : Completion (Rx.Observable R A)) (l : list Call) :=
    Rx.calls (snd (Rx.subscribe m w)) = Rx.calls w ++ l in
  let email := CreateUserData.email createData in
  (made (DeleteUserUseCase.executeSoftDelete id) []
   \/ made (DeleteUserUseCase.executeSoftDelete id) [GetById id]
   \/ made (DeleteUserUseCase.executeSoftDelete id) [GetById id; Delete id])
  /\ (made (DeleteUserUseCase.executeHardDelete id) []
      \/ made (DeleteUserUseCase.executeHardDelete id) [GetById id]
      \/ made (DeleteUserUseCase.executeHardDelete id)
           [GetById id; PermanentDelete id])
  /\ (made (UpdateUserUseCase.execute id userData) []
      \/ made (UpdateUserUseCase.execute id userData) [GetById id]
      \/ made (UpdateUserUseCase.execute id userData)
           [GetById id; Update id userData])
  /\ (made (CreateUserUseCase.execute createData) []
      \/ made (CreateUserUseCase.execute createData) [ExistsByEmail email]
      \/ made (CreateUserUseCase.execute createData)
           [ExistsByEmail email; Create createData]).
Proof.
  intros made email. subst made email. cbv beta.
  assert (Hnone : forall l : list Call, l = l ++ []) by (intros; now rewrite app_nil_r).
  repeat split.
  - unfold DeleteUserUseCase.executeSoftDelete, throwIf.
    destruct (isBlank id); cbn [andThen Rx.subscribe snd]; [left; apply Hnone|].
    unfold Rx.switchMap, Rx.invoke, Rx.throwError.
    destruct (IUserRepository.getById id (Rx.repo w)) as [[[user|]|e] r1];
      cbn; auto.
    destruct (User.isActive user); cbn; auto.
    destruct (IUserRepository.delete id r1) as [n r2]; cbn.
    right; right. now rewrite <- app_assoc.
  - unfold DeleteUserUseCase.executeHardDelete, throwIf.
    destruct (isBlank id); cbn [andThen Rx.subscribe snd]; [left; apply Hnone|].
    unfold Rx.switchMap, Rx.invoke, Rx.throwError.
    destruct (IUserRepository.getById id (Rx.repo w)) as [[[user|]|e] r1];
      cbn; auto.
    destruct (User.isActive user); cbn; auto.
    destruct (IUserRepository.permanentDelete id r1) as [n r2]; cbn.
    right; right. now rewrite <- app_assoc.
  - unfold UpdateUserUseCase.execute.
    destruct (UpdateUserUseCase.validateInput id userData) as [[]|e0];
      cbn [andThen Rx.subscribe snd]; [|left; apply Hnone].
    unfold Rx.switchMap, Rx.invoke, Rx.throwError.
    destruct (IUserRepository.getById id (Rx.repo w)) as [[[user|]|e] r1];
      cbn; auto.
    destruct (User.isActive user); cbn; auto.
    destruct (UpdateUserUseCase.validateUpdateData userData) as [[]|e0];
      cbn; auto.
    destruct (IUserRepository.update id userData r1) as [n r2]; cbn.
    right; right. now rewrite <- app_assoc.
  - unfold CreateUserUseCase.execute.
    destruct (CreateUserUseCase.validateUserData createData) as [[]|e0];
      cbn [andThen Rx.subscribe snd]; [|left; apply Hnone].
    unfold Rx.map, Rx.switchMap, Rx.invoke, Rx.throwError.
    destruct (IUserRepository.existsByEmail (CreateUserData.email createData)
                (Rx.repo w)) as [[[|]|e] r1]; cbn; auto.
    destruct (IUserRepository.create createData r1) as [[user|e] r2]; cbn;
      right; right; now rewrite <- app_assoc.
Qed.

(** X19.  An update whose payload passes the two validations reaches the
    repository unchanged: with an active user the calls are [getById]
    and [update] with the payload as given, and the subscriber receives
    what [update] delivers.  A payload whose only keys hold [undefined]
    is such a payload: it is neither empty for [validateInput] nor
    examined by [validateUpdateData]. *)
Theorem update_delegates_payload {R : Type} `{IUserRepository.t R}
    (id : jsstring) (userData : UpdateUserData.t) (w : Rx.World R)
    (user : User.t) (r1 : R) :
  UpdateUserUseCase.validateInput id userData = Return tt ->
  UpdateUserUseCase.validateUpdateData userData = Return tt ->
  IUserRepository.getById id (Rx.repo w) = (Next (Some user), r1) ->
  User.isActive user = true ->
  Rx.subscribe (UpdateUserUseCase.execute id userData) w
  = (let (n, r2) := IUserRepository.update id userData r1 in
     (Rx.deliver n,
      Rx.mkWorld r2 (Rx.calls w ++ [GetById id; Update id userData])))
  /\ UpdateUserUseCase.validateInput id (UpdateUserData.mk Undefined Missing)
     = Return tt
  /\ UpdateUserUseCase.validateUpdateData (UpdateUserData.mk Undefined Missing)
     = Return tt
  /\ UpdateUserUseCase.validateInput id (UpdateUserData.mk Missing Missing)
     = Throw (Error (str "Update data is required")).
Proof.
  intros Hin Hnames Hget Hactive.
  assert (Hid : isBlank id = false).
  { unfold UpdateUserUseCase.validateInput in Hin.
    destruct (isBlank id); [discriminate|reflexivity]. }
  split.
  - rewrite (UseCaseFacts.update_fetched id userData w (Some user) r1 Hin Hget).
    now rewrite Hactive, Hnames.
  - unfold UpdateUserUseCase.validateInput. rewrite Hid. repeat split.
Qed.

(** A payload [{firstName: undefined}] for an active user. *)
Lemma update_delegates_payload_undefined :
  Rx.subscribe
    (UpdateUserUseCase.execute (str "1") (UpdateUserData.mk Undefined Missing))
    (Samples.start (Samples.spy (Some Samples.john) false))
  = (Rx.Emitted Samples.john,
     Rx.mkWorld (Samples.spy (Some Samples.john) false)
       [GetById (str "1");
        Update (str "1") (UpdateUserData.mk Undefined Missing)]).
Proof.
  exact (proj1
           (update_delegates_payload (str "1")
              (UpdateUserData.mk Undefined Missing)
              (Samples.start (Samples.spy (Some Samples.john) false))
              Samples.john (Samples.spy (Some Samples.john) false)
              eq_refl eq_refl eq_refl eq_refl)).
Defined.

(** ** The in-memory repository *)

(** X20.  The in-memory repository keeps its store consistent: when ids
    and emails are unique, every stored user satisfies the invariants of
    the entity and every id is the decimal form of a number below
    [nextId], the same holds after [create], [update], [delete] and
    [permanentDelete], whatever their arguments and whether they succeed
    or fail.  For [create] this needs [nextId] below 2^53, where
    [nextId++] stops counting. *)
Theorem mock_store_stays_consistent (st : UserMockRepository.t) :
  UserMockRepository.Consistent st ->
  (UserMockRepository.nextId st < 2 ^ 53)%N ->
  (forall userData,
     UserMockRepository.Consistent (UserMockRepository.create userData st).2)
  /\ (forall id userData,
        UserMockRepository.Consistent
          (UserMockRepository.update id userData st).2)
  /\ (forall id,
        UserMockRepository.Consistent (UserMockRepository.delete id st).2)
  /\ (forall id,
        UserMockRepository.Consistent
          (UserMockRepository.permanentDelete id st).2).
Proof.
  intros Hc Hn. split; [|split; [|split]].
  - intros userData. now apply MockFacts.create_consistent.
  - intros id userData. now apply MockFacts.update_consistent.
  - intros id. now apply MockFacts.delete_consistent.
  - intros id. now apply MockFacts.permanentDelete_consistent.
Qed.

(** The store the repository starts with is consistent, and stays so
    when the user of the tests is added. *)
Lemma mock_store_stays_consistent_initial :
  UserMockRepository.Consistent
    (UserMockRepository.create Samples.validUserData
       (UserMockRepository.initial (fun _ => 0%Z))).2.
Proof.
  exact (proj1 (mock_store_stays_consistent
                  (UserMockRepository.initial (fun _ => 0%Z))
                  (MockFacts.initial_consistent _) eq_refl)
           Samples.validUserData).
Defined.

(** X21.  A user created by the in-memory repository can be found
    again: a successful [create] hands out the decimal form of [nextId]
    as the id and stores an active user with the email and names given;
    afterwards [getById] with that id and [getByEmail] with that email
    deliver this user, [existsByEmail] delivers [true], a second
    [create] with the same email fails with 'User with this email
    already exists' and changes nothing, and every user that [getById]
    found before is still found. *)
Theorem created_user_can_be_found (userData : CreateUserData.t)
    (st st' : UserMockRepository.t) (user : User.t) :
  UserMockRepository.Consistent st ->
  UserMockRepository.create userData st = (Next user, st') ->
  user = User.mk (decimal (UserMockRepository.nextId st))
           (CreateUserData.email userData) (CreateUserData.firstName userData)
           (CreateUserData.lastName userData)
           (UserMockRepository.clock st 0) (UserMockRepository.clock st 1) true
  /\ UserMockRepository.getById (User.id user) st' = (Next (Some user), st')
  /\ UserMockRepository.getByEmail (CreateUserData.email userData) st'
     = (Next (Some user), st')
  /\ UserMockRepository.existsByEmail (CreateUserData.email userData) st'
     = (Next true, st')
  /\ UserMockRepository.create userData st'
     = (Failure (Error (str "User with this email already exists")), st')
  /\ (forall id other,
        UserMockRepository.getById id st = (Next (Some other), st) ->
        UserMockRepository.getById id st' = (Next (Some other), st')).
Proof.
  intros Hc Hcreate.
  apply MockFacts.create_Next in Hcreate as (Hemail & _ & Huser & ->).
  pose proof (MockFacts.fresh_id st _ Hc (N.le_refl _)) as Hid.
  assert (Eid : User.id user = decimal (UserMockRepository.nextId st))
    by now rewrite Huser.
  assert (Eemail : User.email user = CreateUserData.email userData)
    by now rewrite Huser.
  split; [exact Huser|].
  rewrite <- Eid in Hid. rewrite <- Eemail in Hemail.
  apply MockFacts.findBy_snoc in Hid, Hemail. rewrite Eemail in Hemail.
  unfold UserMockRepository.getById, UserMockRepository.getByEmail,
    UserMockRepository.existsByEmail, UserMockRepository.create.
  cbn [UserMockRepository.users].
  rewrite Hid, Hemail. cbn [fmap option_fmap option_map snd].
  repeat split.
  intros id other [= Hfound].
  destruct (UserMockRepository.findBy User.id id (UserMockRepository.users st))
    as [[i u]|] eqn:Ef; [|discriminate].
  unfold UserMockRepository.findBy in *.
  rewrite (list_find_app_l _ _ _ _ _ Ef). cbn in Hfound |- *. congruence.
Qed.

(** The user of the create tests, added to the initial store, gets the
    id '6'. *)
Lemma created_user_can_be_found_six :
  let st := UserMockRepository.initial (fun n => Z.of_nat n) in
  let user :=
    User.mk (str "6") (str "test@example.com") (str "John") (str "Doe")
      (Some 0%Z) (Some 1%Z) true in
  UserMockRepository.getById (str "6")
    (UserMockRepository.create Samples.validUserData st).2
  = (Next (Some user), (UserMockRepository.create Samples.validUserData st).2).
Proof.
  exact (proj1 (proj2
           (created_user_can_be_found Samples.validUserData
              (UserMockRepository.initial (fun n => Z.of_nat n)) _ _
              (MockFacts.initial_consistent _) eq_refl))).
Defined.

(** X22.  The deletion use cases on the in-memory repository, for a
    stored user of a consistent store.  An active user: the soft delete
    delivers [true] after [getById] and [delete], and leaves at the
    user's position a copy that is inactive, with a new [updatedAt] and
    everything else unchanged; the hard delete fails with 'Cannot
    permanently delete active user. Deactivate first.' and the store is
    as before.  An inactive user: the hard delete delivers [true] after
    [getById] and [permanentDelete], the user is removed and its id is
    not found any more; the soft delete fails with 'User is already
    inactive' and the store is as before. *)
Theorem mock_deletion_lifecycle `{UserMockRepository.Host}
    (st : UserMockRepository.t) (i : nat) (u : User.t) :
  UserMockRepository.Consistent st ->
  UserMockRepository.users st !! i = Some u ->
  let id := User.id u in
  let w := Rx.mkWorld st [] in
  let deactivated :=
    User.mk id (User.email u) (User.firstName u) (User.lastName u)
      (User.createdAt u) (UserMockRepository.clock st 0) false in
  if User.isActive u
  then
    Rx.subscribe (DeleteUserUseCase.executeSoftDelete id) w
    = (Rx.Emitted true,
       Rx.mkWorld
         (UserMockRepository.mk
            (<[i := deactivated]> (UserMockRepository.users st))
            (UserMockRepository.nextId st) (UserMockRepository.time st)
            (UserMockRepository.reads st + 1))
         [GetById id; Delete id])
    /\ Rx.subscribe (DeleteUserUseCase.executeHardDelete id) w
       = (Rx.Errored
            (Error (str "Cannot permanently delete active user. Deactivate first.")),
          Rx.mkWorld st [GetById id])
  else
    Rx.subscribe (DeleteUserUseCase.executeHardDelete id) w
    = (Rx.Emitted true,
       Rx.mkWorld
         (UserMockRepository.mk
            (base.delete i (UserMockRepository.users st))
            (UserMockRepository.nextId st) (UserMockRepository.time st)
            (UserMockRepository.reads st))
         [GetById id; PermanentDelete id])
    /\ UserMockRepository.findBy User.id id
         (base.delete i (UserMockRepository.users st)) = None
    /\ Rx.subscribe (DeleteUserUseCase.executeSoftDelete id) w
       = (Rx.Errored (Error (str "User is already inactive")),
          Rx.mkWorld st [GetById id]).
Proof.
  intros Hc Hi id w deactivated.
  pose proof (MockFacts.stored_id_not_blank st i u Hc Hi) as Hid.
  pose proof (MockFacts.findBy_lookup User.id _ i u
                (UserMockRepository.ids_unique st Hc) Hi) as Hfind.
  subst id w deactivated.
  assert (Hget : IUserRepository.getById (User.id u) st = (Next (Some u), st)).
  { cbn [IUserRepository.getById UserMockRepository.repository].
    unfold UserMockRepository.getById. now rewrite Hfind. }
  rewrite (UseCaseFacts.softDelete_fetched (User.id u) (Rx.mkWorld st [])
             _ _ Hid Hget).
  rewrite (UseCaseFacts.hardDelete_fetched (User.id u) (Rx.mkWorld st [])
             _ _ Hid Hget).
  cbn [IUserRepository.delete IUserRepository.permanentDelete
       UserMockRepository.repository Rx.calls app].
  unfold UserMockRepository.delete, UserMockRepository.permanentDelete.
  rewrite Hfind.
  destruct (User.isActive u) eqn:Ea; cbn [negb].
  - rewrite (MockFacts.deactivate_valid _ u
               (MockFacts.lookup_valid st i u Hc Hi)).
    split; reflexivity.
  - split; [reflexivity|]. split; [|reflexivity].
    now apply MockFacts.findBy_delete.
Qed.

(** Bob, the inactive user of the initial store, can be removed for
    good. *)
Lemma mock_deletion_lifecycle_bob :
  let st := UserMockRepository.initial (fun n => Z.of_nat n) in
  Rx.subscribe (DeleteUserUseCase.executeHardDelete (str "3"))
    (Rx.mkWorld st [])
  = (Rx.Emitted true,
     Rx.mkWorld
       (UserMockRepository.mk
          (base.delete 2 UserMockRepository.initialUsers) 6
          (fun n => Z.of_nat n) 0)
       [GetById (str "3"); PermanentDelete (str "3")]).
Proof.
  exact (proj1
           (mock_deletion_lifecycle
              (UserMockRepository.initial (fun n => Z.of_nat n)) 2 Samples.bob
              (MockFacts.initial_consistent _) eq_refl)).
Defined.

(** X23.  The update use case on the in-memory repository never fails
    for an active stored user and a payload that passes its validation:
    after [getById] and [update] it delivers the user with each name
    that the payload provides replaced, a name whose key is missing or
    [undefined] kept, a new [updatedAt], and the id, email, creation
    date and active flag unchanged; this user replaces the old one at
    its position in the store. *)
Theorem mock_update_applies `{UserMockRepository.Host}
    (st : UserMockRepository.t) (i : nat) (u : User.t)
    (userData : UpdateUserData.t) :
  UserMockRepository.Consistent st ->
  UserMockRepository.users st !! i = Some u ->
  User.isActive u = true ->
  UpdateUserData.keyCount userData <> 0%nat ->
  UpdateUserUseCase.validateUpdateData userData = Return tt ->
  let id := User.id u in
  let pick field old :=
    match field with
    | Present name => name
    | Missing | Undefined => old
    end in
  let updated :=
    User.mk id (User.email u)
      (pick (UpdateUserData.firstName userData) (User.firstName u))
      (pick (UpdateUserData.lastName userData) (User.lastName u))
      (User.createdAt u) (UserMockRepository.clock st 0) true in
  Rx.subscribe (UpdateUserUseCase.execute id userData) (Rx.mkWorld st [])
  = (Rx.Emitted updated,
     Rx.mkWorld
       (UserMockRepository.mk
          (<[i := updated]> (UserMockRepository.users st))
          (UserMockRepository.nextId st) (UserMockRepository.time st)
          (UserMockRepository.reads st + 1))
       [GetById id; Update id userData]).
Proof.
  intros Hc Hi Ha Hkeys Hv id pick updated. subst id updated.
  pose proof (MockFacts.stored_id_not_blank st i u Hc Hi) as Hid.
  pose proof (MockFacts.findBy_lookup User.id _ i u
                (UserMockRepository.ids_unique st Hc) Hi) as Hfind.
  pose proof (MockFacts.lookup_valid st i u Hc Hi) as Hinv.
  assert (Hin : UpdateUserUseCase.validateInput (User.id u) userData
                = Return tt).
  { unfold UpdateUserUseCase.validateInput. rewrite Hid.
    cbn [throwIf andThen].
    destruct (Nat.eqb_spec (UpdateUserData.keyCount userData) 0);
      [contradiction|reflexivity]. }
  assert (Hget : IUserRepository.getById (User.id u) st = (Next (Some u), st)).
  { cbn [IUserRepository.getById UserMockRepository.repository].
    unfold UserMockRepository.getById. now rewrite Hfind. }
  rewrite (UseCaseFacts.update_fetched (User.id u) userData
             (Rx.mkWorld st []) _ _ Hin Hget).
  rewrite Ha, Hv.
  cbn [IUserRepository.update UserMockRepository.repository Rx.calls app].
  unfold UserMockRepository.update. rewrite Hfind.
  assert (Hpick : forall field label old,
            UpdateUserUseCase.validateField field label = Return tt ->
            (2 <=? strlen (trim old))%Z = true ->
            UserMockRepository.orExisting field old = pick field old
            /\ (2 <=? strlen (trim (pick field old)))%Z = true).
  { intros [| |name] label old Hf Hold; cbn; auto.
    apply PayloadFacts.validateField_accepts in Hf as [_ Hlen].
    pose proof (PayloadFacts.long_nonempty name Hlen) as Hne.
    unfold str_eqb. rewrite bool_decide_eq_false_2 by exact Hne.
    split; [reflexivity|now apply Z.leb_le]. }
  unfold User.invariants in Hinv.
  apply andb_true_iff in Hinv as [Hinv H3].
  apply andb_true_iff in Hinv as [H1 H2].
  unfold UpdateUserUseCase.validateUpdateData in Hv.
  destruct (UpdateUserUseCase.validateField
              (UpdateUserData.firstName userData) "First name")
    as [[]|] eqn:Hf1; [|discriminate].
  cbn [andThen] in Hv.
  destruct (Hpick _ _ _ Hf1 H2) as [-> P1].
  destruct (Hpick _ _ _ Hv H3) as [-> P2].
  unfold User.updateInfo. rewrite EntityFacts.new_valid.
  - cbn [UserMockRepository.attempt default Rx.deliver]. now rewrite Ha.
  - unfold User.invariants. now rewrite H1, P1, P2.
Qed.

(** Jane gets a new first name; her last name is kept. *)
Lemma mock_update_applies_jane :
  let st := UserMockRepository.initial (fun n => Z.of_nat n) in
  let userData := UpdateUserData.mk (Present (str "Janet")) Missing in
  fst (Rx.subscribe (UpdateUserUseCase.execute (str "2") userData)
         (Rx.mkWorld st []))
  = Rx.Emitted
      (User.mk (str "2") (str "jane.smith@example.com") (str "Janet")
         (str "Smith") (Some 1676851200000%Z) (Some 0%Z) true).
Proof.
  exact (f_equal fst
           (mock_update_applies
              (UserMockRepository.initial (fun n => Z.of_nat n)) 1
              (UserMockRepository.seed "2" "jane.smith@example.com" "Jane"
                 "Smith" 1676851200000 true)
              (UpdateUserData.mk (Present (str "Janet")) Missing)
              (MockFacts.initial_consistent _) eq_refl eq_refl
              (fun E => O_S _ (eq_sym E)) eq_refl)).
Defined.

(** X24.  The create use case on the in-memory repository, for a payload
    that passes its validation.  When a stored user has the email, the
    use case fails with 'User with this email already exists' after
    [existsByEmail] alone and the store is as before.  Otherwise it
    never fails: after [existsByEmail] and [create] it delivers an
    active user with the payload's email and names as given (not
    trimmed), the decimal form of [nextId] as id and the current time as
    both dates; the user is appended to the store and [nextId] is
    incremented. *)
Theorem mock_create_registers `{UserMockRepository.Host}
    (st : UserMockRepository.t) (userData : CreateUserData.t) :
  CreateUserUseCase.validateUserData userData = Return tt ->
  let email := CreateUserData.email userData in
  let user :=
    User.mk (decimal (UserMockRepository.nextId st)) email
      (CreateUserData.firstName userData) (CreateUserData.lastName userData)
      (UserMockRepository.clock st 0) (UserMockRepository.clock st 1) true in
  Rx.subscribe (CreateUserUseCase.execute userData) (Rx.mkWorld st [])
  = if bool_decide (email ∈ User.email <$> UserMockRepository.users st)
    then (Rx.Errored (Error (str "User with this email already exists")),
          Rx.mkWorld st [ExistsByEmail email])
    else (Rx.Emitted user,
          Rx.mkWorld
            (UserMockRepository.mk (UserMockRepository.users st ++ [user])
               (UserMockRepository.increment (UserMockRepository.nextId st))
               (UserMockRepository.time st)
               (UserMockRepository.reads st + 2))
            [ExistsByEmail email; Create userData]).
Proof.
  intros Hv email user. subst email user.
  assert (Hex : IUserRepository.existsByEmail (CreateUserData.email userData)
                  st
                = (Next
                     (bool_decide
                        (is_Some
                           (UserMockRepository.findBy User.email
                              (CreateUserData.email userData)
                              (UserMockRepository.users st)))), st))
    by reflexivity.
  rewrite (UseCaseFacts.create_checked userData (Rx.mkWorld st [])
             _ _ Hv Hex).
  cbn [Rx.calls app].
  destruct (UserMockRepository.findBy User.email
              (CreateUserData.email userData) (UserMockRepository.users st))
    as [found|] eqn:Ef.
  - rewrite bool_decide_eq_true_2 by eauto.
    rewrite bool_decide_eq_true_2; [reflexivity|].
    apply MockFacts.findBy_is_Some. rewrite Ef. eauto.
  - rewrite bool_decide_eq_false_2 by (intros [? [=]]).
    rewrite bool_decide_eq_false_2 by now apply MockFacts.findBy_None.
    cbn [IUserRepository.create UserMockRepository.repository].
    unfold UserMockRepository.create. rewrite Ef.
    apply PayloadFacts.validateUserData_accepts in Hv
      as (He & [_ H1] & [_ H2]).
    rewrite EntityFacts.new_valid; [reflexivity|].
    unfold User.invariants. rewrite He.
    apply andb_true_iff. split; now apply Z.leb_le.
Qed.

(** The payload of the create tests is registered with the id '6'; the
    email of John Doe is taken. *)
Lemma mock_create_registers_john :
  let st := UserMockRepository.initial (fun n => Z.of_nat n) in
  fst (Rx.subscribe (CreateUserUseCase.execute Samples.validUserData)
         (Rx.mkWorld st []))
  = Rx.Emitted
      (User.mk (str "6") (str "test@example.com") (str "John") (str "Doe")
         (Some 0%Z) (Some 1%Z) true)
  /\ fst (Rx.subscribe
            (CreateUserUseCase.execute
               (CreateUserData.mk (str "john.doe@example.com") (str "John")
                  (str "Doe")))
            (Rx.mkWorld st []))
     = Rx.Errored (Error (str "User with this email already exists")).
Proof.
  split.
  - exact (f_equal fst
             (mock_create_registers
                (UserMockRepository.initial (fun n => Z.of_nat n))
                Samples.validUserData eq_refl)).
  - exact (f_equal fst
             (mock_create_registers
                (UserMockRepository.initial (fun n => Z.of_nat n))
                (CreateUserData.mk (str "john.doe@example.com") (str "John")
                   (str "Doe")) eq_refl)).
Defined.

(** X25.  A search through the use case on the in-memory repository:
    for a query with at least two characters after trimming, whatever
    the limit is, [executeSearch] makes one [search] call, does not
    change the store and delivers at most 100 users - at most 20 when no
    limit is given -, all of them stored users in the order of the
    store, each with the trimmed query, in lower case, in the lower-case
    form of its first name, last name or email. *)
Theorem mock_search_is_bounded `{UserMockRepository.Host}
    (st : UserMockRepository.t) (query : jsstring)
    (limit : option JsNumber) :
  (2 <= strlen (trim query))%Z ->
  exists results,
    Rx.subscribe (ListUsersUseCase.executeSearch query limit)
      (Rx.mkWorld st [])
    = (Rx.Emitted results,
       Rx.mkWorld st
         [Search (trim query) (Some (ListUsersUseCase.searchLimit limit))])
    /\ (List.length results <= 100)%nat
    /\ (limit = None -> List.length results <= 20)%nat
    /\ sublist results (UserMockRepository.users st)
    /\ Forall
         (fun user =>
            UserMockRepository.mentions
              (UserMockRepository.toLowerCase (trim query)) user = true)
         results.
Proof.
  intros Hlen.
  destruct (MockFacts.searchLimit_range limit) as (q & Eq & Hpos & Hle).
  set (matching :=
         List.filter
           (UserMockRepository.mentions
              (UserMockRepository.toLowerCase (trim query)))
           (UserMockRepository.users st)).
  exists (sliceTo (Finite q) matching).
  assert (Hgt : num_gt (Finite q) (num 0) = true).
  { unfold num_gt, num. cbn [num_lt]. apply negb_true_iff.
    destruct (Qle_bool q (inject_Z 0)) eqn:E; [|reflexivity].
    apply Qle_bool_iff in E. unfold Qle in E. cbn in E. lia. }
  split; [|split; [|split; [|split]]].
  - unfold ListUsersUseCase.executeSearch.
    rewrite UseCaseFacts.long_not_blank by (apply Z.ltb_ge; lia).
    destruct (Z.ltb_spec (strlen (trim query)) 2); [lia|].
    cbn [throwIf andThen]. rewrite UseCaseFacts.subscribe_invoke.
    cbn [IUserRepository.search UserMockRepository.repository Rx.repo
         Rx.calls app].
    unfold UserMockRepository.search. rewrite Eq, Hgt.
    now rewrite (NumberFacts.positive_truthy _ Hgt).
  - now apply MockFacts.sliceTo_bound.
  - intros ->. cbn in Eq. injection Eq as <-. cbn.
    etransitivity; [apply firstn_le_length|]. reflexivity.
  - unfold sliceTo. etransitivity; [apply sublist_take|].
    apply MockFacts.filter_sublist.
  - unfold sliceTo. apply Forall_take. apply MockFacts.filter_Forall.
Qed.

(** A search for 'jo' in the initial store finds John Doe and Bob
    Johnson. *)
Lemma mock_search_is_bounded_jo :
  exists results,
    Rx.subscribe (ListUsersUseCase.executeSearch (str " Jo ") None)
      (Rx.mkWorld (UserMockRepository.initial (fun n => Z.of_nat n)) [])
    = (Rx.Emitted results,
       Rx.mkWorld (UserMockRepository.initial (fun n => Z.of_nat n))
         [Search (str "Jo") (Some (num 20))])
    /\ (List.length results <= 100)%nat.
Proof.
  destruct (mock_search_is_bounded
              (UserMockRepository.initial (fun n => Z.of_nat n))
              (str " Jo ") None ltac:(vm_compute; discriminate))
    as (results & E & Hle & _).
  exists results. split; [exact E|exact Hle].
Defined.

(** X26.  The count of active users follows the writes of the in-memory
    repository.  When [getActiveUsersCount] delivers [n] in a consistent
    store: after a successful [create] it delivers [n + 1]; after a
    successful [update] of a stored user it still delivers [n]; [delete]
    of an active stored user brings it to [n - 1] with [n] above 0, and
    [permanentDelete] of that user changes nothing; [permanentDelete] of
    an inactive stored user leaves it at [n], and [delete] of that user
    changes nothing. *)
Theorem active_count_follows_writes (st : UserMockRepository.t) (i : nat)
    (u : User.t) (n : nat) :
  let active s k :=
    UserMockRepository.getActiveUsersCount s
    = (Next (num (Z.of_nat k)), s) in
  UserMockRepository.Consistent st ->
  UserMockRepository.users st !! i = Some u ->
  active st n ->
  (forall userData created st',
     UserMockRepository.create userData st = (Next created, st') ->
     active st' (S n))
  /\ (forall userData updated st',
        UserMockRepository.update (User.id u) userData st
        = (Next updated, st') ->
        active st' n)
  /\ (if User.isActive u
      then (exists m, n = S m
                      /\ active (UserMockRepository.delete (User.id u) st).2 m)
           /\ (UserMockRepository.permanentDelete (User.id u) st).2 = st
      else active (UserMockRepository.permanentDelete (User.id u) st).2 n
           /\ (UserMockRepository.delete (User.id u) st).2 = st).
Proof.
  intros active Hc Hi Hn. subst active. cbv beta in *.
  unfold UserMockRepository.getActiveUsersCount in *.
  unfold num, inject_Z in Hn. injection Hn as Hn. apply Nat2Z.inj in Hn.
  pose proof (MockFacts.findBy_lookup User.id _ i u
                (UserMockRepository.ids_unique st Hc) Hi) as Hfind.
  split; [|split].
  - intros userData created st' Hcreate.
    apply MockFacts.create_Next in Hcreate as (_ & _ & Huser & ->).
    cbn [UserMockRepository.users]. rewrite List.filter_app, length_app.
    rewrite Huser at 1. cbn [List.filter User.isActive List.length].
    do 3 f_equal. lia.
  - intros userData updated st'. unfold UserMockRepository.update.
    rewrite Hfind.
    destruct (User.updateInfo _ _ _ _) as [u'|e] eqn:En;
      cbn [UserMockRepository.attempt]; [|discriminate].
    apply EntityFacts.new_Return in En as [_ ->].
    intros [= <- <-]. cbn [UserMockRepository.users].
    pose proof (MockFacts.count_insert User.isActive _ i u
                  (User.mk (User.id u) (User.email u)
                     (UserMockRepository.orExisting
                        (UpdateUserData.firstName userData) (User.firstName u))
                     (UserMockRepository.orExisting
                        (UpdateUserData.lastName userData) (User.lastName u))
                     (User.createdAt u) (UserMockRepository.clock st 0)
                     (User.isActive u)) Hi) as Hcount.
    cbn [User.isActive default] in Hcount |- *.
    do 3 f_equal. destruct (User.isActive u); lia.
  - unfold UserMockRepository.delete, UserMockRepository.permanentDelete.
    rewrite Hfind. destruct (User.isActive u) eqn:Ea; cbn [negb snd].
    + split; [|reflexivity].
      rewrite (MockFacts.deactivate_valid _ u
                 (MockFacts.lookup_valid st i u Hc Hi)).
      cbn [snd UserMockRepository.users].
      pose proof (MockFacts.count_insert User.isActive _ i u
                    (User.mk (User.id u) (User.email u) (User.firstName u)
                       (User.lastName u) (User.createdAt u)
                       (UserMockRepository.clock st 0) false) Hi) as Hcount.
      rewrite Ea in Hcount. cbn [User.isActive] in Hcount.
      eexists. split; [|reflexivity]. lia.
    + split; [|reflexivity]. cbn [UserMockRepository.users].
      pose proof (MockFacts.count_delete User.isActive _ i u Hi) as Hcount.
      rewrite Ea in Hcount. do 3 f_equal. lia.
Qed.

(** Four of the five initial users are active; without Alice there are
    three. *)
Lemma active_count_follows_writes_alice :
  let st := UserMockRepository.initial (fun n => Z.of_nat n) in
  exists m,
    4%nat = S m
    /\ UserMockRepository.getActiveUsersCount
         (UserMockRepository.delete (str "4") st).2
       = (Next (num (Z.of_nat m)), (UserMockRepository.delete (str "4") st).2).
Proof.
  exact (proj1 (proj2 (proj2
           (active_count_follows_writes
              (UserMockRepository.initial (fun n => Z.of_nat n)) 3
              (UserMockRepository.seed "4" "alice.brown@example.com" "Alice"
                 "Brown" 1680652800000 true) 4
              (MockFacts.initial_consistent _) eq_refl eq_refl)))).
Defined.

(** X27.  A date range through the use case on the in-memory
    repository.  For a start before the end and not after the current
    time, [executeByDateRange] delivers exactly the stored users created
    from the start to the end, both included, in the order of the store;
    a user whose creation date is invalid is never among them.  When the
    start date is invalid, or the end date is invalid and the start is
    not after the current time, the use case does not reject the range
    and the repository delivers no user at all. *)
Theorem mock_date_range `{UserMockRepository.Host}
    (st : UserMockRepository.t) (now endDate : JsDate.t) (s e n : Z) :
  (s < e)%Z -> (s <= n)%Z ->
  let run startDate endDate :=
    Rx.subscribe
      (ListUsersUseCase.executeByDateRange (Some n) startDate endDate)
      (Rx.mkWorld st []) in
  (exists results,
     run (Some s) (Some e)
     = (Rx.Emitted results,
        Rx.mkWorld st [GetByDateRange (Some s) (Some e)])
     /\ sublist results (UserMockRepository.users st)
     /\ forall user,
          user ∈ results
          <-> user ∈ UserMockRepository.users st
              /\ exists created,
                   User.createdAt user = Some created
                   /\ (s <= created <= e)%Z)
  /\ Rx.subscribe (ListUsersUseCase.executeByDateRange now None endDate)
       (Rx.mkWorld st [])
     = (Rx.Emitted [], Rx.mkWorld st [GetByDateRange None endDate])
  /\ run (Some s) None
     = (Rx.Emitted [], Rx.mkWorld st [GetByDateRange (Some s) None]).
Proof.
  intros Hse Hsn run. subst run. cbv beta.
  assert (Hnone : forall (f : User.t -> bool) l,
            (forall u, f u = false) -> List.filter f l = []).
  { intros f l Hf. induction l as [|x l IH]; cbn; [reflexivity|].
    now rewrite Hf. }
  unfold ListUsersUseCase.executeByDateRange. cbn [JsDate.geb JsDate.gtb].
  destruct (Z.leb_spec e s); [lia|]. destruct (Z.ltb_spec n s); [lia|].
  cbn [throwIf andThen]. rewrite !UseCaseFacts.subscribe_invoke.
  cbn [IUserRepository.getByDateRange UserMockRepository.repository Rx.repo
       Rx.calls app].
  unfold UserMockRepository.getByDateRange. cbn [Rx.deliver].
  split; [|split].
  - eexists. split; [reflexivity|]. split; [apply MockFacts.filter_sublist|].
    intros user. rewrite !list_elem_of_In, filter_In.
    unfold UserMockRepository.createdWithin, JsDate.geb.
    destruct (User.createdAt user) as [created|].
    + rewrite andb_true_iff, !Z.leb_le. split.
      * intros [Hin Hrange]. eauto.
      * intros [Hin (c & [= <-] & Hrange)]. auto.
    + split; [now intros [_ ?]|]. now intros [_ (c & [=] & _)].
  - rewrite Hnone; [reflexivity|]. intros u.
    unfold UserMockRepository.createdWithin, JsDate.geb.
    now destruct (User.createdAt u).
  - rewrite Hnone; [reflexivity|]. intros u.
    unfold UserMockRepository.createdWithin, JsDate.geb.
    destruct (User.createdAt u); [apply andb_false_r|reflexivity].
Qed.

(** The first quarter of 2023, asked for at the end of that year: John,
    Jane and Bob. *)
Lemma mock_date_range_quarter :
  exists results,
    Rx.subscribe
      (ListUsersUseCase.executeByDateRange (Some 1703980800000%Z)
         Samples.date20230101 (Some 1680307200000%Z))
      (Rx.mkWorld (UserMockRepository.initial (fun n => Z.of_nat n)) [])
    = (Rx.Emitted results,
       Rx.mkWorld (UserMockRepository.initial (fun n => Z.of_nat n))
         [GetByDateRange Samples.date20230101 (Some 1680307200000%Z)])
    /\ sublist results UserMockRepository.initialUsers.
Proof.
  destruct (proj1
              (mock_date_range
                 (UserMockRepository.initial (fun n => Z.of_nat n))
                 None None 1672531200000 1680307200000 1703980800000
                 eq_refl ltac:(discriminate)))
    as (results & E & Hsub & _).
  exists results. split; [exact E|exact Hsub].
Defined.

(** X28.  A listing through the use case on the in-memory repository
    never fails and does not change the store.  The page and the limit
    it delivers are the ones the use case has validated (the defaults of
    [getAll] itself are never used); the total is the number of all
    stored users that have the requested [isActive] flag, if one is
    given, and mention the validated search term, if there is one and it
    is not empty - not the number of users on the page.  The users
    delivered are some of these matches, in the order of the store; for
    a whole page number [P] and a whole limit [L] with [P * L] below
    2^53 they are the [L] matches after the first [(P - 1) * L], or as
    many as there are, and without options the first 10. *)
Theorem mock_list_counts_matches `{UserMockRepository.Host}
    (st : UserMockRepository.t) (options : option ListOptions.t) :
  let validated := ListUsersUseCase.validateAndSetDefaults options in
  let wanted user :=
    match options ≫= ListOptions.isActive with
    | Some active => Bool.eqb (User.isActive user) active
    | None => true
    end
    && match ListOptions.search validated with
       | Some term =>
           str_eqb term []
           || UserMockRepository.mentions
                (UserMockRepository.toLowerCase term) user
       | None => true
       end in
  let matching := List.filter wanted (UserMockRepository.users st) in
  exists page limit delivered,
    ListOptions.page validated = Some page
    /\ ListOptions.limit validated = Some limit
    /\ Rx.subscribe (ListUsersUseCase.execute options) (Rx.mkWorld st [])
       = (Rx.Emitted
            (UserPage.mk delivered (num (Z.of_nat (List.length matching)))
               page limit),
          Rx.mkWorld st [GetAll validated])
    /\ sublist delivered matching
    /\ (forall P L : Z,
          page = num P -> limit = num L -> (P * L < 2 ^ 53)%Z ->
          delivered
          = take (Z.to_nat L) (drop (Z.to_nat ((P - 1) * L)) matching))
    /\ (options = None -> delivered = take 10 matching).
Proof.
  intros validated wanted matching.
  destruct (MockFacts.validated_truthy options)
    as (page & limit & Ep & El & Tp & Tl).
  fold validated in Ep, El.
  exists page, limit,
    (slice (num_mul (num_sub page (num 1)) limit)
       (num_add (num_mul (num_sub page (num 1)) limit) limit) matching).
  split; [exact Ep|]. split; [exact El|].
  assert (Hwhole : forall P L : Z,
            page = num P -> limit = num L -> (P * L < 2 ^ 53)%Z ->
            slice (num_mul (num_sub page (num 1)) limit)
              (num_add (num_mul (num_sub page (num 1)) limit) limit) matching
            = take (Z.to_nat L) (drop (Z.to_nat ((P - 1) * L)) matching)).
  { intros P L -> -> Hbound.
    destruct (MockFacts.validated_whole options P L Ep El) as [HP HL].
    assert (0 <= (P - 1) * L <= P * L)%Z by nia.
    rewrite ArithmeticFacts.num_sub_whole by nia.
    rewrite ArithmeticFacts.num_mul_whole by lia.
    rewrite ArithmeticFacts.num_add_whole by nia.
    apply ArithmeticFacts.slice_whole; lia. }
  split; [|split; [apply ArithmeticFacts.slice_sublist|split; [exact Hwhole|]]].
  - unfold ListUsersUseCase.execute. fold validated.
    rewrite UseCaseFacts.subscribe_invoke.
    cbn [IUserRepository.getAll UserMockRepository.repository Rx.repo
         Rx.calls app].
    unfold UserMockRepository.getAll. rewrite Ep, El.
    unfold ListUsersUseCase.orDefault. rewrite Tp, Tl. cbn [Rx.deliver].
    assert (Eactive : ListOptions.isActive validated
                      = options ≫= ListOptions.isActive)
      by now destruct options.
    rewrite Eactive.
    assert (Ematching :
              match ListOptions.search validated with
              | Some term =>
                  if str_eqb term []
                  then match options ≫= ListOptions.isActive with
                       | Some active =>
                           List.filter
                             (fun user => Bool.eqb (User.isActive user) active)
                             (UserMockRepository.users st)
                       | None => UserMockRepository.users st
                       end
                  else List.filter
                         (UserMockRepository.mentions
                            (UserMockRepository.toLowerCase term))
                         match options ≫= ListOptions.isActive with
                         | Some active =>
                             List.filter
                               (fun user => Bool.eqb (User.isActive user) active)
                               (UserMockRepository.users st)
                         | None => UserMockRepository.users st
                         end
              | None =>
                  match options ≫= ListOptions.isActive with
                  | Some active =>
                      List.filter
                        (fun user => Bool.eqb (User.isActive user) active)
                        (UserMockRepository.users st)
                  | None => UserMockRepository.users st
                  end
              end = matching).
    { subst matching wanted. cbv beta.
      rewrite <- (MockFacts.filter_filter
                    (fun user =>
                       match options ≫= ListOptions.isActive with
                       | Some active => Bool.eqb (User.isActive user) active
                       | None => true
                       end)
                    (fun user =>
                       match ListOptions.search validated with
                       | Some term =>
                           str_eqb term []
                           || UserMockRepository.mentions
                                (UserMockRepository.toLowerCase term) user
                       | None => true
                       end)).
      destruct (options ≫= ListOptions.isActive) as [active|];
        rewrite ?MockFacts.filter_true;
        (destruct (ListOptions.search validated) as [term|];
         [destruct (str_eqb term []); cbn [orb]|];
         now rewrite ?MockFacts.filter_true). }
    now rewrite Ematching.
  - intros ->. subst validated. cbn in Ep, El.
    injection Ep as <-. injection El as <-.
    rewrite (Hwhole 1 10 eq_refl eq_refl eq_refl)%Z. reflexivity.
Qed.

(** The second page of two in the initial store: Bob and Alice, of five
    users. *)
Lemma mock_list_counts_matches_second_page :
  fst (Rx.subscribe
         (ListUsersUseCase.execute
            (Some (ListOptions.mk (Some (num 2)) (Some (num 2)) None None)))
         (Rx.mkWorld (UserMockRepository.initial (fun n => Z.of_nat n)) []))
  = Rx.Emitted
      (UserPage.mk
         [Samples.bob;
          UserMockRepository.seed "4" "alice.brown@example.com" "Alice"
            "Brown" 1680652800000 true]
         (num 5) (num 2) (num 2)).
Proof.
  destruct (mock_list_counts_matches
              (UserMockRepository.initial (fun n => Z.of_nat n))
              (Some (ListOptions.mk (Some (num 2)) (Some (num 2)) None None)))
    as (page & limit & delivered & Ep & El & Erun & _ & Hwhole & _).
  injection Ep as <-. injection El as <-.
  rewrite Erun, (Hwhole 2 2 eq_refl eq_refl eq_refl)%Z. reflexivity.
Defined.

(** ** The HTTP repository *)

(** X29.  [getById] of the HTTP repository never reports a missing user
    as an error.  A request that fails with status 404 gives the value
    [null], as in [getByEmail].  When [getById] fails, the error is a
    domain error built by [fromHttpError], never a [UserNotFoundError],
    and the use-case error handler passes it on without a notification.
    When the request itself succeeded, the failure comes from the
    entity, which rejected the user of the response: the error is a
    [RepositoryError] for the operation 'unknown' that carries the
    message of the entity. *)
Theorem http_getById_absorbs_not_found `{JsDate.Host}
    (response : UserRepository.Response (option (gmap string JsVal)))
    (e : JsError) :
  UserRepository.getById response = Some (Failure e) ->
  (exists d,
     e = Domain d
     /\ className d <> str "UserNotFoundError"
     /\ ErrorHandlingService.handleUseCaseError (CaughtError e) = (d, []))
  /\ (forall userData,
        response = UserRepository.Body userData ->
        exists m,
          e = Domain (RepositoryError m (str "unknown"))
          /\ Error m ∈
               [Error (str "Invalid email format");
                Error (str "First name must be at least 2 characters long");
                Error (str "Last name must be at least 2 characters long")])
  /\ (forall error,
        UserRepository.statusIs error 404 = true ->
        UserRepository.getById (UserRepository.Fault error) = Some (Next None)
        /\ UserRepository.getByEmail (UserRepository.Fault error)
           = Some (Next None)).
Proof.
  intros Hfail. unfold UserRepository.getById in Hfail.
  apply HttpFacts.piped_Failure in Hfail as (error & Hsel & Hsource).
  destruct (UserRepository.statusIs error 404) eqn:E404; [discriminate|].
  injection Hsel as <-.
  split; [|split].
  - eexists. split; [reflexivity|]. split; [|reflexivity].
    unfold DomainErrorFactory.fromHttpError.
    unfold UserRepository.statusIs in E404. rewrite E404.
    repeat match goal with
           | |- context [if ?b then _ else _] => destruct b
           end; intros E; vm_compute in E; discriminate E.
  - intros userData ->.
    destruct Hsource as [[=]|(a & thrown & [= <-] & Hproject & ->)].
    unfold UserRepository.mapToUserOrNull in Hproject.
    destruct userData as [data|]; [|discriminate].
    destruct (UserRepository.mapToUser data) as [[user|thrown']|] eqn:Em;
      cbn in Hproject; try discriminate.
    injection Hproject as <-.
    apply HttpFacts.mapToUser_Throw in Em.
    exists (message thrown'). split.
    + rewrite ErrorFacts.fromHttpError_error.
      repeat (apply elem_of_cons in Em as [->|Em]; [reflexivity|]).
      now apply elem_of_nil in Em.
    + repeat (apply elem_of_cons in Em as [->|Em]; [set_solver|]).
      now apply elem_of_nil in Em.
  - intros error' E. unfold UserRepository.getById, UserRepository.getByEmail.
    cbn [UserRepository.piped]. now rewrite E.
Qed.

(** A server error on [getById] becomes a [RepositoryError]. *)
Lemma http_getById_absorbs_not_found_500 :
  exists d,
    Domain (RepositoryError (str "Server error") (str "/api/users/1"))
    = Domain d
    /\ className d <> str "UserNotFoundError"
    /\ ErrorHandlingService.handleUseCaseError
         (CaughtError
            (Domain (RepositoryError (str "Server error") (str "/api/users/1"))))
       = (d, []).
Proof.
  exact (proj1
           (@http_getById_absorbs_not_found strictHost
              (UserRepository.Fault
                 (CaughtResponse
                    (HttpError.mk (Some (num 500)) (Some (str "/api/users/1"))
                       (Some (str "Server error")) None)))
              (Domain (RepositoryError (str "Server error")
                         (str "/api/users/1")))
              eq_refl)).
Defined.

(** X30.  The other single-user methods of the HTTP repository hide the
    cause of a failure.  When [getByEmail], [create] or [update] fails,
    the error is a plain [Error] with one of five fixed messages, never
    a domain error - also when the entity rejected the user of the
    response, whose message is lost -; so the use-case error handler
    turns it into a [RepositoryError] and shows 'Data access error
    occurred', even for the conflict (409) that [create] reports as
    'User with this email already exists'. *)
Theorem http_failures_are_plain_errors `{JsDate.Host}
    (lookup : UserRepository.Response (option (gmap string JsVal)))
    (written : UserRepository.Response (gmap string JsVal)) (e : JsError) :
  UserRepository.getByEmail lookup = Some (Failure e)
  \/ UserRepository.create written = Some (Failure e)
  \/ UserRepository.update written = Some (Failure e) ->
  e ∈ [Error (str "Failed to fetch user");
       Error (str "User with this email already exists");
       Error (str "Failed to create user");
       Error (str "User not found");
       Error (str "Failed to update user")]
  /\ isDomainError e = false
  /\ ErrorHandlingService.handleUseCaseError (CaughtError e)
     = (RepositoryError (message e) (str "unknown"),
        [ErrorHandlingService.mkShown (str "Operation Failed")
           (str "Data access error occurred")]).
Proof.
  intros Hfail.
  assert (Hin : e ∈ [Error (str "Failed to fetch user");
                     Error (str "User with this email already exists");
                     Error (str "Failed to create user");
                     Error (str "User not found");
                     Error (str "Failed to update user")]).
  { destruct Hfail as [Hfail|[Hfail|Hfail]];
      apply HttpFacts.piped_Failure in Hfail as (error & Hsel & _);
      cbv beta in Hsel;
      match type of Hsel with
      | (if ?b then _ else _) = _ => destruct b
      end; try discriminate; injection Hsel as <-; set_solver. }
  split; [exact Hin|].
  repeat (apply elem_of_cons in Hin as [->|Hin]; [split; reflexivity|]).
  now apply elem_of_nil in Hin.
Qed.

(** A conflict on [create]. *)
Lemma http_failures_are_plain_errors_conflict :
  ErrorHandlingService.handleUseCaseError
    (CaughtError (Error (str "User with this email already exists")))
  = (RepositoryError (str "User with this email already exists")
       (str "unknown"),
     [ErrorHandlingService.mkShown (str "Operation Failed")
        (str "Data access error occurred")]).
Proof.
  exact (proj2 (proj2
           (@http_failures_are_plain_errors strictHost
              (UserRepository.Body None)
              (UserRepository.Fault
                 (CaughtResponse
                    (HttpError.mk (Some (num 409)) (Some (str "/api/users"))
                       (Some (str "Conflict")) None)))
              (Error (str "User with this email already exists"))
              (or_intror (or_introl eq_refl))))).
Defined.
